(** * Tuya thermostatic radiator valves: datapoint <-> cluster translation

    A shallow embedding of [zhaquirks/tuya/ts0601_trv.py]: the Python
    values the quirk computes with, the per-cluster attribute caches, the
    update dispatchers of the manufacturer clusters with their bus fan-out,
    the derived running-state calculators, and the reverse mappers
    ([map_attribute] / [write_attributes]). *)

From Stdlib Require Import ZArith QArith Qround Lia.
From stdpp Require Import base option list strings gmap.

Local Open Scope Z_scope.
Set Warnings "-register-all".

(** ** Python values *)

Module Py.

(** The values that travel through the quirk: [None], booleans, integers
    (enums are integers), floats produced by true division, and lists
    (raw datapoint payloads such as [data24] and [data144]).  Floats are
    kept as exact rationals in lowest terms. *)
Inductive pyval : Type :=
| PNone
| PBool (b : bool)
| PInt (z : Z)
| PFloat (q : Q)
| PList (l : list pyval).

Inductive exn : Type :=
| TypeError
| KeyError
| IndexError
| AttributeError
| ZeroDivisionError.

Inductive result (A : Type) : Type :=
| Ok (a : A)
| Raise (e : exn).
Global Arguments Ok {A} a.
Global Arguments Raise {A} e.

Global Instance result_ret : MRet result := fun A a => Ok a.
Global Instance result_bind : MBind result := fun A B f m =>
  match m with
  | Ok a => f a
  | Raise e => Raise e
  end.

Definition bool_to_Z (b : bool) : Z := if b then 1 else 0.

(** [round(x)] on a float: nearest integer, ties to the even one.  The
    rounding is that of the exact quotient.  On the quotients [v / 10] and
    [v / 100] of the mappers the binary64 quotient of the code rounds to
    the same integer as long as [v] is a value of one of the wire types
    (at most 32 bits); from about [1.1e16] on the two differ, and the
    [OverflowError] of a quotient too large for a float is not modelled. *)
Definition round_half_even (q : Q) : Z :=
  let fl := Qfloor q in
  match ((q - inject_Z fl) * 2 ?= 1)%Q with
  | Lt => fl
  | Gt => fl + 1
  | Eq => if Z.even fl then fl else fl + 1
  end.

(** [int(x)] on a float truncates towards zero. *)
Definition trunc (q : Q) : Z := Z.quot (Qnum q) (Z.pos (Qden q)).

(** [v * k] for an integer literal [k]. *)
Definition mul (v : pyval) (k : Z) : result pyval :=
  match v with
  | PNone => Raise TypeError
  | PBool b => Ok (PInt (bool_to_Z b * k))
  | PInt z => Ok (PInt (z * k))
  | PFloat q => Ok (PFloat (Qred (q * inject_Z k)%Q))
  | PList l => Ok (PList (concat (replicate (Z.to_nat k) l)))
  end.

(** [v / k] (true division) for an integer literal [k]. *)
Definition truediv (v : pyval) (k : Z) : result pyval :=
  let quot (q : Q) :=
    if k =? 0 then Raise ZeroDivisionError
    else Ok (PFloat (Qred (q / inject_Z k)%Q)) in
  match v with
  | PBool b => quot (inject_Z (bool_to_Z b))
  | PInt z => quot (inject_Z z)
  | PFloat q => quot q
  | PNone | PList _ => Raise TypeError
  end.

(** [v + k] for an integer literal [k]. *)
Definition add (v : pyval) (k : Z) : result pyval :=
  match v with
  | PBool b => Ok (PInt (bool_to_Z b + k))
  | PInt z => Ok (PInt (z + k))
  | PFloat q => Ok (PFloat (Qred (q + inject_Z k)%Q))
  | PNone | PList _ => Raise TypeError
  end.

(** [round(v)] *)
Definition round (v : pyval) : result pyval :=
  match v with
  | PBool b => Ok (PInt (bool_to_Z b))
  | PInt z => Ok (PInt z)
  | PFloat q => Ok (PInt (round_half_even q))
  | PNone | PList _ => Raise TypeError
  end.

(** [int(v)] *)
Definition int (v : pyval) : result Z :=
  match v with
  | PBool b => Ok (bool_to_Z b)
  | PInt z => Ok z
  | PFloat q => Ok (trunc q)
  | PNone | PList _ => Raise TypeError
  end.

(** [v == k] for an integer constant [k]; never raises. *)
Definition eq_int (v : pyval) (k : Z) : bool :=
  match v with
  | PBool b => bool_to_Z b =? k
  | PInt z => z =? k
  | PFloat q => Qeq_bool q (inject_Z k)
  | PNone | PList _ => false
  end.

(** [v > k] for an integer constant [k]. *)
Definition gt_int (v : pyval) (k : Z) : result bool :=
  match v with
  | PBool b => Ok (k <? bool_to_Z b)
  | PInt z => Ok (k <? z)
  | PFloat q => Ok (negb (Qle_bool q (inject_Z k)))
  | PNone | PList _ => Raise TypeError
  end.

(** Truth value of [v], as tested by [if v] and [not v]. *)
Definition truthy (v : pyval) : bool :=
  match v with
  | PNone => false
  | PBool b => b
  | PInt z => negb (z =? 0)
  | PFloat q => negb (Qeq_bool q 0)
  | PList l => match l with [] => false | _ => true end
  end.

(** [v[i]] for a non-negative index literal. *)
Definition index (v : pyval) (i : nat) : result pyval :=
  match v with
  | PList l => match l !! i with
               | Some x => Ok x
               | None => Raise IndexError
               end
  | PNone | PBool _ | PInt _ | PFloat _ => Raise TypeError
  end.

(** [v & k] for an integer literal [k]. *)
Definition band (v : pyval) (k : Z) : result pyval :=
  match v with
  | PBool b => Ok (PInt (Z.land (bool_to_Z b) k))
  | PInt z => Ok (PInt (Z.land z k))
  | PNone | PFloat _ | PList _ => Raise TypeError
  end.

(** [round(v / k)], the decidegree/centidegree scaling of the mappers. *)
Definition round_div (v : pyval) (k : Z) : result pyval :=
  q ← truediv v k; round q.

End Py.
Import Py.

(** ** Attribute caches

    [_attr_cache] of a cluster: attribute id to last value.  [cache_get] is
    [dict.get(key)] (giving [None] for an absent key) and [cache_get_or] is
    [dict.get(key, default)]. *)

Abbreviation cache := (gmap Z pyval).

Definition cache_get (c : cache) (attrid : Z) : pyval :=
  default PNone (c !! attrid).

Definition cache_get_or (c : cache) (attrid : Z) (dflt : pyval) : pyval :=
  default dflt (c !! attrid).

(** A dict of manufacturer datapoints, in insertion order. *)
Abbreviation dict := (list (Z * pyval)).

(** [d.update(other)]: later keys replace earlier ones in place, new keys go
    to the end. *)
Fixpoint dict_set (d : dict) (k : Z) (v : pyval) : dict :=
  match d with
  | [] => [(k, v)]
  | (k', v') :: rest =>
      if k' =? k then (k', v) :: rest else (k', v') :: dict_set rest k v
  end.

Definition dict_update (d other : dict) : dict :=
  fold_left (fun acc kv => dict_set acc (fst kv) (snd kv)) other d.

(** [table[name]] on a name-indexed table; [KeyError] when absent. *)
Fixpoint assoc {A} (tbl : list (string * A)) (name : string) : option A :=
  match tbl with
  | [] => None
  | (n, a) :: rest => if String.eqb n name then Some a else assoc rest name
  end.

Definition assoc_Z {A} (tbl : list (Z * A)) (k : Z) : option A :=
  snd <$> find (fun kv => fst kv =? k) tbl.

Definition by_name (tbl : list (string * Z)) (name : string) : result Z :=
  match assoc tbl name with
  | Some i => Ok i
  | None => Raise KeyError
  end.

(** [self.attributes[attrid].name] on the table of a cluster's attributes;
    [KeyError] when the id is not an attribute of the cluster. *)
Definition attr_name (tbl : list (string * Z)) (attrid : Z) : result string :=
  match find (fun na => snd na =? attrid) tbl with
  | Some (name, _) => Ok name
  | None => Raise KeyError
  end.

(** [attrid in self.attributes] *)
Definition has_id (tbl : list (string * Z)) (attrid : Z) : bool :=
  existsb (fun na => snd na =? attrid) tbl.

(** ** Device state and the effects of cluster code

    A device is a fixed set [C] of synthetic cluster instances, each owning
    an attribute cache.  Cluster code mutates caches through
    [_update_attribute], which also notifies the cluster's listeners; the
    notifications are kept in [attribute_updates], in order.  [tuya_writes]
    records the datapoint writes handed to the device's manufacturer
    cluster. *)

Section Device.
Context {C : Type} `{EqDecision C}.

Record DevState : Type := mkDev {
  attr_cache : C -> cache;
  attribute_updates : list (C * Z * pyval);
  tuya_writes : list dict
}.

(** Stateful code that may raise: the state reached is kept when an
    exception is raised, as mutations done before a Python exception
    persist. *)
Definition M (A : Type) : Type := DevState -> DevState * result A.

Global Instance M_ret : MRet M := fun A a s => (s, Ok a).
Global Instance M_bind : MBind M := fun A B f m s =>
  match m s with
  | (s', Ok a) => f a s'
  | (s', Raise e) => (s', Raise e)
  end.

Definition lift {A} (r : result A) : M A := fun s => (s, r).

(** Modelled from the spec: the generic [_update_attribute] of the cluster
    base class is not among the sources.  The cache is a last-value-wins
    map, and every applied update is notified to the listeners of the
    cluster.  The spec is silent on a value of [None], which no datapoint
    report carries; it is treated here like any other value. *)
Definition update_attribute (c : C) (attrid : Z) (value : pyval) : M unit :=
  fun s =>
    ({| attr_cache := fun c' =>
          (if decide (c' = c) then insert attrid value else id)
            (attr_cache s c');
        attribute_updates := attribute_updates s ++ [(c, attrid, value)];
        tuya_writes := tuya_writes s |}, Ok tt).

(** [c._attr_cache.get(attrid)] and [c._attr_cache.get(attrid, dflt)] *)
Definition get (c : C) (attrid : Z) : M pyval :=
  fun s => (s, Ok (cache_get (attr_cache s c) attrid)).

Definition get_or (c : C) (attrid : Z) (dflt : pyval) : M pyval :=
  fun s => (s, Ok (cache_get_or (attr_cache s c) attrid dflt)).

(** Modelled from the spec: [Bus.listener_event] is not among the sources.
    Delivery to a listener is synchronous; a failure inside the listener
    is scoped to that call and does not reach the publisher
    (section 7, nothing is fatal to the host process). *)
Definition listener (call : M unit) : M unit :=
  fun s => (fst (call s), Ok tt).

(** Modelled from the spec: [write_attributes] of the manufacturer cluster
    (the outbound request surface) is not among the sources.  One call
    hands one set of datapoints to the transport as a single request. *)
Definition tuya_manufacturer_write_attributes (attrs : dict) : M unit :=
  fun s =>
    ({| attr_cache := attr_cache s;
        attribute_updates := attribute_updates s;
        tuya_writes := tuya_writes s ++ [attrs] |}, Ok tt).

(** Modelled from the spec: the frame handler that calls
    [_update_attribute] of the manufacturer cluster is not among the
    sources.  A failure while one inbound frame is handled is scoped to
    that frame (section 7).  The handler looks the datapoint up among the
    attributes of the cluster first and drops a frame whose datapoint is
    not there (sections 4.2 and 7): [contained] is the handling of a frame
    whose datapoint is registered, and a dropped frame changes nothing. *)
Definition contained (handle : M unit) : M unit :=
  fun s => (fst (handle s), Ok tt).

(** Applying a list of attribute updates, first to last. *)
Definition notify (s : DevState) (u : C * Z * pyval) : DevState :=
  fst (update_attribute u.1.1 u.1.2 u.2 s).

Definition apply_updates (us : list (C * Z * pyval)) (s : DevState) : DevState :=
  fold_left notify us s.

Definition run {A} (m : M A) (s : DevState) : DevState := fst (m s).
Definition outcome {A} (m : M A) (s : DevState) : result A := snd (m s).

(** The datapoint writes a computation hands to the manufacturer cluster,
    beyond those already in [s]. *)
Definition sent {A} (m : M A) (s : DevState) : list dict :=
  drop (length (tuya_writes s)) (tuya_writes (run m s)).

(** The updates a computation notifies, beyond those already in [s]. *)
Definition emitted {A} (m : M A) (s : DevState) : list (C * Z * pyval) :=
  drop (length (attribute_updates s)) (attribute_updates (run m s)).

(** The value a list of updates leaves under attribute [a] of cluster [c],
    if it writes there: the last one wins. *)
Fixpoint last_write (us : list (C * Z * pyval)) (c : C) (a : Z)
    : option pyval :=
  match us with
  | [] => None
  | u :: rest =>
      match last_write rest c a with
      | Some v => Some v
      | None => if decide (u.1.1 = c /\ u.1.2 = a) then Some u.2 else None
      end
  end.

(** Two states that hold the same values under the keys [R]. *)
Definition agree (R : list (C * Z)) (s s' : DevState) : Prop :=
  forall c a, (c, a) ∈ R -> attr_cache s c !! a = attr_cache s' c !! a.

(** A computation that reads the caches under the keys [R] only and writes
    outside [R] only: what it does to a state is a list of updates and an
    outcome fixed by the values under [R]. *)
Definition isolated {A} (R : list (C * Z)) (m : M A) : Prop :=
  forall s, exists (us : list (C * Z * pyval)) (r : result A),
    Forall (fun u => (u.1.1, u.1.2) ∉ R) us /\
    forall s', agree R s s' -> m s' = (apply_updates us s', r).

(** Two states with the same attribute caches; the notification history
    and the writes sent so far may differ. *)
Definition same_caches (s1 s2 : DevState) : Prop :=
  forall c, attr_cache s1 c = attr_cache s2 c.

(** A computation whose notifications, outcome and effect on the caches
    are fixed by the caches it starts from. *)
Definition cache_determined {A} (m : M A) : Prop :=
  forall s1 s2, same_caches s1 s2 ->
    same_caches (run m s1) (run m s2) /\
    outcome m s1 = outcome m s2 /\
    exists us, attribute_updates (run m s1) = attribute_updates s1 ++ us /\
               attribute_updates (run m s2) = attribute_updates s2 ++ us.

End Device.
Global Arguments DevState C : clear implicits.
Global Arguments M C A : clear implicits.

(** A computation whose whole effect on a state is a list of attribute
    updates, each under a key that [P] allows; it sends nothing. *)
Definition writes_only {C} `{EqDecision C} {A} (P : C -> Z -> Prop)
    (m : M C A) : Prop :=
  forall s, exists (us : list (C * Z * pyval)) (r : result A),
    m s = (apply_updates us s, r) /\ Forall (fun u => P u.1.1 u.1.2) us.

(** No restriction on the keys written. *)
Definition any_key {C} : C -> Z -> Prop := fun _ _ => True.

(** Every key but attribute [a0] of cluster [c0]. *)
Definition other_than {C} (c0 : C) (a0 : Z) : C -> Z -> Prop :=
  fun c a => ~ (c = c0 /\ a = a0).

(** A device whose caches hold what [caches] says and that has not notified
    or sent anything yet. *)
Definition fresh {C} (caches : C -> cache) : DevState C :=
  {| attr_cache := caches; attribute_updates := []; tuya_writes := [] |}.

(** ** Constants of the standard clusters

    Attribute ids and enum values of the ZCL Thermostat, OnOff, thermostat
    UI, power configuration and analog output clusters, as the cluster
    library defines them. *)

Module Thermostat.
Definition attributes_by_name : list (string * Z) :=
  [ ("local_temperature", 0x0000); ("occupancy", 0x0002);
    ("local_temperature_calibration", 0x0010);
    ("occupied_heating_setpoint", 0x0012);
    ("unoccupied_heating_setpoint", 0x0014);
    ("min_heat_setpoint_limit", 0x0015);
    ("max_heat_setpoint_limit", 0x0016);
    ("ctrl_sequence_of_oper", 0x001B); ("system_mode", 0x001C);
    ("alarm_mask", 0x001D); ("running_mode", 0x001E);
    ("programing_oper_mode", 0x0025); ("running_state", 0x0029) ]%string.

Module SystemMode.
Definition Off : Z := 0x00.
Definition Auto : Z := 0x01.
Definition Heat : Z := 0x04.
End SystemMode.
Module RunningMode.
Definition Off : Z := 0x00.
Definition Heat : Z := 0x04.
End RunningMode.
Module RunningState.
Definition Idle : Z := 0x0000.
Definition Heat_State_On : Z := 0x0001.
End RunningState.
Module ProgrammingOperationMode.
Definition Simple : Z := 0x00.
Definition Schedule_programming_mode : Z := 0x01.
Definition Economy_mode : Z := 0x04.
End ProgrammingOperationMode.
Module Occupancy.
Definition Unoccupied : Z := 0x00.
Definition Occupied : Z := 0x01.
End Occupancy.
End Thermostat.

Module OnOff.
Definition attributes_by_name : list (string * Z) :=
  [ ("on_off", 0x0000); ("global_scene_control", 0x4000);
    ("on_time", 0x4001); ("off_wait_time", 0x4002);
    ("start_up_on_off", 0x4003) ]%string.
End OnOff.

Module UserInterface.
Definition attributes_by_name : list (string * Z) :=
  [ ("temperature_display_mode", 0x0000); ("keypad_lockout", 0x0001);
    ("schedule_programming_visibility", 0x0002) ]%string.
Module KeypadLockout.
Definition No_lockout : Z := 0x00.
Definition Level_1_lockout : Z := 0x01.
End KeypadLockout.
End UserInterface.

Module PowerConfiguration.
Definition attributes_by_name : list (string * Z) :=
  [ ("battery_voltage", 0x0020);
    ("battery_percentage_remaining", 0x0021) ]%string.
End PowerConfiguration.

(** The attributes of the ZCL analog output cluster.  Ids from [0xF000]
    on are kept for attributes common to all clusters and are not
    listed. *)
Module AnalogOutput.
Definition attributes_by_name : list (string * Z) :=
  [ ("description", 0x001C); ("max_present_value", 0x0041);
    ("min_present_value", 0x0045); ("out_of_service", 0x0051);
    ("present_value", 0x0055); ("reliability", 0x0067);
    ("relinquish_default", 0x0068); ("resolution", 0x006A);
    ("status_flags", 0x006F); ("engineering_units", 0x0075);
    ("application_type", 0x0100) ]%string.
End AnalogOutput.

Module BinaryInput.
Definition attributes_by_name : list (string * Z) :=
  [ ("description", 0x001C); ("present_value", 0x0055) ]%string.
End BinaryInput.

(** Write-status records returned by [write_attributes]. *)
Inductive Status : Type := SUCCESS | FAILURE.

Inductive WriteAttributesStatusRecord : Type :=
| StatusRecord (status : Status) (attrid : option Z).

(** ** Listeners shared by the device families

    The thermostat, user-interface and power clusters of every family
    derive from common Tuya base clusters whose handlers are reached
    through the buses. *)

Section BaseClusters.
Context {C : Type} `{EqDecision C}.

(** Modelled from the spec: [TuyaThermostatCluster.temperature_change] is
    not among the sources.  A temperature published under a standard
    attribute name is stored under that attribute of the thermostat
    cluster. *)
Definition temperature_change (thermostat : C) (attributes : list (string * Z))
    (attr : string) (value : pyval) : M C unit :=
  attrid ← lift (by_name attributes attr);
  update_attribute thermostat attrid value.

(** Modelled from the spec: [TuyaThermostatCluster.state_change] is not
    among the sources.  State 0 is idle (running mode off, running state
    idle); any other state is heating.  The running mode is updated before
    the running state. *)
Definition state_change (thermostat : C) (value : pyval) : M C unit :=
  let '(mode, state) :=
    if eq_int value 0
    then (Thermostat.RunningMode.Off, Thermostat.RunningState.Idle)
    else (Thermostat.RunningMode.Heat, Thermostat.RunningState.Heat_State_On) in
  running_mode ← lift (by_name Thermostat.attributes_by_name "running_mode");
  update_attribute thermostat running_mode (PInt mode);;
  running_state ← lift (by_name Thermostat.attributes_by_name "running_state");
  update_attribute thermostat running_state (PInt state).

(** Modelled from the spec: [TuyaUserInterfaceCluster.child_lock_change] is
    not among the sources.  Mode 0 is no lockout, any other mode is the
    level 1 lockout. *)
Definition ui_child_lock_change (ui : C) (mode : pyval) : M C unit :=
  let lockout :=
    if eq_int mode 0 then UserInterface.KeypadLockout.No_lockout
    else UserInterface.KeypadLockout.Level_1_lockout in
  attrid ← lift (by_name UserInterface.attributes_by_name "keypad_lockout");
  update_attribute ui attrid (PInt lockout).

(** Modelled from the spec: [battery_change] of the Tuya power
    configuration cluster is not among the sources.  The percentage is
    stored in half-percent units. *)
Definition battery_change (power : C) (value : pyval) : M C unit :=
  attrid ← lift (by_name PowerConfiguration.attributes_by_name
                   "battery_percentage_remaining");
  v ← lift (mul value 2);
  update_attribute power attrid v.

(** The [on_off] setter shared by the helper on/off clusters. *)
Definition set_on_off (c : C) (value : pyval) : M C unit :=
  attrid ← lift (by_name OnOff.attributes_by_name "on_off");
  update_attribute c attrid value.

(** The [present_value] setter of the analog output and binary input
    clusters. *)
Definition set_present_value (c : C) (value : pyval) : M C unit :=
  attrid ← lift (by_name AnalogOutput.attributes_by_name "present_value");
  update_attribute c attrid value.

End BaseClusters.

(** A [DIRECT_MAPPED_ATTRS] table: datapoint id to standard attribute name
    and optional converter. *)
Abbreviation mapped_attrs := (list (Z * (string * option (pyval -> result pyval)))).

(** [value if table[attrid][1] is None else table[attrid][1](value)] *)
Definition convert (f : option (pyval -> result pyval)) (value : pyval)
    : result pyval :=
  match f with
  | None => Ok value
  | Some g => g value
  end.

(** ** Saswell *)

Module Saswell.

Definition SASWELL_CHILD_LOCK_ATTR : Z := 0x0128.
Definition SASWELL_ANTI_FREEZE_ATTR : Z := 0x010A.
Definition SASWELL_WINDOW_DETECT_ATTR : Z := 0x0108.
Definition SASWELL_LIMESCALE_PROTECT_ATTR : Z := 0x0182.
Definition SASWELL_TEMP_CORRECTION_ATTR : Z := 0x021B.
Definition SASWELL_ROOM_TEMP_ATTR : Z := 0x0266.
Definition SASWELL_AWAY_MODE_ATTR : Z := 0x016A.
Definition SASWELL_SCHEDULE_MODE_ATTR : Z := 0x016C.
Definition SASWELL_ONOFF_ATTR : Z := 0x0165.
Definition SASWELL_TARGET_TEMP_ATTR : Z := 0x0267.
Definition SASWELL_BATTERY_ALARM_ATTR : Z := 0x569.

(** The cluster instances of a Saswell valve (endpoints 1 to 7 of the
    replacement signature). *)
Inductive Cluster : Type :=
| ManufCluster
| ThermostatCluster
| PowerConfigurationCluster
| OpenWindowDetection
| UserInterfaceCluster
| ChildLock
| AntiFreeze
| LimescaleProtection
| ScheduleMode
| AwayMode
| TemperatureOffset.

Global Instance Cluster_eq_dec : EqDecision Cluster.
Proof. solve_decision. Defined.

Definition DIRECT_MAPPED_ATTRS : mapped_attrs :=
  [ (SASWELL_ROOM_TEMP_ATTR,
      ("local_temperature"%string, Some (fun value => mul value 10)));
    (SASWELL_TARGET_TEMP_ATTR,
      ("occupied_heating_setpoint"%string, Some (fun value => mul value 10)));
    (SASWELL_TEMP_CORRECTION_ATTR,
      ("local_temperature_calibration"%string,
       Some (fun value => v ← mul value 10; round v))) ].

(** *** SaswellThermostat *)

Definition on_off_event (value : pyval) : M Cluster unit :=
  if eq_int value 1 then
    system_mode ← lift (by_name Thermostat.attributes_by_name "system_mode");
    update_attribute ThermostatCluster system_mode
      (PInt Thermostat.SystemMode.Heat);;
    running_mode ← lift (by_name Thermostat.attributes_by_name "running_mode");
    update_attribute ThermostatCluster running_mode
      (PInt Thermostat.RunningMode.Heat);;
    running_state ← lift (by_name Thermostat.attributes_by_name "running_state");
    update_attribute ThermostatCluster running_state
      (PInt Thermostat.RunningState.Heat_State_On)
  else
    system_mode ← lift (by_name Thermostat.attributes_by_name "system_mode");
    update_attribute ThermostatCluster system_mode
      (PInt Thermostat.SystemMode.Off);;
    running_mode ← lift (by_name Thermostat.attributes_by_name "running_mode");
    update_attribute ThermostatCluster running_mode
      (PInt Thermostat.RunningMode.Off);;
    running_state ← lift (by_name Thermostat.attributes_by_name "running_state");
    update_attribute ThermostatCluster running_state
      (PInt Thermostat.RunningState.Idle).

(** The comparison of [hass_climate_state_change]:
    [0 if int(temp_current) >= int(temp_set + 2) else 1]. *)
Definition hass_state (temp_current temp_set : pyval) : result pyval :=
  cur ← int temp_current;
  shifted ← add temp_set 2;
  set ← int shifted;
  mret (PInt (if set <=? cur then 0 else 1)).

Definition hass_climate_state_change (attrid : Z) (value : pyval)
    : M Cluster unit :=
  system_mode_id ← lift (by_name Thermostat.attributes_by_name "system_mode");
  system_mode ← get ThermostatCluster system_mode_id;
  if negb (eq_int system_mode Thermostat.SystemMode.Heat) then
    (* not in heat mode *)
    listener (state_change ThermostatCluster (PInt 0))
  else
    temps ←
      (if attrid =? SASWELL_ROOM_TEMP_ATTR then
         temp_current ← lift (mul value 10);
         setpoint ← lift (by_name Thermostat.attributes_by_name
                            "occupied_heating_setpoint");
         temp_set ← get ThermostatCluster setpoint;
         mret (temp_current, temp_set)
       else
         temp_set ← lift (mul value 10);
         local ← lift (by_name Thermostat.attributes_by_name
                         "local_temperature");
         temp_current ← get ThermostatCluster local;
         mret (temp_current, temp_set));
    state ← lift (hass_state temps.1 temps.2);
    listener (state_change ThermostatCluster state).

(** *** SaswellTemperatureOffset, SaswellPowerConfigurationCluster and
    the on/off helper clusters *)

Definition TemperatureOffset_set_value (value : pyval) : M Cluster unit :=
  set_present_value TemperatureOffset value.

Definition battery_alarm_event (value : pyval) : M Cluster unit :=
  attrid ← lift (by_name PowerConfiguration.attributes_by_name
                   "battery_percentage_remaining");
  if eq_int value 1
  then update_attribute PowerConfigurationCluster attrid (PInt 0)
  else update_attribute PowerConfigurationCluster attrid (PInt 200).

Definition child_lock_change (value : pyval) : M Cluster unit :=
  set_on_off ChildLock value.
Definition window_detect_change (value : pyval) : M Cluster unit :=
  set_on_off OpenWindowDetection value.
Definition anti_freeze_change (value : pyval) : M Cluster unit :=
  set_on_off AntiFreeze value.
Definition limescale_protection_change (value : pyval) : M Cluster unit :=
  set_on_off LimescaleProtection value.
Definition schedule_mode_change (value : pyval) : M Cluster unit :=
  set_on_off ScheduleMode value.
Definition away_mode_change (value : pyval) : M Cluster unit :=
  set_on_off AwayMode value.

(** *** SaswellManufCluster *)

Definition ManufCluster_update_attribute (attrid : Z) (value : pyval)
    : M Cluster unit :=
  update_attribute ManufCluster attrid value;;
  match assoc_Z DIRECT_MAPPED_ATTRS attrid with
  | Some (name, f) =>
      v ← lift (convert f value);
      listener (temperature_change ThermostatCluster
                  Thermostat.attributes_by_name name v)
  | None => mret tt
  end;;
  if attrid =? SASWELL_ONOFF_ATTR then
    listener (on_off_event value)
  else if attrid =? SASWELL_SCHEDULE_MODE_ATTR then
    listener (schedule_mode_change value)
  else if attrid =? SASWELL_AWAY_MODE_ATTR then
    listener (away_mode_change value)
  else if attrid =? SASWELL_CHILD_LOCK_ATTR then
    listener (ui_child_lock_change UserInterfaceCluster value);;
    listener (child_lock_change value)
  else if attrid =? SASWELL_WINDOW_DETECT_ATTR then
    listener (window_detect_change value)
  else if attrid =? SASWELL_ANTI_FREEZE_ATTR then
    listener (anti_freeze_change value)
  else if attrid =? SASWELL_LIMESCALE_PROTECT_ATTR then
    listener (limescale_protection_change value)
  else if attrid =? SASWELL_BATTERY_ALARM_ATTR then
    listener (battery_alarm_event value)
  else if attrid =? SASWELL_TEMP_CORRECTION_ATTR then
    listener (TemperatureOffset_set_value value)
  else if (attrid =? SASWELL_ROOM_TEMP_ATTR)
          || (attrid =? SASWELL_TARGET_TEMP_ATTR) then
    listener (hass_climate_state_change attrid value)
  else mret tt.

(** Inbound datapoint reports, handled one after the other. *)
Fixpoint handle_reports (reports : list (Z * pyval)) : M Cluster unit :=
  match reports with
  | [] => mret tt
  | (attrid, value) :: rest =>
      contained (ManufCluster_update_attribute attrid value);;
      handle_reports rest
  end.

(** *** SaswellCustomOnOff and its subclasses

    [map_attribute] gives a dict, or [None] when the method falls off its
    end. *)

Definition CustomOnOff_map_attribute (attribute : string) (value : pyval)
    : option dict :=
  Some [].

Definition on_off_to (dp : Z) (attribute : string) (value : pyval)
    : option dict :=
  if String.eqb attribute "on_off" then Some [(dp, value)] else None.

Definition ChildLock_map_attribute := on_off_to SASWELL_CHILD_LOCK_ATTR.
Definition OpenWindowDetection_map_attribute :=
  on_off_to SASWELL_WINDOW_DETECT_ATTR.
Definition AntiFreeze_map_attribute := on_off_to SASWELL_ANTI_FREEZE_ATTR.
Definition LimescaleProtection_map_attribute :=
  on_off_to SASWELL_LIMESCALE_PROTECT_ATTR.
Definition ScheduleMode_map_attribute := on_off_to SASWELL_SCHEDULE_MODE_ATTR.
Definition AwayMode_map_attribute := on_off_to SASWELL_AWAY_MODE_ATTR.

(** The six subclasses of [SaswellCustomOnOff]: the datapoint whose
    reports the class mirrors in its [on_off] attribute, the cluster
    instance, and the [map_attribute] of the class. *)
Definition helpers : list (Z * Cluster * (string -> pyval -> option dict)) :=
  [ (SASWELL_CHILD_LOCK_ATTR, ChildLock, ChildLock_map_attribute);
    (SASWELL_WINDOW_DETECT_ATTR, OpenWindowDetection,
      OpenWindowDetection_map_attribute);
    (SASWELL_ANTI_FREEZE_ATTR, AntiFreeze, AntiFreeze_map_attribute);
    (SASWELL_LIMESCALE_PROTECT_ATTR, LimescaleProtection,
      LimescaleProtection_map_attribute);
    (SASWELL_SCHEDULE_MODE_ATTR, ScheduleMode, ScheduleMode_map_attribute);
    (SASWELL_AWAY_MODE_ATTR, AwayMode, AwayMode_map_attribute) ].

(** The loop of [write_attributes] that gathers the mapped datapoints;
    [dict.update(None)] is a [TypeError]. *)
Fixpoint gather (map_attribute : string -> pyval -> option dict)
    (records : list (Z * pyval)) (manufacturer_attrs : dict) : result dict :=
  match records with
  | [] => Ok manufacturer_attrs
  | (attrid, value) :: rest =>
      name ← attr_name OnOff.attributes_by_name attrid;
      match map_attribute name value with
      | Some new_attrs =>
          gather map_attribute rest (dict_update manufacturer_attrs new_attrs)
      | None => Raise TypeError
      end
  end.

(** [records] is the result of [_write_attr_records(attributes)]: the
    attribute id and typed value of each attribute to write. *)
Definition CustomOnOff_write_attributes
    (map_attribute : string -> pyval -> option dict)
    (records : list (Z * pyval))
    : M Cluster (list (list WriteAttributesStatusRecord)) :=
  match records with
  | [] => mret [[StatusRecord SUCCESS None]]
  | _ =>
      manufacturer_attrs ← lift (gather map_attribute records []);
      match manufacturer_attrs with
      | [] =>
          mret [map (fun r => StatusRecord FAILURE (Some (fst r))) records]
      | _ =>
          tuya_manufacturer_write_attributes manufacturer_attrs;;
          mret [[StatusRecord SUCCESS None]]
      end
  end.

(** *** SaswellThermostat, reverse mapping *)

Definition DIRECT_MAPPING_ATTRS
    : list (string * (Z * option (pyval -> result pyval))) :=
  [ ("local_temperature_calibration"%string,
      (SASWELL_TEMP_CORRECTION_ATTR, Some (fun value => round_div value 10)));
    ("occupied_heating_setpoint"%string,
      (SASWELL_TARGET_TEMP_ATTR, Some (fun value => round_div value 10))) ].

Definition Thermostat_map_attribute (attribute : string) (value : pyval)
    : result (option dict) :=
  match assoc DIRECT_MAPPING_ATTRS attribute with
  | Some (dp, f) =>
      v ← convert f value;
      mret (Some [(dp, v)])
  | None =>
      if String.eqb attribute "system_mode" then
        if eq_int value Thermostat.SystemMode.Off then
          mret (Some [(SASWELL_ONOFF_ATTR, PInt 0)])
        else if eq_int value Thermostat.SystemMode.Heat then
          mret (Some [(SASWELL_ONOFF_ATTR, PInt 1)])
        else mret None
      else mret None
  end.

End Saswell.

(** ** ZONNSMART *)

Module Zonnsmart.

Definition ZONNSMART_MODE_ATTR : Z := 0x0402.
Definition ZONNSMART_WINDOW_DETECT_ATTR : Z := 0x0108.
Definition ZONNSMART_FROST_PROTECT_ATTR : Z := 0x010A.
Definition ZONNSMART_TARGET_TEMP_ATTR : Z := 0x0210.
Definition ZONNSMART_TEMPERATURE_ATTR : Z := 0x0218.
Definition ZONNSMART_TEMPERATURE_CALIBRATION_ATTR : Z := 0x021B.
Definition ZONNSMART_WEEK_FORMAT_ATTR : Z := 0x041F.
Definition ZONNSMART_HOLIDAY_TEMP_ATTR : Z := 0x0220.
Definition ZONNSMART_BATTERY_ATTR : Z := 0x0223.
Definition ZONNSMART_UPTIME_TIME_ATTR : Z := 0x0024.
Definition ZONNSMART_CHILD_LOCK_ATTR : Z := 0x0128.
Definition ZONNSMART_FAULT_DETECTION_ATTR : Z := 0x052D.
Definition ZONNSMART_HOLIDAY_DATETIME_ATTR : Z := 0x032E.
Definition ZONNSMART_BOOST_TIME_ATTR : Z := 0x0265.
Definition ZONNSMART_OPENED_WINDOW_TEMP : Z := 0x0266.
Definition ZONNSMART_COMFORT_TEMP_ATTR : Z := 0x0268.
Definition ZONNSMART_ECO_TEMP_ATTR : Z := 0x0269.
Definition ZONNSMART_HEATING_STOPPING_ATTR : Z := 0x016B.
Definition ZONNSMART_ONLINE_MODE_ENUM_ATTR : Z := 0x0473.
Definition ZONNSMART_ONLINE_MODE_BOOL_ATTR : Z := 0x0173.

Definition ZONNSMART_MAX_TEMPERATURE_VAL : Z := 3000.
Definition ZONNSMART_MIN_TEMPERATURE_VAL : Z := 500.

(** The cluster instances of a ZONNSMART valve (endpoints 1 to 3). *)
Inductive Cluster : Type :=
| Boost
| ManufCluster
| TemperatureOffset
| ThermostatCluster
| UserInterfaceCluster
| WindowDetection
| PowerConfigurationCluster
| ChildLock
| WindowOpenedTemp
| OnlineMode.

Global Instance Cluster_eq_dec : EqDecision Cluster.
Proof. solve_decision. Defined.

Module Preset.
Definition Schedule : Z := 0x00.
Definition Manual : Z := 0x01.
Definition Holiday : Z := 0x02.
Definition HolidayTemp : Z := 0x03.
Definition FrostProtect : Z := 0x04.
End Preset.

(** [ZONNSMARTThermostat.attributes]: the standard thermostat attributes
    and [operation_preset]. *)
Definition attributes_by_name : list (string * Z) :=
  Thermostat.attributes_by_name ++ [ ("operation_preset"%string, 0x4002) ].

Definition DIRECT_MAPPED_ATTRS : mapped_attrs :=
  [ (ZONNSMART_TEMPERATURE_ATTR,
      ("local_temperature"%string, Some (fun value => mul value 10)));
    (ZONNSMART_TEMPERATURE_CALIBRATION_ATTR,
      ("local_temperature_calibration"%string,
       Some (fun value => mul value 10)));
    (ZONNSMART_TARGET_TEMP_ATTR,
      ("occupied_heating_setpoint"%string, Some (fun value => mul value 10)));
    (ZONNSMART_HOLIDAY_TEMP_ATTR,
      ("unoccupied_heating_setpoint"%string, Some (fun value => mul value 10)));
    (ZONNSMART_FAULT_DETECTION_ATTR,
      ("alarm_mask"%string,
       Some (fun value => Ok (PInt (if truthy value then 0x02 else 0x00))))) ].

(** *** ZONNSMARTThermostat *)

Definition mode_change (attrid : Z) (value : pyval) : M Cluster unit :=
  operation_preset ←
    (if attrid =? ZONNSMART_MODE_ATTR then
       let '(prog_mode, operation_preset) :=
         if eq_int value 0 then
           (Some Thermostat.ProgrammingOperationMode.Schedule_programming_mode,
            Some Preset.Schedule)
         else if eq_int value 1 then
           (Some Thermostat.ProgrammingOperationMode.Simple, Some Preset.Manual)
         else if eq_int value 2 then
           (Some Thermostat.ProgrammingOperationMode.Simple, Some Preset.Holiday)
         else if eq_int value 3 then
           (Some Thermostat.ProgrammingOperationMode.Schedule_programming_mode,
            Some Preset.HolidayTemp)
         else (None, None) in
       match prog_mode with
       | Some prog_mode =>
           attr ← lift (by_name attributes_by_name "programing_oper_mode");
           update_attribute ThermostatCluster attr (PInt prog_mode)
       | None => mret tt
       end;;
       mret operation_preset
     else if attrid =? ZONNSMART_FROST_PROTECT_ATTR then
       mret (if eq_int value 1 then Some Preset.FrostProtect else None)
     else mret None);
  match operation_preset with
  | Some operation_preset =>
      attr ← lift (by_name attributes_by_name "operation_preset");
      update_attribute ThermostatCluster attr (PInt operation_preset)
  | None => mret tt
  end.

Definition system_mode_change (value : pyval) : M Cluster unit :=
  attr ← lift (by_name attributes_by_name "system_mode");
  update_attribute ThermostatCluster attr
    (PInt (if truthy value then Thermostat.SystemMode.Heat
           else Thermostat.SystemMode.Off)).

(** The comparison of [state_temp_change]:
    [0 if (int(temp_current) >= int(temp_set)) else 1]. *)
Definition temp_state (temp_current temp_set : pyval) : result pyval :=
  cur ← int temp_current;
  set ← int temp_set;
  mret (PInt (if set <=? cur then 0 else 1)).

Definition state_temp_change (attrid : Z) (value : pyval) : M Cluster unit :=
  temps ←
    (if attrid =? ZONNSMART_TEMPERATURE_ATTR then
       temp_current ← lift (mul value 10);
       setpoint ← lift (by_name attributes_by_name
                          "occupied_heating_setpoint");
       temp_set ← get ThermostatCluster setpoint;
       mret (Some (temp_current, temp_set))
     else if attrid =? ZONNSMART_TARGET_TEMP_ATTR then
       local ← lift (by_name attributes_by_name "local_temperature");
       temp_current ← get ThermostatCluster local;
       temp_set ← lift (mul value 10);
       mret (Some (temp_current, temp_set))
     else mret None);
  match temps with
  | None => mret tt
  | Some (temp_current, temp_set) =>
      state ← lift (temp_state temp_current temp_set);
      listener (state_change ThermostatCluster state)
  end.

(** *** The helper clusters *)

Definition WindowDetection_set_value (value : pyval) : M Cluster unit :=
  attrid ← lift (by_name BinaryInput.attributes_by_name "present_value");
  update_attribute WindowDetection attrid value.

Definition TemperatureOffset_set_value (value : pyval) : M Cluster unit :=
  set_present_value TemperatureOffset value.

Definition WindowOpenedTemp_set_value (value : pyval) : M Cluster unit :=
  attrid ← lift (by_name AnalogOutput.attributes_by_name "present_value");
  v ← lift (truediv value 10);
  update_attribute WindowOpenedTemp attrid v.

(** [ZONNSMARTHelperOnOff.set_change] on the helper cluster [c]. *)
Definition set_change (c : Cluster) (value : pyval) : M Cluster unit :=
  set_on_off c value.

(** *** ZONNSMARTManufCluster *)

Definition ManufCluster_update_attribute (attrid : Z) (value : pyval)
    : M Cluster unit :=
  update_attribute ManufCluster attrid value;;
  match assoc_Z DIRECT_MAPPED_ATTRS attrid with
  | Some (name, f) =>
      v ← lift (convert f value);
      listener (temperature_change ThermostatCluster attributes_by_name name v)
  | None =>
      if attrid =? ZONNSMART_WINDOW_DETECT_ATTR then
        listener (WindowDetection_set_value value)
      else if attrid =? ZONNSMART_OPENED_WINDOW_TEMP then
        listener (WindowOpenedTemp_set_value value)
      else if (attrid =? ZONNSMART_MODE_ATTR)
              || (attrid =? ZONNSMART_FROST_PROTECT_ATTR) then
        listener (mode_change attrid value)
      else if attrid =? ZONNSMART_HEATING_STOPPING_ATTR then
        listener (system_mode_change (PBool (eq_int value 0)))
      else if attrid =? ZONNSMART_CHILD_LOCK_ATTR then
        listener (ui_child_lock_change UserInterfaceCluster value);;
        listener (set_change ChildLock value)
      else if attrid =? ZONNSMART_BATTERY_ATTR then
        listener (battery_change PowerConfigurationCluster value)
      else if attrid =? ZONNSMART_ONLINE_MODE_ENUM_ATTR then
        listener (set_change OnlineMode value)
      else if attrid =? ZONNSMART_BOOST_TIME_ATTR then
        positive ← lift (gt_int value 0);
        listener (set_change Boost (PInt (if positive : bool then 1 else 0)))
      else mret tt
  end;;
  if attrid =? ZONNSMART_TEMPERATURE_CALIBRATION_ATTR then
    v ← lift (truediv value 10);
    listener (TemperatureOffset_set_value v)
  else if (attrid =? ZONNSMART_TEMPERATURE_ATTR)
          || (attrid =? ZONNSMART_TARGET_TEMP_ATTR) then
    listener (state_temp_change attrid value)
  else mret tt.

Fixpoint handle_reports (reports : list (Z * pyval)) : M Cluster unit :=
  match reports with
  | [] => mret tt
  | (attrid, value) :: rest =>
      contained (ManufCluster_update_attribute attrid value);;
      handle_reports rest
  end.

(** *** ZONNSMARTThermostat, reverse mapping *)

Definition DIRECT_MAPPING_ATTRS
    : list (string * (Z * option (pyval -> result pyval))) :=
  [ ("occupied_heating_setpoint"%string,
      (ZONNSMART_TARGET_TEMP_ATTR, Some (fun value => round_div value 10))) ].

Definition Thermostat_map_attribute (attr_cache : cache) (attribute : string)
    (value : pyval) : result (option dict) :=
  match assoc DIRECT_MAPPING_ATTRS attribute with
  | Some (dp, f) =>
      v ← convert f value;
      mret (Some [(dp, v)])
  | None =>
      if String.eqb attribute "system_mode"
         || String.eqb attribute "programing_oper_mode" then
        modes ←
          (if String.eqb attribute "system_mode" then
             attrid ← by_name attributes_by_name "programing_oper_mode";
             mret (value,
                   cache_get_or attr_cache attrid
                     (PInt Thermostat.ProgrammingOperationMode.Simple))
           else
             attrid ← by_name attributes_by_name "system_mode";
             mret (cache_get_or attr_cache attrid
                     (PInt Thermostat.SystemMode.Heat),
                   value));
        let '(system_mode, oper_mode) := modes in
        if eq_int system_mode Thermostat.SystemMode.Off then
          mret (Some [(ZONNSMART_HEATING_STOPPING_ATTR, PInt 1)])
        else if eq_int system_mode Thermostat.SystemMode.Heat then
          if eq_int oper_mode
               Thermostat.ProgrammingOperationMode.Schedule_programming_mode
          then mret (Some [(ZONNSMART_MODE_ATTR, PInt 0)])
          else if eq_int oper_mode Thermostat.ProgrammingOperationMode.Simple
          then mret (Some [(ZONNSMART_MODE_ATTR, PInt 1)])
          else mret None
        else mret None
      else if String.eqb attribute "operation_preset" then
        if eq_int value 0 then mret (Some [(ZONNSMART_MODE_ATTR, PInt 0)])
        else if eq_int value 1 then mret (Some [(ZONNSMART_MODE_ATTR, PInt 1)])
        else if eq_int value 3 then mret (Some [(ZONNSMART_MODE_ATTR, PInt 3)])
        else if eq_int value 4
        then mret (Some [(ZONNSMART_FROST_PROTECT_ATTR, PInt 1)])
        else mret None
      else mret None
  end.

(** *** The module-level global and the devices that share it

    [ZonnsmartManuClusterSelf] is one variable for the whole process; every
    constructed valve has its own clusters.  Valves are named by their
    IEEE address. *)

Record World : Type := mkWorld {
  ZonnsmartManuClusterSelf : option Z;
  devices : gmap Z (DevState Cluster)
}.

Definition W (A : Type) : Type := World -> World * result A.

Global Instance W_ret : MRet W := fun A a w => (w, Ok a).
Global Instance W_bind : MBind W := fun A B f m w =>
  match m w with
  | (w', Ok a) => f a w'
  | (w', Raise e) => (w', Raise e)
  end.

Definition lift_w {A} (r : result A) : W A := fun w => (w, r).

Definition device (w : World) (ieee : Z) : DevState Cluster :=
  default (fresh (fun _ => ∅)) (devices w !! ieee).

(** Cluster code of the valve [ieee], run in the world. *)
Definition on_device {A} (ieee : Z) (m : M Cluster A) : W A :=
  fun w =>
    let '(s, r) := m (device w ieee) in
    ({| ZonnsmartManuClusterSelf := ZonnsmartManuClusterSelf w;
        devices := <[ieee := s]> (devices w) |}, r).

(** [ZONNSMARTManufCluster.__init__] of the valve [ieee]: the cluster
    stores itself in the global. *)
Definition ManufCluster_init (ieee : Z) : W unit :=
  fun w =>
    ({| ZonnsmartManuClusterSelf := Some ieee; devices := devices w |}, Ok tt).

(** Construction of a valve: its clusters are created with empty caches
    and the manufacturer cluster runs its [__init__].  The attribute seeds
    the other clusters write into their own caches on construction are
    left out. *)
Definition construct (ieee : Z) : W unit :=
  on_device ieee (fun _ => (fresh (fun _ => ∅), Ok tt));;
  ManufCluster_init ieee.

(** [ZonnsmartManuClusterSelf.endpoint.tuya_manufacturer.write_attributes]:
    the write goes to the manufacturer cluster on the endpoint of the
    cluster held by the global; with no cluster there the attribute access
    on [None] fails. *)
Definition global_write_attributes (attrs : dict) : W unit :=
  fun w =>
    match ZonnsmartManuClusterSelf w with
    | Some target => on_device target (tuya_manufacturer_write_attributes attrs) w
    | None => (w, Raise AttributeError)
    end.

(** [get_attr_val_to_write] of the helper on/off classes. *)
Definition HelperOnOff_get_attr_val_to_write (value : pyval) : option dict :=
  None.
Definition Boost_get_attr_val_to_write (value : pyval) : option dict :=
  Some [(ZONNSMART_BOOST_TIME_ATTR, PInt (if truthy value then 299 else 0))].
Definition ChildLock_get_attr_val_to_write (value : pyval) : option dict :=
  Some [(ZONNSMART_CHILD_LOCK_ATTR, value)].
Definition OnlineMode_get_attr_val_to_write (value : pyval) : option dict :=
  Some [(ZONNSMART_ONLINE_MODE_BOOL_ATTR, value)].

(** The loop of [ZONNSMARTHelperOnOff.write_attributes]: the value of the
    last [on_off] record, if there is one. *)
Fixpoint on_off_value (records : list (Z * pyval)) (value : option pyval)
    : result (option pyval) :=
  match records with
  | [] => Ok value
  | (attrid, v) :: rest =>
      name ← attr_name OnOff.attributes_by_name attrid;
      if String.eqb name "on_off" then on_off_value rest (Some v)
      else on_off_value rest value
  end.

(** [ZONNSMARTHelperOnOff.write_attributes] on a helper cluster of the
    valve [self]; [records] is the result of
    [_write_attr_records(attributes)]. *)
Definition HelperOnOff_write_attributes
    (get_attr_val_to_write : pyval -> option dict)
    (self : Z) (records : list (Z * pyval))
    : W (list (list WriteAttributesStatusRecord)) :=
  match records with
  | [] => mret [[StatusRecord SUCCESS None]]
  | _ =>
      let failure :=
        [map (fun r => StatusRecord FAILURE (Some (fst r))) records] in
      changed ← lift_w (on_off_value records None);
      match (changed : option pyval) with
      | Some value =>
          match get_attr_val_to_write value with
          | Some attr_val =>
              (* global self in case when different endpoint has to exist *)
              global_write_attributes attr_val;;
              mret [[StatusRecord SUCCESS None]]
          | None => mret failure
          end
      | None => mret failure
      end
  end.

(** A key of the [attributes] dict given to [write_attributes]. *)
Inductive attr_key : Type :=
| ByName (name : string)
| ById (attrid : Z).

(** [ZONNSMARTWindowOpenedTemp.write_attributes] on the valve [self]. *)
Fixpoint WindowOpenedTemp_write_loop (self : Z)
    (attributes : list (attr_key * pyval)) : W unit :=
  match attributes with
  | [] => mret tt
  | (key, value) :: rest =>
      attrid ← lift_w (match key with
                       | ByName name =>
                           by_name AnalogOutput.attributes_by_name name
                       | ById attrid => Ok attrid
                       end);
      if has_id AnalogOutput.attributes_by_name attrid then
        on_device self (update_attribute WindowOpenedTemp attrid value);;
        (* different Endpoint for compatibility issue *)
        v ← lift_w (mul value 10);
        global_write_attributes [(ZONNSMART_OPENED_WINDOW_TEMP, v)];;
        WindowOpenedTemp_write_loop self rest
      else WindowOpenedTemp_write_loop self rest
  end.

Definition WindowOpenedTemp_write_attributes (self : Z)
    (attributes : list (attr_key * pyval))
    : W (list (list WriteAttributesStatusRecord)) :=
  WindowOpenedTemp_write_loop self attributes;;
  mret [[StatusRecord SUCCESS None]].

End Zonnsmart.

(** ** Siterwell *)

Module Siterwell.

Definition SITERWELL_CHILD_LOCK_ATTR : Z := 0x0107.
Definition SITERWELL_WINDOW_DETECT_ATTR : Z := 0x0112.
Definition SITERWELL_VALVE_DETECT_ATTR : Z := 0x0114.
Definition SITERWELL_VALVE_STATE_ATTR : Z := 0x026D.
Definition SITERWELL_TARGET_TEMP_ATTR : Z := 0x0202.
Definition SITERWELL_TEMPERATURE_ATTR : Z := 0x0203.
Definition SITERWELL_BATTERY_ATTR : Z := 0x0215.
Definition SITERWELL_MODE_ATTR : Z := 0x0404.

(** [SiterwellThermostat.map_attribute]; [None] is the result of falling
    off the end of the method (after [self.error] logged the value). *)
Definition map_attribute (attr_cache : cache) (attribute : string)
    (value : pyval) : result (option dict) :=
  if String.eqb attribute "occupied_heating_setpoint" then
    (* centidegree to decidegree *)
    v ← round_div value 10;
    mret (Some [(SITERWELL_TARGET_TEMP_ATTR, v)])
  else if String.eqb attribute "system_mode"
          || String.eqb attribute "programing_oper_mode" then
    modes ←
      (if String.eqb attribute "system_mode" then
         attrid ← by_name Thermostat.attributes_by_name "programing_oper_mode";
         mret (value,
               cache_get_or attr_cache attrid
                 (PInt Thermostat.ProgrammingOperationMode.Simple))
       else
         attrid ← by_name Thermostat.attributes_by_name "system_mode";
         mret (cache_get_or attr_cache attrid (PInt Thermostat.SystemMode.Heat),
               value));
    let '(system_mode, oper_mode) := modes in
    if eq_int system_mode Thermostat.SystemMode.Off then
      mret (Some [(SITERWELL_MODE_ATTR, PInt 0)])
    else if eq_int system_mode Thermostat.SystemMode.Heat then
      if eq_int oper_mode
           Thermostat.ProgrammingOperationMode.Schedule_programming_mode then
        mret (Some [(SITERWELL_MODE_ATTR, PInt 1)])
      else if eq_int oper_mode Thermostat.ProgrammingOperationMode.Simple then
        mret (Some [(SITERWELL_MODE_ATTR, PInt 2)])
      else mret None
    else mret None
  else mret None.

(** The cluster instances of a Siterwell valve (endpoint 1). *)
Inductive Cluster : Type :=
| ManufCluster
| ThermostatCluster
| UserInterfaceCluster
| PowerConfigurationCluster.

Global Instance Cluster_eq_dec : EqDecision Cluster.
Proof. solve_decision. Defined.

Definition TEMPERATURE_ATTRS : list (Z * string) :=
  [ (SITERWELL_TEMPERATURE_ATTR, "local_temperature"%string);
    (SITERWELL_TARGET_TEMP_ATTR, "occupied_heating_setpoint"%string) ].

(** [SiterwellThermostat.mode_change] *)
Definition mode_change (value : pyval) : M Cluster unit :=
  if eq_int value 0 then
    system_mode ← lift (by_name Thermostat.attributes_by_name "system_mode");
    update_attribute ThermostatCluster system_mode
      (PInt Thermostat.SystemMode.Off)
  else
    let mode :=
      if eq_int value 1
      then Thermostat.ProgrammingOperationMode.Schedule_programming_mode
      else Thermostat.ProgrammingOperationMode.Simple in
    system_mode ← lift (by_name Thermostat.attributes_by_name "system_mode");
    update_attribute ThermostatCluster system_mode
      (PInt Thermostat.SystemMode.Heat);;
    oper_mode ← lift (by_name Thermostat.attributes_by_name
                        "programing_oper_mode");
    update_attribute ThermostatCluster oper_mode (PInt mode).

(** [SiterwellManufCluster._update_attribute] *)
Definition ManufCluster_update_attribute (attrid : Z) (value : pyval)
    : M Cluster unit :=
  update_attribute ManufCluster attrid value;;
  match assoc_Z TEMPERATURE_ATTRS attrid with
  | Some name =>
      (* decidegree to centidegree *)
      v ← lift (mul value 10);
      listener (temperature_change ThermostatCluster
                  Thermostat.attributes_by_name name v)
  | None =>
      if attrid =? SITERWELL_MODE_ATTR then
        listener (mode_change value);;
        positive ← lift (gt_int value 0);
        listener (state_change ThermostatCluster (PBool positive))
      else if attrid =? SITERWELL_VALVE_STATE_ATTR then
        listener (state_change ThermostatCluster value)
      else if attrid =? SITERWELL_CHILD_LOCK_ATTR then
        let mode := if truthy value then 1 else 0 in
        listener (ui_child_lock_change UserInterfaceCluster (PInt mode))
      else if attrid =? SITERWELL_BATTERY_ATTR then
        listener (battery_change PowerConfigurationCluster value)
      else mret tt
  end.

Fixpoint handle_reports (reports : list (Z * pyval)) : M Cluster unit :=
  match reports with
  | [] => mret tt
  | (attrid, value) :: rest =>
      contained (ManufCluster_update_attribute attrid value);;
      handle_reports rest
  end.

End Siterwell.

(** ** Moes *)

Module Moes.

Definition MOES_TARGET_TEMP_ATTR : Z := 0x0202.
Definition MOES_TEMPERATURE_ATTR : Z := 0x0203.
Definition MOES_MODE_ATTR : Z := 0x0404.
Definition MOES_CHILD_LOCK_ATTR : Z := 0x0107.
Definition MOES_VALVE_DETECT_ATTR : Z := 0x0114.
Definition MOES_TEMP_CALIBRATION_ATTR : Z := 0x022C.
Definition MOES_MIN_TEMPERATURE_ATTR : Z := 0x0266.
Definition MOES_MAX_TEMPERATURE_ATTR : Z := 0x0267.
Definition MOES_WINDOW_DETECT_ATTR : Z := 0x0068.
Definition MOES_BOOST_TIME_ATTR : Z := 0x0269.
Definition MOES_FORCE_VALVE_ATTR : Z := 0x046A.
Definition MOES_COMFORT_TEMP_ATTR : Z := 0x026B.
Definition MOES_ECO_TEMP_ATTR : Z := 0x026C.
Definition MOES_VALVE_STATE_ATTR : Z := 0x026D.
Definition MOES_BATTERY_LOW_ATTR : Z := 0x016E.
Definition MOES_WEEK_FORMAT_ATTR : Z := 0x046F.
Definition MOES_AWAY_TEMP_ATTR : Z := 0x0272.
Definition MOES_AUTO_LOCK_ATTR : Z := 0x0174.
Definition MOES_AWAY_DAYS_ATTR : Z := 0x0275.
Definition MOES_SCHEDULE_WORKDAY_ATTR : Z := 0x0070.
Definition MOES_SCHEDULE_WEEKEND_ATTR : Z := 0x0071.

(** The cluster instances of a Moes valve (endpoint 1). *)
Inductive Cluster : Type :=
| ManufCluster
| ThermostatCluster
| UserInterfaceCluster
| WindowDetection
| PowerConfigurationCluster.

Global Instance Cluster_eq_dec : EqDecision Cluster.
Proof. solve_decision. Defined.

Definition times (k : Z) : option (pyval -> result pyval) :=
  Some (fun value => mul value k).

(** [MoesManufCluster.DIRECT_MAPPED_ATTRS] *)
Definition DIRECT_MAPPED_ATTRS : mapped_attrs :=
  [ (MOES_TEMPERATURE_ATTR, ("local_temperature", times 10));
    (MOES_TARGET_TEMP_ATTR, ("occupied_heating_setpoint", times 10));
    (MOES_AWAY_TEMP_ATTR, ("unoccupied_heating_setpoint", times 100));
    (MOES_COMFORT_TEMP_ATTR, ("comfort_heating_setpoint", times 100));
    (MOES_ECO_TEMP_ATTR, ("eco_heating_setpoint", times 100));
    (MOES_TEMP_CALIBRATION_ATTR, ("local_temperature_calibration", times 10));
    (MOES_MIN_TEMPERATURE_ATTR, ("min_heat_setpoint_limit", times 100));
    (MOES_MAX_TEMPERATURE_ATTR, ("max_heat_setpoint_limit", times 100));
    (MOES_VALVE_STATE_ATTR, ("valve_open_percentage", None));
    (MOES_AWAY_DAYS_ATTR, ("unoccupied_duration_days", None));
    (MOES_BOOST_TIME_ATTR, ("boost_duration_seconds", None));
    (MOES_MODE_ATTR, ("operation_preset", None));
    (MOES_WEEK_FORMAT_ATTR, ("work_days", None));
    (MOES_FORCE_VALVE_ATTR, ("valve_force_state", None)) ]%string.

(** [MoesManufClusterNew.DIRECT_MAPPED_ATTRS] *)
Definition DIRECT_MAPPED_ATTRS_New : mapped_attrs :=
  [ (MOES_TEMPERATURE_ATTR, ("local_temperature", times 10));
    (MOES_TARGET_TEMP_ATTR, ("occupied_heating_setpoint", times 100));
    (MOES_AWAY_TEMP_ATTR, ("unoccupied_heating_setpoint", times 100));
    (MOES_COMFORT_TEMP_ATTR, ("comfort_heating_setpoint", times 100));
    (MOES_ECO_TEMP_ATTR, ("eco_heating_setpoint", times 100));
    (MOES_TEMP_CALIBRATION_ATTR, ("local_temperature_calibration", times 10));
    (MOES_MIN_TEMPERATURE_ATTR, ("min_heat_setpoint_limit", times 100));
    (MOES_MAX_TEMPERATURE_ATTR, ("max_heat_setpoint_limit", times 100));
    (MOES_VALVE_STATE_ATTR, ("valve_open_percentage", None));
    (MOES_AWAY_DAYS_ATTR, ("unoccupied_duration_days", None));
    (MOES_BOOST_TIME_ATTR, ("boost_duration_seconds", None));
    (MOES_MODE_ATTR, ("operation_preset", None));
    (MOES_WEEK_FORMAT_ATTR, ("work_days", None));
    (MOES_FORCE_VALVE_ATTR, ("valve_force_state", None)) ]%string.

(** *** MoesThermostat *)

(** [MoesThermostat.attributes]: the standard thermostat attributes and the
    manufacturer ones. *)
Definition attributes_by_name : list (string * Z) :=
  Thermostat.attributes_by_name ++
  [ ("comfort_heating_setpoint", 0x4000);
    ("eco_heating_setpoint", 0x4001);
    ("operation_preset", 0x4002);
    ("work_days", 0x4003);
    ("valve_open_percentage", 0x4004);
    ("boost_duration_seconds", 0x4005);
    ("valve_force_state", 0x4006);
    ("unoccupied_duration_days", 0x4007);
    ("workday_schedule_1_hour", 0x4110);
    ("workday_schedule_1_minute", 0x4111);
    ("workday_schedule_1_temperature", 0x4112);
    ("workday_schedule_2_hour", 0x4120);
    ("workday_schedule_2_minute", 0x4121);
    ("workday_schedule_2_temperature", 0x4122);
    ("workday_schedule_3_hour", 0x4130);
    ("workday_schedule_3_minute", 0x4131);
    ("workday_schedule_3_temperature", 0x4132);
    ("workday_schedule_4_hour", 0x4140);
    ("workday_schedule_4_minute", 0x4141);
    ("workday_schedule_4_temperature", 0x4142);
    ("workday_schedule_5_hour", 0x4150);
    ("workday_schedule_5_minute", 0x4151);
    ("workday_schedule_5_temperature", 0x4152);
    ("workday_schedule_6_hour", 0x4160);
    ("workday_schedule_6_minute", 0x4161);
    ("workday_schedule_6_temperature", 0x4162);
    ("weekend_schedule_1_hour", 0x4210);
    ("weekend_schedule_1_minute", 0x4211);
    ("weekend_schedule_1_temperature", 0x4212);
    ("weekend_schedule_2_hour", 0x4220);
    ("weekend_schedule_2_minute", 0x4221);
    ("weekend_schedule_2_temperature", 0x4222);
    ("weekend_schedule_3_hour", 0x4230);
    ("weekend_schedule_3_minute", 0x4231);
    ("weekend_schedule_3_temperature", 0x4232);
    ("weekend_schedule_4_hour", 0x4240);
    ("weekend_schedule_4_minute", 0x4241);
    ("weekend_schedule_4_temperature", 0x4242);
    ("weekend_schedule_5_hour", 0x4250);
    ("weekend_schedule_5_minute", 0x4251);
    ("weekend_schedule_5_temperature", 0x4252);
    ("weekend_schedule_6_hour", 0x4260);
    ("weekend_schedule_6_minute", 0x4261);
    ("weekend_schedule_6_temperature", 0x4262) ]%string.

(** A [DIRECT_MAPPING_ATTRS] table: standard attribute name to datapoint id
    and optional converter. *)
Abbreviation mapping_attrs :=
  (list (string * (Z * option (pyval -> result pyval)))).

Definition rounded (k : Z) : option (pyval -> result pyval) :=
  Some (fun value => round_div value k).

(** [MoesThermostat.DIRECT_MAPPING_ATTRS] *)
Definition DIRECT_MAPPING_ATTRS : mapping_attrs :=
  [ ("occupied_heating_setpoint", (MOES_TARGET_TEMP_ATTR, rounded 10));
    ("unoccupied_heating_setpoint", (MOES_AWAY_TEMP_ATTR, rounded 100));
    ("comfort_heating_setpoint", (MOES_COMFORT_TEMP_ATTR, rounded 100));
    ("eco_heating_setpoint", (MOES_ECO_TEMP_ATTR, rounded 100));
    ("min_heat_setpoint_limit", (MOES_MIN_TEMPERATURE_ATTR, rounded 100));
    ("max_heat_setpoint_limit", (MOES_MAX_TEMPERATURE_ATTR, rounded 100));
    ("local_temperature_calibration", (MOES_TEMP_CALIBRATION_ATTR, rounded 10));
    ("work_days", (MOES_WEEK_FORMAT_ATTR, None));
    ("operation_preset", (MOES_MODE_ATTR, None));
    ("boost_duration_seconds", (MOES_BOOST_TIME_ATTR, None));
    ("valve_force_state", (MOES_FORCE_VALVE_ATTR, None));
    ("unoccupied_duration_days", (MOES_AWAY_DAYS_ATTR, None)) ]%string.

(** [MoesThermostatNew.DIRECT_MAPPING_ATTRS] *)
Definition DIRECT_MAPPING_ATTRS_New : mapping_attrs :=
  [ ("occupied_heating_setpoint", (MOES_TARGET_TEMP_ATTR, rounded 100));
    ("unoccupied_heating_setpoint", (MOES_AWAY_TEMP_ATTR, rounded 100));
    ("comfort_heating_setpoint", (MOES_COMFORT_TEMP_ATTR, rounded 100));
    ("eco_heating_setpoint", (MOES_ECO_TEMP_ATTR, rounded 100));
    ("min_heat_setpoint_limit", (MOES_MIN_TEMPERATURE_ATTR, rounded 100));
    ("max_heat_setpoint_limit", (MOES_MAX_TEMPERATURE_ATTR, rounded 100));
    ("local_temperature_calibration", (MOES_TEMP_CALIBRATION_ATTR, rounded 10));
    ("work_days", (MOES_WEEK_FORMAT_ATTR, None));
    ("operation_preset", (MOES_MODE_ATTR, None));
    ("boost_duration_seconds", (MOES_BOOST_TIME_ATTR, None));
    ("valve_force_state", (MOES_FORCE_VALVE_ATTR, None));
    ("unoccupied_duration_days", (MOES_AWAY_DAYS_ATTR, None)) ]%string.

(** The schedule tables, in the order the dicts are written: slot 6 first,
    and within a slot temperature, minute, hour. *)
Definition WORKDAY_SCHEDULE_ATTRS : list (string * Z) :=
  [ ("workday_schedule_6_temperature", 1500);
    ("workday_schedule_6_minute", 0);
    ("workday_schedule_6_hour", 22);
    ("workday_schedule_5_temperature", 2000);
    ("workday_schedule_5_minute", 30);
    ("workday_schedule_5_hour", 17);
    ("workday_schedule_4_temperature", 1500);
    ("workday_schedule_4_minute", 30);
    ("workday_schedule_4_hour", 12);
    ("workday_schedule_3_temperature", 1500);
    ("workday_schedule_3_minute", 30);
    ("workday_schedule_3_hour", 11);
    ("workday_schedule_2_temperature", 1500);
    ("workday_schedule_2_minute", 0);
    ("workday_schedule_2_hour", 8);
    ("workday_schedule_1_temperature", 2000);
    ("workday_schedule_1_minute", 0);
    ("workday_schedule_1_hour", 6) ]%string.

Definition WEEKEND_SCHEDULE_ATTRS : list (string * Z) :=
  [ ("weekend_schedule_6_temperature", 1500);
    ("weekend_schedule_6_minute", 0);
    ("weekend_schedule_6_hour", 22);
    ("weekend_schedule_5_temperature", 2000);
    ("weekend_schedule_5_minute", 30);
    ("weekend_schedule_5_hour", 17);
    ("weekend_schedule_4_temperature", 1500);
    ("weekend_schedule_4_minute", 30);
    ("weekend_schedule_4_hour", 12);
    ("weekend_schedule_3_temperature", 1500);
    ("weekend_schedule_3_minute", 30);
    ("weekend_schedule_3_hour", 11);
    ("weekend_schedule_2_temperature", 1500);
    ("weekend_schedule_2_minute", 0);
    ("weekend_schedule_2_hour", 8);
    ("weekend_schedule_1_temperature", 2000);
    ("weekend_schedule_1_minute", 0);
    ("weekend_schedule_1_hour", 6) ]%string.

(** The loop building a schedule payload:
    [for num, (attr, default) in enumerate(table.items())]. *)
Fixpoint schedule_data (attr_cache : cache) (attribute : string)
    (value : pyval) (num : nat) (table : list (string * Z))
    : result (list pyval) :=
  match table with
  | [] => Ok []
  | (attr, dflt) :: rest =>
      val ←
        (if (num mod 3 =? 0)%nat then
           if String.eqb attr attribute then round_div value 100
           else
             attrid ← by_name attributes_by_name attr;
             round_div (cache_get_or attr_cache attrid (PInt dflt)) 100
         else if String.eqb attr attribute then Ok value
         else
           attrid ← by_name attributes_by_name attr;
           Ok (cache_get_or attr_cache attrid (PInt dflt)));
      data ← schedule_data attr_cache attribute value (S num) rest;
      mret (val :: data)
  end.

Definition is_key {A} (tbl : list (string * A)) (name : string) : bool :=
  bool_decide (is_Some (assoc tbl name)).

(** [MoesThermostat.map_attribute], for the class whose
    [DIRECT_MAPPING_ATTRS] is [direct]. *)
Definition map_attribute (direct : mapping_attrs) (attr_cache : cache)
    (attribute : string) (value : pyval) : result (option dict) :=
  match assoc direct attribute with
  | Some (dp, f) =>
      v ← convert f value;
      mret (Some [(dp, v)])
  | None =>
      preset ←
        (if String.eqb attribute "programing_oper_mode"
            || String.eqb attribute "occupancy" then
           modes ←
             (if String.eqb attribute "occupancy" then
                attrid ← by_name attributes_by_name "programing_oper_mode";
                mret (value,
                      cache_get_or attr_cache attrid
                        (PInt Thermostat.ProgrammingOperationMode.Simple))
              else
                attrid ← by_name attributes_by_name "occupancy";
                mret (cache_get_or attr_cache attrid
                        (PInt Thermostat.Occupancy.Occupied),
                      value));
           let '(occupancy, oper_mode) := modes in
           if eq_int occupancy Thermostat.Occupancy.Unoccupied then
             mret (Some [(MOES_MODE_ATTR, PInt 0)])
           else if eq_int occupancy Thermostat.Occupancy.Occupied then
             if eq_int oper_mode
                  Thermostat.ProgrammingOperationMode.Schedule_programming_mode
             then mret (Some [(MOES_MODE_ATTR, PInt 1)])
             else if eq_int oper_mode
                       Thermostat.ProgrammingOperationMode.Simple
             then mret (Some [(MOES_MODE_ATTR, PInt 2)])
             else if eq_int oper_mode
                       Thermostat.ProgrammingOperationMode.Economy_mode
             then mret (Some [(MOES_MODE_ATTR, PInt 4)])
             else mret None
           else mret None
         else mret None);
      match preset with
      | Some d => mret (Some d)
      | None =>
          if String.eqb attribute "system_mode" then
            attrid ← by_name attributes_by_name "operation_preset";
            mret (Some [(MOES_MODE_ATTR, cache_get_or attr_cache attrid (PInt 2))])
          else if is_key WORKDAY_SCHEDULE_ATTRS attribute then
            data ← schedule_data attr_cache attribute value 0
                     WORKDAY_SCHEDULE_ATTRS;
            mret (Some [(MOES_SCHEDULE_WORKDAY_ATTR, PList data)])
          else if is_key WEEKEND_SCHEDULE_ATTRS attribute then
            data ← schedule_data attr_cache attribute value 0
                     WEEKEND_SCHEDULE_ATTRS;
            mret (Some [(MOES_SCHEDULE_WEEKEND_ATTR, PList data)])
          else mret None
      end
  end.

Definition mode_change (value : pyval) : M Cluster unit :=
  let '(prog_mode, occupancy) :=
    if eq_int value 0 then
      (Thermostat.ProgrammingOperationMode.Simple,
       Thermostat.Occupancy.Unoccupied)
    else if eq_int value 1 then
      (Thermostat.ProgrammingOperationMode.Schedule_programming_mode,
       Thermostat.Occupancy.Occupied)
    else if eq_int value 2 || eq_int value 3 then
      (Thermostat.ProgrammingOperationMode.Simple,
       Thermostat.Occupancy.Occupied)
    else if eq_int value 4 then
      (Thermostat.ProgrammingOperationMode.Economy_mode,
       Thermostat.Occupancy.Occupied)
    else if eq_int value 5 then
      (Thermostat.ProgrammingOperationMode.Simple,
       Thermostat.Occupancy.Occupied)
    else
      (Thermostat.ProgrammingOperationMode.Simple,
       Thermostat.Occupancy.Occupied) in
  attrid ← lift (by_name attributes_by_name "programing_oper_mode");
  update_attribute ThermostatCluster attrid (PInt prog_mode);;
  attrid ← lift (by_name attributes_by_name "occupancy");
  update_attribute ThermostatCluster attrid (PInt occupancy).

(** One statement of [schedule_change]:
    [self._update_attribute(self.attributes_by_name[name].id, f(value[i]))] *)
Definition schedule_field (name : string) (value : pyval) (i : nat)
    (f : pyval -> result pyval) : M Cluster unit :=
  attrid ← lift (by_name attributes_by_name name);
  item ← lift (index value i);
  v ← lift (f item);
  update_attribute ThermostatCluster attrid v.

Definition hour (item : pyval) : result pyval := band item 0x3F.
Definition minute (item : pyval) : result pyval := Ok item.
Definition temperature (item : pyval) : result pyval := mul item 100.

Definition schedule_change (attr : Z) (value : pyval) : M Cluster unit :=
  if attr =? MOES_SCHEDULE_WORKDAY_ATTR then
    schedule_field "workday_schedule_1_hour" value 17 hour;;
    schedule_field "workday_schedule_1_minute" value 16 minute;;
    schedule_field "workday_schedule_1_temperature" value 15 temperature;;
    schedule_field "workday_schedule_2_hour" value 14 hour;;
    schedule_field "workday_schedule_2_minute" value 13 minute;;
    schedule_field "workday_schedule_2_temperature" value 12 temperature;;
    schedule_field "workday_schedule_3_hour" value 11 hour;;
    schedule_field "workday_schedule_3_minute" value 10 minute;;
    schedule_field "workday_schedule_3_temperature" value 9 temperature;;
    schedule_field "workday_schedule_4_hour" value 8 hour;;
    schedule_field "workday_schedule_4_minute" value 7 minute;;
    schedule_field "workday_schedule_4_temperature" value 6 temperature;;
    schedule_field "workday_schedule_5_hour" value 5 hour;;
    schedule_field "workday_schedule_5_minute" value 4 minute;;
    schedule_field "workday_schedule_5_temperature" value 3 temperature;;
    schedule_field "workday_schedule_6_hour" value 2 hour;;
    schedule_field "workday_schedule_6_minute" value 1 minute;;
    schedule_field "workday_schedule_6_temperature" value 0 temperature
  else if attr =? MOES_SCHEDULE_WEEKEND_ATTR then
    schedule_field "weekend_schedule_1_hour" value 17 hour;;
    schedule_field "weekend_schedule_1_minute" value 16 minute;;
    schedule_field "weekend_schedule_1_temperature" value 15 temperature;;
    schedule_field "weekend_schedule_2_hour" value 14 hour;;
    schedule_field "weekend_schedule_2_minute" value 13 minute;;
    schedule_field "weekend_schedule_2_temperature" value 12 temperature;;
    schedule_field "weekend_schedule_3_hour" value 11 hour;;
    schedule_field "weekend_schedule_3_minute" value 10 minute;;
    schedule_field "weekend_schedule_3_temperature" value 9 temperature;;
    schedule_field "weekend_schedule_4_hour" value 8 hour;;
    schedule_field "weekend_schedule_4_minute" value 7 minute;;
    schedule_field "weekend_schedule_4_temperature" value 6 temperature;;
    schedule_field "weekend_schedule_5_hour" value 5 hour;;
    schedule_field "weekend_schedule_5_minute" value 4 minute;;
    schedule_field "weekend_schedule_5_temperature" value 3 temperature;;
    schedule_field "weekend_schedule_6_hour" value 2 hour;;
    schedule_field "weekend_schedule_6_minute" value 1 minute;;
    schedule_field "weekend_schedule_6_temperature" value 0 temperature
  else mret tt.

(** *** MoesUserInterface *)

Definition UserInterface_attributes_by_name : list (string * Z) :=
  UserInterface.attributes_by_name ++ [ ("auto_lock"%string, 0x5000) ].

Definition autolock_change (value : pyval) : M Cluster unit :=
  attrid ← lift (by_name UserInterface_attributes_by_name "auto_lock");
  update_attribute UserInterfaceCluster attrid value.

(** *** MoesWindowDetection *)

Definition WindowDetection_attributes_by_name : list (string * Z) :=
  OnOff.attributes_by_name ++
  [ ("window_detection_temperature", 0x6000);
    ("window_detection_timeout_minutes", 0x6001) ]%string.

Definition window_detect_change (value : pyval) : M Cluster unit :=
  attrid ← lift (by_name WindowDetection_attributes_by_name
                   "window_detection_timeout_minutes");
  item ← lift (index value 0);
  update_attribute WindowDetection attrid item;;
  attrid ← lift (by_name WindowDetection_attributes_by_name
                   "window_detection_temperature");
  item ← lift (index value 1);
  v ← lift (mul item 100);
  update_attribute WindowDetection attrid v;;
  attrid ← lift (by_name WindowDetection_attributes_by_name "on_off");
  item ← lift (index value 2);
  update_attribute WindowDetection attrid item.

(** The loop over the records of [MoesWindowDetection.write_attributes]:
    the payload [data] and the [has_change] flag after the records. *)
Fixpoint fill (records : list (Z * pyval)) (data : list pyval)
    (has_change : bool) : result (list pyval * bool) :=
  match records with
  | [] => Ok (data, has_change)
  | (attrid, value) :: rest =>
      name ← attr_name WindowDetection_attributes_by_name attrid;
      if String.eqb name "on_off" then
        fill rest (<[2%nat := value]> data) true
      else if String.eqb name "window_detection_temperature" then
        v ← truediv value 100;
        fill rest (<[1%nat := v]> data) true
      else if String.eqb name "window_detection_timeout_minutes" then
        fill rest (<[0%nat := value]> data) true
      else fill rest data has_change
  end.

(** [records] is the result of [_write_attr_records(attributes)].  The
    manufacturer cluster answers a write with one success record. *)
Definition WindowDetection_write_attributes (records : list (Z * pyval))
    : M Cluster (list (list WriteAttributesStatusRecord)) :=
  match records with
  | [] => mret [[StatusRecord SUCCESS None]]
  | _ =>
      timeout_id ← lift (by_name WindowDetection_attributes_by_name
                           "window_detection_timeout_minutes");
      minutes ← get_or WindowDetection timeout_id (PInt 5);
      temperature_id ← lift (by_name WindowDetection_attributes_by_name
                               "window_detection_temperature");
      cached ← get_or WindowDetection temperature_id (PInt 50);
      temp ← lift (round_div cached 100);
      on_off_id ← lift (by_name WindowDetection_attributes_by_name "on_off");
      on_off ← get_or WindowDetection on_off_id (PBool false);
      filled ← lift (fill records [minutes; temp; on_off] false);
      if (filled.2 : bool) then
        tuya_manufacturer_write_attributes
          [(MOES_WINDOW_DETECT_ATTR, PList filled.1)];;
        mret [[StatusRecord SUCCESS None]]
      else
        mret [map (fun r => StatusRecord FAILURE (Some (fst r))) records]
  end.

(** *** MoesManufCluster, for the class whose [DIRECT_MAPPED_ATTRS] is
    [direct] *)

Definition ManufCluster_update_attribute (direct : mapped_attrs)
    (attrid : Z) (value : pyval) : M Cluster unit :=
  update_attribute ManufCluster attrid value;;
  match assoc_Z direct attrid with
  | Some (name, f) =>
      v ← lift (convert f value);
      listener (temperature_change ThermostatCluster attributes_by_name name v)
  | None =>
      if (attrid =? MOES_SCHEDULE_WORKDAY_ATTR)
         || (attrid =? MOES_SCHEDULE_WEEKEND_ATTR)
      then listener (schedule_change attrid value)
      else mret tt
  end;;
  if attrid =? MOES_WINDOW_DETECT_ATTR then
    listener (window_detect_change value)
  else if attrid =? MOES_MODE_ATTR then
    listener (mode_change value)
  else if attrid =? MOES_VALVE_STATE_ATTR then
    listener (state_change ThermostatCluster value)
  else if attrid =? MOES_CHILD_LOCK_ATTR then
    let mode := if truthy value then 1 else 0 in
    listener (ui_child_lock_change UserInterfaceCluster (PInt mode))
  else if attrid =? MOES_AUTO_LOCK_ATTR then
    let mode := if truthy value then 1 else 0 in
    listener (autolock_change (PInt mode))
  else if attrid =? MOES_BATTERY_LOW_ATTR then
    listener (battery_change PowerConfigurationCluster
                (PInt (if truthy value then 5 else 100)))
  else mret tt.

Fixpoint handle_reports (direct : mapped_attrs) (reports : list (Z * pyval))
    : M Cluster unit :=
  match reports with
  | [] => mret tt
  | (attrid, value) :: rest =>
      contained (ManufCluster_update_attribute direct attrid value);;
      handle_reports direct rest
  end.

End Moes.

(** ** The temperature offset clusters *)

Module Offset.

(** The loop of [write_attributes] of a temperature offset cluster
    [cluster], whose calibration datapoint is [dp] and which sends
    [sending value] for a written [value].  The manufacturer cluster it
    sends through, [SaswellManufClusterSelf[ieee]] for a Saswell valve and
    [self.endpoint.tuya_manufacturer] for a ZONNSMART one, is that of the
    valve itself. *)
Fixpoint write_loop {C} `{EqDecision C} (cluster : C) (dp : Z)
    (sending : pyval -> result pyval)
    (attributes : list (Zonnsmart.attr_key * pyval)) : M C unit :=
  match attributes with
  | [] => mret tt
  | (key, value) :: rest =>
      attrid ← lift (match key with
                     | Zonnsmart.ByName name =>
                         by_name AnalogOutput.attributes_by_name name
                     | Zonnsmart.ById attrid => Ok attrid
                     end);
      if has_id AnalogOutput.attributes_by_name attrid then
        update_attribute cluster attrid value;;
        v ← lift (sending value);
        tuya_manufacturer_write_attributes [(dp, v)];;
        write_loop cluster dp sending rest
      else write_loop cluster dp sending rest
  end.

(** [SaswellTemperatureOffset.write_attributes] *)
Definition SaswellTemperatureOffset_write_attributes
    (attributes : list (Zonnsmart.attr_key * pyval))
    : M Saswell.Cluster (list (list WriteAttributesStatusRecord)) :=
  write_loop Saswell.TemperatureOffset Saswell.SASWELL_TEMP_CORRECTION_ATTR
    (fun value => Ok value) attributes;;
  mret [[StatusRecord SUCCESS None]].

(** [ZONNSMARTTemperatureOffset.write_attributes] *)
Definition ZONNSMARTTemperatureOffset_write_attributes
    (attributes : list (Zonnsmart.attr_key * pyval))
    : M Zonnsmart.Cluster (list (list WriteAttributesStatusRecord)) :=
  write_loop Zonnsmart.TemperatureOffset
    Zonnsmart.ZONNSMART_TEMPERATURE_CALIBRATION_ATTR
    (fun value => mul value 10) attributes;;
  mret [[StatusRecord SUCCESS None]].

End Offset.

(** ** TuyaThermostatV2: the converters of the datapoint table

    The converter lambdas given to the quirk builder, on integers. *)

Module ThermostatV2.

Module TuyaThermostatSystemMode.
Definition Auto : Z := 0x00.
Definition Heat : Z := 0x01.
Definition Off : Z := 0x02.
End TuyaThermostatSystemMode.

(** [d[x]] on a dict with integer keys; [KeyError] when absent. *)
Definition item (d : list (Z * Z)) (x : Z) : result Z :=
  match assoc_Z d x with
  | Some y => Ok y
  | None => Raise KeyError
  end.

(** dp 2, [converter] and [dp_converter] *)
Definition system_mode_converter (x : Z) : result Z :=
  item [ (TuyaThermostatSystemMode.Auto, Thermostat.SystemMode.Auto);
         (TuyaThermostatSystemMode.Heat, Thermostat.SystemMode.Heat);
         (TuyaThermostatSystemMode.Off, Thermostat.SystemMode.Off) ] x.

Definition system_mode_dp_converter (x : Z) : result Z :=
  item [ (Thermostat.SystemMode.Auto, TuyaThermostatSystemMode.Auto);
         (Thermostat.SystemMode.Heat, TuyaThermostatSystemMode.Heat);
         (Thermostat.SystemMode.Off, TuyaThermostatSystemMode.Off) ] x.

(** dp 3: [0x01 if not x else 0x00] *)
Definition running_state_converter (x : pyval) : Z :=
  if negb (truthy x) then 0x01 else 0x00.

(** dp 4: [x * 10] and [x // 10] *)
Definition setpoint_converter (x : Z) : Z := x * 10.
Definition setpoint_dp_converter (x : Z) : Z := x / 10.

(** dp 5: [x * 10] *)
Definition local_temperature_converter (x : Z) : Z := x * 10.

(** dp 47: [x] and [x + 0x100000000 if x < 0 else x] *)
Definition calibration_converter (x : Z) : Z := x.
Definition calibration_dp_converter (x : Z) : Z :=
  if x <? 0 then x + 0x100000000 else x.

End ThermostatV2.

(** ** Calculator calls that fail *)

(** A call that fails with [TypeError] before it changes anything:
    delivered over the bus it notifies nothing and raises no error. *)
Definition fails_quietly {C} `{EqDecision C} (call : M C unit)
    (s : DevState C) : Prop :=
  call s = (s, Raise TypeError) /\
  outcome (listener call) s = Ok tt /\
  emitted (listener call) s = [].

(** ** Outbound write requests *)

(** A write request that leaves the caches and the notifications of the
    device alone and either sends nothing, or hands one set of datapoints
    to the manufacturer cluster and answers with a success record. *)
Definition sends_or_fails {C} `{EqDecision C}
    (m : M C (list (list WriteAttributesStatusRecord))) (s : DevState C)
    : Prop :=
  attr_cache (run m s) = attr_cache s /\
  attribute_updates (run m s) = attribute_updates s /\
  (sent m s = [] \/
   exists d, sent m s = [d] /\
             outcome m s = Ok [[StatusRecord SUCCESS None]]).

(** ** Readings of a thermostat cache *)

(** The cache [c] of a thermostat cluster holds the room temperature
    [cur] and the heating setpoint [set], and its running mode and running
    state show heating exactly when [cur] is below [set] plus [margin]. *)
Definition demand_shown (c : cache) (cur set margin : Z) : Prop :=
  c !! 0x0000 = Some (PInt cur) /\
  c !! 0x0012 = Some (PInt set) /\
  c !! 0x001E
    = Some (PInt (if set + margin <=? cur then Thermostat.RunningMode.Off
                  else Thermostat.RunningMode.Heat)) /\
  c !! 0x0029
    = Some (PInt (if set + margin <=? cur then Thermostat.RunningState.Idle
                  else Thermostat.RunningState.Heat_State_On)).

(** ** The datapoints each dispatcher acts on

    For each manufacturer cluster, the datapoints [_update_attribute] has
    a rule for: the keys of its direct table and the datapoints its
    branches compare [attrid] with. *)

Module Handled.

Definition saswell : list Z :=
  [ Saswell.SASWELL_ROOM_TEMP_ATTR; Saswell.SASWELL_TARGET_TEMP_ATTR;
    Saswell.SASWELL_TEMP_CORRECTION_ATTR; Saswell.SASWELL_ONOFF_ATTR;
    Saswell.SASWELL_SCHEDULE_MODE_ATTR; Saswell.SASWELL_AWAY_MODE_ATTR;
    Saswell.SASWELL_CHILD_LOCK_ATTR; Saswell.SASWELL_WINDOW_DETECT_ATTR;
    Saswell.SASWELL_ANTI_FREEZE_ATTR; Saswell.SASWELL_LIMESCALE_PROTECT_ATTR;
    Saswell.SASWELL_BATTERY_ALARM_ATTR ].

Definition moes : list Z :=
  [ Moes.MOES_TEMPERATURE_ATTR; Moes.MOES_TARGET_TEMP_ATTR;
    Moes.MOES_AWAY_TEMP_ATTR; Moes.MOES_COMFORT_TEMP_ATTR;
    Moes.MOES_ECO_TEMP_ATTR; Moes.MOES_TEMP_CALIBRATION_ATTR;
    Moes.MOES_MIN_TEMPERATURE_ATTR; Moes.MOES_MAX_TEMPERATURE_ATTR;
    Moes.MOES_VALVE_STATE_ATTR; Moes.MOES_AWAY_DAYS_ATTR;
    Moes.MOES_BOOST_TIME_ATTR; Moes.MOES_MODE_ATTR;
    Moes.MOES_WEEK_FORMAT_ATTR; Moes.MOES_FORCE_VALVE_ATTR;
    Moes.MOES_SCHEDULE_WORKDAY_ATTR; Moes.MOES_SCHEDULE_WEEKEND_ATTR;
    Moes.MOES_WINDOW_DETECT_ATTR; Moes.MOES_CHILD_LOCK_ATTR;
    Moes.MOES_AUTO_LOCK_ATTR; Moes.MOES_BATTERY_LOW_ATTR ].

Definition zonnsmart : list Z :=
  [ Zonnsmart.ZONNSMART_TEMPERATURE_ATTR;
    Zonnsmart.ZONNSMART_TEMPERATURE_CALIBRATION_ATTR;
    Zonnsmart.ZONNSMART_TARGET_TEMP_ATTR;
    Zonnsmart.ZONNSMART_HOLIDAY_TEMP_ATTR;
    Zonnsmart.ZONNSMART_FAULT_DETECTION_ATTR;
    Zonnsmart.ZONNSMART_WINDOW_DETECT_ATTR;
    Zonnsmart.ZONNSMART_OPENED_WINDOW_TEMP;
    Zonnsmart.ZONNSMART_MODE_ATTR; Zonnsmart.ZONNSMART_FROST_PROTECT_ATTR;
    Zonnsmart.ZONNSMART_HEATING_STOPPING_ATTR;
    Zonnsmart.ZONNSMART_CHILD_LOCK_ATTR; Zonnsmart.ZONNSMART_BATTERY_ATTR;
    Zonnsmart.ZONNSMART_ONLINE_MODE_ENUM_ATTR;
    Zonnsmart.ZONNSMART_BOOST_TIME_ATTR ].

Definition siterwell : list Z :=
  [ Siterwell.SITERWELL_TEMPERATURE_ATTR; Siterwell.SITERWELL_TARGET_TEMP_ATTR;
    Siterwell.SITERWELL_MODE_ATTR; Siterwell.SITERWELL_VALVE_STATE_ATTR;
    Siterwell.SITERWELL_CHILD_LOCK_ATTR; Siterwell.SITERWELL_BATTERY_ATTR ].

End Handled.

(** ** The datapoints each manufacturer cluster registers

    The entries that the [attributes] table of each manufacturer cluster
    adds to the table of its base class, which is not among the sources:
    datapoint id and name.  A report of a datapoint that is in none of the
    two tables does not reach [_update_attribute]. *)

Module Registered.

Definition siterwell : list (Z * string) :=
  [ (Siterwell.SITERWELL_CHILD_LOCK_ATTR, "child_lock");
    (Siterwell.SITERWELL_WINDOW_DETECT_ATTR, "window_detection");
    (Siterwell.SITERWELL_VALVE_DETECT_ATTR, "valve_detect");
    (Siterwell.SITERWELL_VALVE_STATE_ATTR, "valve_state");
    (Siterwell.SITERWELL_TARGET_TEMP_ATTR, "target_temperature");
    (Siterwell.SITERWELL_TEMPERATURE_ATTR, "temperature");
    (Siterwell.SITERWELL_BATTERY_ATTR, "battery");
    (Siterwell.SITERWELL_MODE_ATTR, "mode") ]%string.

Definition moes : list (Z * string) :=
  [ (Moes.MOES_CHILD_LOCK_ATTR, "child_lock");
    (Moes.MOES_WINDOW_DETECT_ATTR, "window_detection");
    (Moes.MOES_VALVE_DETECT_ATTR, "valve_detect");
    (Moes.MOES_VALVE_STATE_ATTR, "valve_state");
    (Moes.MOES_TARGET_TEMP_ATTR, "target_temperature");
    (Moes.MOES_TEMPERATURE_ATTR, "temperature");
    (Moes.MOES_MODE_ATTR, "mode");
    (Moes.MOES_TEMP_CALIBRATION_ATTR, "temperature_calibration");
    (Moes.MOES_MIN_TEMPERATURE_ATTR, "min_temperature");
    (Moes.MOES_MAX_TEMPERATURE_ATTR, "max_temperature");
    (Moes.MOES_BOOST_TIME_ATTR, "boost_duration_seconds");
    (Moes.MOES_FORCE_VALVE_ATTR, "valve_force_state");
    (Moes.MOES_COMFORT_TEMP_ATTR, "comfort_mode_temperature");
    (Moes.MOES_ECO_TEMP_ATTR, "eco_mode_temperature");
    (Moes.MOES_BATTERY_LOW_ATTR, "battery_low");
    (Moes.MOES_WEEK_FORMAT_ATTR, "week_format");
    (Moes.MOES_AWAY_TEMP_ATTR, "away_mode_temperature");
    (Moes.MOES_AUTO_LOCK_ATTR, "auto_lock");
    (Moes.MOES_AWAY_DAYS_ATTR, "away_duration_days");
    (Moes.MOES_SCHEDULE_WORKDAY_ATTR, "workday_schedule");
    (Moes.MOES_SCHEDULE_WEEKEND_ATTR, "weekend_schedule") ]%string.

Definition zonnsmart : list (Z * string) :=
  [ (Zonnsmart.ZONNSMART_MODE_ATTR, "mode");
    (Zonnsmart.ZONNSMART_WINDOW_DETECT_ATTR, "window_detection");
    (Zonnsmart.ZONNSMART_FROST_PROTECT_ATTR, "frost_protection");
    (Zonnsmart.ZONNSMART_TARGET_TEMP_ATTR, "target_temperature");
    (Zonnsmart.ZONNSMART_TEMPERATURE_ATTR, "temperature");
    (Zonnsmart.ZONNSMART_TEMPERATURE_CALIBRATION_ATTR,
      "temperature_calibration");
    (Zonnsmart.ZONNSMART_WEEK_FORMAT_ATTR, "week_format");
    (Zonnsmart.ZONNSMART_HOLIDAY_TEMP_ATTR, "holiday_temperature");
    (Zonnsmart.ZONNSMART_BATTERY_ATTR, "battery");
    (Zonnsmart.ZONNSMART_UPTIME_TIME_ATTR, "uptime");
    (Zonnsmart.ZONNSMART_CHILD_LOCK_ATTR, "child_lock");
    (Zonnsmart.ZONNSMART_FAULT_DETECTION_ATTR, "fault_detected");
    (Zonnsmart.ZONNSMART_BOOST_TIME_ATTR, "boost_duration_seconds");
    (Zonnsmart.ZONNSMART_OPENED_WINDOW_TEMP, "opened_window_temperature");
    (Zonnsmart.ZONNSMART_COMFORT_TEMP_ATTR, "comfort_mode_temperature");
    (Zonnsmart.ZONNSMART_ECO_TEMP_ATTR, "eco_mode_temperature");
    (Zonnsmart.ZONNSMART_HEATING_STOPPING_ATTR, "heating_stop");
    (Zonnsmart.ZONNSMART_ONLINE_MODE_BOOL_ATTR, "online_set");
    (Zonnsmart.ZONNSMART_ONLINE_MODE_ENUM_ATTR, "online") ]%string.

Definition saswell : list (Z * string) :=
  [ (Saswell.SASWELL_ONOFF_ATTR, "on_off");
    (Saswell.SASWELL_TARGET_TEMP_ATTR, "target_temperature");
    (Saswell.SASWELL_ROOM_TEMP_ATTR, "current_room_temp");
    (Saswell.SASWELL_CHILD_LOCK_ATTR, "child_lock");
    (Saswell.SASWELL_SCHEDULE_MODE_ATTR, "schedule_mode");
    (Saswell.SASWELL_WINDOW_DETECT_ATTR, "window_detection");
    (Saswell.SASWELL_ANTI_FREEZE_ATTR, "anti_freeze_protection");
    (Saswell.SASWELL_LIMESCALE_PROTECT_ATTR, "limescale_protection");
    (Saswell.SASWELL_AWAY_MODE_ATTR, "away_mode");
    (Saswell.SASWELL_BATTERY_ALARM_ATTR, "battery_low");
    (Saswell.SASWELL_TEMP_CORRECTION_ATTR, "room_temperature_correction")
  ]%string.


End Registered.

(** ** Scenarios used in the statements *)

Module Scenario.

(** The two notifications a state change produces on a thermostat
    cluster [th]: running mode, then running state. *)
Definition state_updates {C} (th : C) (mode state : Z) : list (C * Z * pyval) :=
  [ (th, 0x001E, PInt mode); (th, 0x0029, PInt state) ].

Definition idle_updates {C} (th : C) : list (C * Z * pyval) :=
  state_updates th Thermostat.RunningMode.Off Thermostat.RunningState.Idle.

Definition heating_updates {C} (th : C) : list (C * Z * pyval) :=
  state_updates th Thermostat.RunningMode.Heat
    Thermostat.RunningState.Heat_State_On.

(** A cache all of whose values are integers, as the caches of the
    thermostat clusters are. *)
Definition is_int (v : pyval) : bool :=
  match v with PInt _ => true | _ => false end.

Definition int_valued (c : cache) : Prop :=
  map_Forall (fun _ v => is_int v = true) c.

(** The integer cached under [attrid], or [dflt] when there is none. *)
Definition cached_int (c : cache) (attrid dflt : Z) : Z :=
  match c !! attrid with
  | Some (PInt z) => z
  | _ => dflt
  end.

(** What a schedule payload carries at position [num] for the value [x]
    of the field: temperatures (every third position, from the first) are
    divided by 100 and rounded, hours and minutes go as they are. *)
Definition encode (num : nat) (x : Z) : Z :=
  if (num mod 3 =? 0)%nat then round_half_even (x # 100) else x.

(** The payload of a write of [v] to the schedule field [attribute], read
    off the cache [c] for the other fields of [table]. *)
Definition schedule_payload (c : cache) (attribute : string) (v : Z)
    (table : list (string * Z)) : list pyval :=
  imap (fun num entry =>
          let x := if String.eqb entry.1 attribute then v
                   else cached_int c
                          (default 0 (assoc Moes.attributes_by_name entry.1))
                          entry.2 in
          PInt (encode num x)) table.

(** A reported schedule payload as it comes back in a write: the hours
    (every third entry, from the third) keep their low six bits, the other
    entries are unchanged. *)
Definition masked (payload : list Z) : list pyval :=
  imap (fun i x => PInt (if (i mod 3 =? 2)%nat then Z.land x 0x3F else x))
       payload.

(** What the handler of a schedule report stores for the entry [x] at
    position [i] of the payload: temperatures times 100, hours masked. *)
Definition stored (i : nat) (x : Z) : Z :=
  if (i mod 3 =? 0)%nat then x * 100
  else if (i mod 3 =? 2)%nat then Z.land x 0x3F
  else x.

(** The attribute updates of the fields of a schedule table for a
    reported payload, in table order. *)
Definition field_updates (table : list (string * Z)) (payload : list Z)
    : list (Moes.Cluster * Z * pyval) :=
  imap (fun i ex =>
          (Moes.ThermostatCluster,
           default 0 (assoc Moes.attributes_by_name ex.1.1),
           PInt (stored i ex.2)))
       (zip table payload).

(** A Moes thermostat cache that has observed a first workday temperature
    of 2000 and nothing else. *)
Definition moes_slot1_2000 : cache := {[ 0x4112 := PInt 2000 ]}.

(** A Saswell valve that has seen nothing yet. *)
Definition saswell_new : DevState Saswell.Cluster := fresh (fun _ => ∅).

(** A Saswell valve in heat mode whose target setpoint is 250. *)
Definition saswell_heat_250 : DevState Saswell.Cluster :=
  fresh (fun c =>
    match c with
    | Saswell.ThermostatCluster =>
        {[ 0x001C := PInt Thermostat.SystemMode.Heat; 0x0012 := PInt 250 ]}
    | _ => ∅
    end).

(** A ZONNSMART valve switched off whose target setpoint is 250. *)
Definition zonnsmart_off_250 : DevState Zonnsmart.Cluster :=
  fresh (fun c =>
    match c with
    | Zonnsmart.ThermostatCluster =>
        {[ 0x001C := PInt Thermostat.SystemMode.Off; 0x0012 := PInt 250 ]}
    | _ => ∅
    end).

(** The same valve, which has also observed a local temperature. *)
Definition zonnsmart_off_both : DevState Zonnsmart.Cluster :=
  fresh (fun c =>
    match c with
    | Zonnsmart.ThermostatCluster =>
        {[ 0x001C := PInt Thermostat.SystemMode.Off; 0x0012 := PInt 250;
           0x0000 := PInt 180 ]}
    | _ => ∅
    end).

(** A ZONNSMART valve that has seen nothing yet. *)
Definition zonnsmart_new : DevState Zonnsmart.Cluster := fresh (fun _ => ∅).

(** A Saswell valve whose system mode is cached as [mode]. *)
Definition saswell_in_mode (mode : Z) : DevState Saswell.Cluster :=
  fresh (fun c =>
    match c with
    | Saswell.ThermostatCluster => {[ 0x001C := PInt mode ]}
    | _ => ∅
    end).

(** The notifications of one cluster among a list of notifications. *)
Definition of_cluster {C} `{EqDecision C} (c : C)
    (us : list (C * Z * pyval)) : list (Z * pyval) :=
  omap (fun u => if decide (u.1.1 = c) then Some (u.1.2, u.2) else None) us.

(** A Saswell valve with empty caches that has already notified an update
    and sent a write. *)
Definition saswell_used : DevState Saswell.Cluster :=
  {| attr_cache := fun _ => ∅;
     attribute_updates := [(Saswell.ChildLock, 0x0000, PInt 1)];
     tuya_writes := [[(Saswell.SASWELL_CHILD_LOCK_ATTR, PInt 1)]] |}.

(** The same for a ZONNSMART valve. *)
Definition zonnsmart_used : DevState Zonnsmart.Cluster :=
  {| attr_cache := fun _ => ∅;
     attribute_updates := [(Zonnsmart.ChildLock, 0x0000, PInt 1)];
     tuya_writes := [[(Zonnsmart.ZONNSMART_CHILD_LOCK_ATTR, PInt 1)]] |}.

(** The world after two ZONNSMART valves [a] and [b] were constructed, in
    that order. *)
Definition two_valves (a b : Z) (w : Zonnsmart.World) : Zonnsmart.World :=
  fst ((Zonnsmart.construct a;; Zonnsmart.construct b) w).

End Scenario.

(** * Properties *)

(** ** Generic facts about the effect monad *)

Section DeviceFacts.
Context {C : Type} `{EqDecision C}.

Lemma emitted_app {A} (m : M C A) (s : DevState C) l :
  attribute_updates (run m s) = attribute_updates s ++ l ->
  emitted m s = l.
Proof.
  intros E. unfold emitted. rewrite E. by rewrite drop_app_length.
Qed.

Lemma attribute_updates_apply (us : list (C * Z * pyval)) (s : DevState C) :
  attribute_updates (apply_updates us s) = attribute_updates s ++ us.
Proof.
  unfold apply_updates. revert s.
  induction us as [|u us IH]; intros s; cbn [fold_left].
  - by rewrite app_nil_r.
  - rewrite IH. destruct u as [[c a] v]. cbn. by rewrite <- app_assoc.
Qed.

Lemma tuya_writes_apply (us : list (C * Z * pyval)) (s : DevState C) :
  tuya_writes (apply_updates us s) = tuya_writes s.
Proof.
  unfold apply_updates. revert s.
  induction us as [|u us IH]; intros s; cbn [fold_left]; [done|].
  by rewrite IH.
Qed.

Lemma emitted_apply {A} (m : M C A) (s : DevState C) us :
  run m s = apply_updates us s -> emitted m s = us.
Proof.
  intros E. apply emitted_app. rewrite E. apply attribute_updates_apply.
Qed.

Lemma apply_updates_app (us vs : list (C * Z * pyval)) (s : DevState C) :
  apply_updates (us ++ vs) s = apply_updates vs (apply_updates us s).
Proof. unfold apply_updates. apply fold_left_app. Qed.

Lemma attr_cache_notify (s : DevState C) (u : C * Z * pyval) (c : C) (a : Z) :
  attr_cache (notify s u) c !! a
  = if decide (u.1.1 = c /\ u.1.2 = a) then Some u.2 else attr_cache s c !! a.
Proof.
  destruct u as [[c' a'] v]. cbn.
  destruct (decide (c = c')) as [->|Hc].
  - cbn. destruct (decide (a' = a)) as [->|Ha].
    + rewrite lookup_insert_eq. by rewrite decide_True.
    + rewrite lookup_insert_ne by done. rewrite decide_False; [done|].
      by intros [_ ?].
  - cbn. rewrite decide_False; [done|]. intros [? _]. by apply Hc.
Qed.

(** The cache after a list of updates: the last write to a key wins, an
    untouched key keeps its value. *)
Lemma lookup_apply_updates (us : list (C * Z * pyval)) (s : DevState C)
    (c : C) (a : Z) :
  attr_cache (apply_updates us s) c !! a
  = match last_write us c a with
    | Some v => Some v
    | None => attr_cache s c !! a
    end.
Proof.
  revert s. induction us as [|u us IH]; intros s; [done|].
  change (apply_updates (u :: us) s) with (apply_updates us (notify s u)).
  rewrite IH. cbn [last_write].
  destruct (last_write us c a); [done|]. rewrite attr_cache_notify.
  by destruct (decide (u.1.1 = c /\ u.1.2 = a)).
Qed.

Lemma last_write_untouched (us : list (C * Z * pyval)) (c : C) (a : Z) :
  Forall (fun u => (u.1.1, u.1.2) <> (c, a)) us -> last_write us c a = None.
Proof.
  induction 1 as [|u us Hu _ IH]; [done|]. cbn [last_write]. rewrite IH.
  rewrite decide_False; [done|]. intros [E1 E2]. apply Hu. by rewrite E1, E2.
Qed.

(** Applying the same updates a second time changes no cache. *)
Lemma apply_updates_twice (us : list (C * Z * pyval)) (s : DevState C) (c : C) :
  attr_cache (apply_updates us (apply_updates us s)) c
  = attr_cache (apply_updates us s) c.
Proof.
  apply map_eq. intros a. rewrite !lookup_apply_updates.
  by destruct (last_write us c a).
Qed.

Lemma agree_refl (R : list (C * Z)) (s : DevState C) : agree R s s.
Proof. by intros c a _. Qed.

Lemma agree_apply (R : list (C * Z)) (us : list (C * Z * pyval))
    (s s' : DevState C) :
  agree R s s' -> agree R (apply_updates us s) (apply_updates us s').
Proof.
  intros H c a Hin. rewrite !lookup_apply_updates.
  destruct (last_write us c a); [done|]. by apply H.
Qed.

Lemma agree_untouched (R : list (C * Z)) (us : list (C * Z * pyval))
    (s : DevState C) :
  Forall (fun u => (u.1.1, u.1.2) ∉ R) us -> agree R s (apply_updates us s).
Proof.
  intros Hus c a Hin. rewrite lookup_apply_updates.
  rewrite last_write_untouched; [done|].
  eapply Forall_impl; [exact Hus|]. intros u Hu E. apply Hu. by rewrite E.
Qed.

Lemma sent_app {A} (m : M C A) (s : DevState C) l :
  tuya_writes (run m s) = tuya_writes s ++ l -> sent m s = l.
Proof.
  intros E. unfold sent. rewrite E. by rewrite drop_app_length.
Qed.


End DeviceFacts.

Lemma cache_get_Some (c : cache) a v : c !! a = Some v -> cache_get c a = v.
Proof. unfold cache_get. by intros ->. Qed.

Lemma eq_int_PInt z k : eq_int (PInt z) k = (z =? k).
Proof. reflexivity. Qed.

(** Decide the comparisons between constants that appear in the goal. *)
Ltac eqb_consts :=
  repeat match goal with
    | |- context [?a =? ?b] =>
        let c := eval vm_compute in (a =? b) in
        lazymatch c with
        | true => change (a =? b) with true
        | false => change (a =? b) with false
        end
    end.

(** Unfold the monadic plumbing of a cluster method. *)
Ltac exec :=
  repeat (unfold mbind, mret, M_bind, M_ret, lift, get, get_or, listener,
            update_attribute, run, outcome;
          cbn -[eq_int Z.eqb Z.leb Z.mul Z.add];
          rewrite ?eq_int_PInt; eqb_consts).

(** Look a key up in a cache built by the updates of a handler. *)
Ltac lookup_cache :=
  simpl;
  repeat first [ rewrite lookup_insert_eq
               | rewrite lookup_insert_ne by done ].

(** ** Computations with a read footprint *)

Section Isolation.
Context {C : Type} `{EqDecision C}.
Implicit Types R : list (C * Z).

Lemma isolated_ret {A} R (a : A) : isolated R (mret a : M C A).
Proof. intros s. exists [], (Ok a). split; [constructor|]. by intros s' _. Qed.

Lemma isolated_lift {A} R (r : result A) : isolated R (lift r : M C A).
Proof. intros s. exists [], r. split; [constructor|]. by intros s' _. Qed.

Lemma isolated_update R (c : C) (a : Z) (v : pyval) :
  (c, a) ∉ R -> isolated R (update_attribute c a v).
Proof.
  intros Hout s. exists [(c, a, v)], (Ok tt).
  split; [by repeat constructor|]. by intros s' _.
Qed.

Lemma isolated_get R (c : C) (a : Z) : (c, a) ∈ R -> isolated R (get c a).
Proof.
  intros Hin s. exists [], (Ok (cache_get (attr_cache s c) a)).
  split; [constructor|]. intros s' Hs. unfold get, cache_get.
  by rewrite (Hs c a Hin).
Qed.

Lemma isolated_get_or R (c : C) (a : Z) (d : pyval) :
  (c, a) ∈ R -> isolated R (get_or c a d).
Proof.
  intros Hin s. exists [], (Ok (cache_get_or (attr_cache s c) a d)).
  split; [constructor|]. intros s' Hs. unfold get_or, cache_get_or.
  by rewrite (Hs c a Hin).
Qed.

Lemma isolated_bind {A B} R (m : M C A) (f : A -> M C B) :
  isolated R m -> (forall a, isolated R (f a)) -> isolated R (m ≫= f).
Proof.
  intros Hm Hf s. destruct (Hm s) as (us & r & Hus & Hrun).
  destruct r as [a|e].
  - destruct (Hf a (apply_updates us s)) as (vs & r' & Hvs & Hrun').
    exists (us ++ vs), r'. split; [by apply Forall_app|].
    intros s' Hs. unfold mbind, M_bind. rewrite (Hrun s' Hs).
    rewrite (Hrun' (apply_updates us s')) by (by apply agree_apply).
    by rewrite apply_updates_app.
  - exists us, (Raise e). split; [done|].
    intros s' Hs. unfold mbind, M_bind. by rewrite (Hrun s' Hs).
Qed.

Lemma isolated_listener R (m : M C unit) : isolated R m -> isolated R (listener m).
Proof.
  intros Hm s. destruct (Hm s) as (us & r & Hus & Hrun).
  exists us, (Ok tt). split; [done|].
  intros s' Hs. unfold listener. by rewrite (Hrun s' Hs).
Qed.

Lemma isolated_contained R (m : M C unit) :
  isolated R m -> isolated R (contained m).
Proof.
  intros Hm s. destruct (Hm s) as (us & r & Hus & Hrun).
  exists us, (Ok tt). split; [done|].
  intros s' Hs. unfold contained. by rewrite (Hrun s' Hs).
Qed.

Lemma isolated_bind_lift {A B} R (r : result A) (f : A -> M C B) :
  (forall a, r = Ok a -> isolated R (f a)) -> isolated R (lift r ≫= f).
Proof.
  intros Hf s. destruct r as [a|e].
  - destruct (Hf a eq_refl s) as (us & r & Hus & Hrun).
    exists us, r. split; [done|]. intros s' Hs.
    unfold mbind, M_bind, lift. by apply Hrun.
  - exists [], (Raise e). split; [constructor|]. by intros s' _.
Qed.

(** Running an isolated computation a second time changes no cache. *)
Lemma isolated_idempotent {A} R (m : M C A) (s : DevState C) (c : C) :
  isolated R m ->
  attr_cache (run m (run m s)) c = attr_cache (run m s) c.
Proof.
  intros Hm. destruct (Hm s) as (us & r & Hus & Hrun).
  unfold run. rewrite (Hrun s (agree_refl R s)). cbn [fst].
  rewrite (Hrun (apply_updates us s)) by (by apply agree_untouched).
  apply apply_updates_twice.
Qed.

(** Handling the same frame twice in a row leaves the caches as handling
    it once does. *)
Lemma contained_twice R (m : M C unit) (s : DevState C) (c : C) :
  isolated R m ->
  attr_cache (run (contained m;; contained m;; mret tt) s) c
  = attr_cache (run (contained m;; mret tt) s) c.
Proof.
  intros Hm. apply isolated_contained in Hm.
  exact (isolated_idempotent R (contained m) s c Hm).
Qed.

End Isolation.

(** ** Computations fixed by the caches *)

Section Determined.
Context {C : Type} `{EqDecision C}.

Lemma run_outcome {A} (m : M C A) (s : DevState C) :
  m s = (run m s, outcome m s).
Proof. unfold run, outcome. by destruct (m s). Qed.

Lemma determined_ret {A} (a : A) : cache_determined (mret a : M C A).
Proof.
  intros s1 s2 Hs. repeat split; [done|]. exists [].
  unfold run. cbn. by rewrite !app_nil_r.
Qed.

Lemma determined_lift {A} (r : result A) : cache_determined (lift r : M C A).
Proof.
  intros s1 s2 Hs. repeat split; [done|]. exists [].
  unfold run. cbn. by rewrite !app_nil_r.
Qed.

Lemma determined_get (c : C) (a : Z) : cache_determined (get c a).
Proof.
  intros s1 s2 Hs. split; [done|]. split.
  - unfold outcome, get. cbn. by rewrite (Hs c).
  - exists []. unfold run. cbn. by rewrite !app_nil_r.
Qed.

Lemma determined_get_or (c : C) (a : Z) (d : pyval) :
  cache_determined (get_or c a d).
Proof.
  intros s1 s2 Hs. split; [done|]. split.
  - unfold outcome, get_or. cbn. by rewrite (Hs c).
  - exists []. unfold run. cbn. by rewrite !app_nil_r.
Qed.

Lemma determined_update (c : C) (a : Z) (v : pyval) :
  cache_determined (update_attribute c a v).
Proof.
  intros s1 s2 Hs. split; [|split; [done|by exists [(c, a, v)]]].
  intros c'. unfold run. cbn. by rewrite (Hs c').
Qed.

Lemma determined_bind {A B} (m : M C A) (f : A -> M C B) :
  cache_determined m -> (forall a, cache_determined (f a)) ->
  cache_determined (m ≫= f).
Proof.
  intros Hm Hf s1 s2 Hs.
  destruct (Hm s1 s2 Hs) as (Hc & Ho & us & H1 & H2).
  unfold run, outcome, mbind, M_bind.
  rewrite (run_outcome m s1), (run_outcome m s2), <- Ho.
  destruct (outcome m s1) as [a|e].
  - destruct (Hf a _ _ Hc) as (Hc' & Ho' & vs & H1' & H2').
    split; [done|]. split; [done|]. exists (us ++ vs).
    fold (run (f a) (run m s1)). fold (run (f a) (run m s2)).
    rewrite H1', H2', H1, H2. by rewrite !app_assoc.
  - split; [done|]. split; [done|]. by exists us.
Qed.

Lemma determined_listener (m : M C unit) :
  cache_determined m -> cache_determined (listener m).
Proof.
  intros Hm s1 s2 Hs. destruct (Hm s1 s2 Hs) as (Hc & _ & us & H1 & H2).
  split; [done|]. split; [done|]. by exists us.
Qed.

Lemma determined_contained (m : M C unit) :
  cache_determined m -> cache_determined (contained m).
Proof.
  intros Hm s1 s2 Hs. destruct (Hm s1 s2 Hs) as (Hc & _ & us & H1 & H2).
  split; [done|]. split; [done|]. by exists us.
Qed.

Lemma determined_emitted {A} (m : M C A) (s1 s2 : DevState C) :
  cache_determined m -> same_caches s1 s2 -> emitted m s1 = emitted m s2.
Proof.
  intros Hm Hs. destruct (Hm s1 s2 Hs) as (_ & _ & us & H1 & H2).
  by rewrite (emitted_app m s1 us H1), (emitted_app m s2 us H2).
Qed.

End Determined.

Ltac determine_step :=
  lazymatch goal with
  | |- cache_determined (mret _) => apply determined_ret
  | |- cache_determined (lift _) => apply determined_lift
  | |- cache_determined (update_attribute _ _ _) => apply determined_update
  | |- cache_determined (get _ _) => apply determined_get
  | |- cache_determined (get_or _ _ _) => apply determined_get_or
  | |- cache_determined (listener _) => apply determined_listener
  | |- cache_determined (contained _) => apply determined_contained
  | |- cache_determined (mbind _ _) => apply determined_bind; [|intros ?]
  | |- cache_determined (if ?b then _ else _) => destruct b
  | |- cache_determined (match ?x with _ => _ end) => destruct x
  end.

(** Membership of a key in a concrete footprint. *)
Ltac not_in :=
  repeat (apply not_elem_of_cons; split; [congruence|]); apply not_elem_of_nil.
Ltac is_in := solve [repeat constructor].

(** Prove a cluster method isolated, following its structure. *)
Ltac isolate_step :=
  lazymatch goal with
  | |- isolated _ (mret _) => apply isolated_ret
  | |- isolated _ (lift _) => apply isolated_lift
  | |- isolated _ (update_attribute _ _ _) => apply isolated_update; not_in
  | |- isolated _ (get _ _) => apply isolated_get; is_in
  | |- isolated _ (get_or _ _ _) => apply isolated_get_or; is_in
  | |- isolated _ (listener _) => apply isolated_listener
  | |- isolated _ (contained _) => apply isolated_contained
  | |- isolated _ (mbind _ (lift _)) =>
      apply isolated_bind_lift;
      let a := fresh "a" in
      let H := fresh "H" in
      intros a H; cbn in H;
      first [ discriminate H | injection H as <- | clear H ]
  | |- isolated _ (mbind _ _) => apply isolated_bind; [|intros ?]
  | |- isolated _ (if ?b then _ else _) => destruct b
  | |- isolated _ (match ?x with _ => _ end) => destruct x
  end.

Ltac unfold_listeners :=
  unfold temperature_change, state_change, ui_child_lock_change,
    battery_change, set_on_off, set_present_value.

Ltac isolate := repeat first [ isolate_step | progress unfold_listeners ].

(** ** The shared listeners, as update lists *)

Section BaseFacts.
Context {C : Type} `{EqDecision C}.

Lemma state_change_spec (th : C) (value : pyval) (s : DevState C) :
  state_change th value s =
  (apply_updates
     (if eq_int value 0
      then [ (th, 0x001E, PInt Thermostat.RunningMode.Off);
             (th, 0x0029, PInt Thermostat.RunningState.Idle) ]
      else [ (th, 0x001E, PInt Thermostat.RunningMode.Heat);
             (th, 0x0029, PInt Thermostat.RunningState.Heat_State_On) ]) s,
   Ok tt).
Proof. unfold state_change. destruct (eq_int value 0); reflexivity. Qed.

End BaseFacts.

(** ** Saswell running state *)

Module SaswellFacts.
Import Saswell.

Import Scenario.

Lemma hass_not_heat (s : DevState Cluster) attrid value :
  eq_int (cache_get (attr_cache s ThermostatCluster) 0x001C)
         Thermostat.SystemMode.Heat = false ->
  run (hass_climate_state_change attrid value) s = apply_updates (idle_updates ThermostatCluster) s /\
  outcome (hass_climate_state_change attrid value) s = Ok tt.
Proof.
  intros Hm. unfold hass_climate_state_change. exec. rewrite Hm. exec.
  by rewrite state_change_spec.
Qed.

Lemma hass_heat_room (s : DevState Cluster) (target r : Z) :
  attr_cache s ThermostatCluster !! 0x001C
    = Some (PInt Thermostat.SystemMode.Heat) ->
  attr_cache s ThermostatCluster !! 0x0012 = Some (PInt target) ->
  run (hass_climate_state_change SASWELL_ROOM_TEMP_ATTR (PInt r)) s
    = apply_updates
        (if target + 2 <=? r * 10 then (idle_updates ThermostatCluster) else (heating_updates ThermostatCluster)) s /\
  outcome (hass_climate_state_change SASWELL_ROOM_TEMP_ATTR (PInt r)) s = Ok tt.
Proof.
  intros Hm Ht. unfold hass_climate_state_change. exec.
  rewrite (cache_get_Some _ _ _ Hm). exec.
  rewrite (cache_get_Some _ _ _ Ht). exec.
  rewrite state_change_spec. by destruct (target + 2 <=? r * 10).
Qed.

Lemma hass_heat_target (s : DevState Cluster) (current t : Z) :
  attr_cache s ThermostatCluster !! 0x001C
    = Some (PInt Thermostat.SystemMode.Heat) ->
  attr_cache s ThermostatCluster !! 0x0000 = Some (PInt current) ->
  run (hass_climate_state_change SASWELL_TARGET_TEMP_ATTR (PInt t)) s
    = apply_updates
        (if t * 10 + 2 <=? current then (idle_updates ThermostatCluster) else (heating_updates ThermostatCluster)) s /\
  outcome (hass_climate_state_change SASWELL_TARGET_TEMP_ATTR (PInt t)) s = Ok tt.
Proof.
  intros Hm Ht. unfold hass_climate_state_change. exec.
  rewrite (cache_get_Some _ _ _ Hm). exec.
  rewrite (cache_get_Some _ _ _ Ht). exec.
  rewrite state_change_spec. by destruct (t * 10 + 2 <=? current).
Qed.

Lemma on_off_event_spec (s : DevState Cluster) (value : pyval) :
  on_off_event value s =
  (apply_updates
     (if eq_int value 1
      then [ (ThermostatCluster, 0x001C, PInt Thermostat.SystemMode.Heat);
             (ThermostatCluster, 0x001E, PInt Thermostat.RunningMode.Heat);
             (ThermostatCluster, 0x0029,
              PInt Thermostat.RunningState.Heat_State_On) ]
      else [ (ThermostatCluster, 0x001C, PInt Thermostat.SystemMode.Off);
             (ThermostatCluster, 0x001E, PInt Thermostat.RunningMode.Off);
             (ThermostatCluster, 0x0029, PInt Thermostat.RunningState.Idle) ])
     s, Ok tt).
Proof. unfold on_off_event. destruct (eq_int value 1); reflexivity. Qed.

(** The scenario of the test of target and room temperature: with the
    system mode off, a target of 15 and a room temperature of 20 each give
    the scaled temperature, running mode off and running state idle. *)
Example saswell_temperatures_when_off :
  of_cluster ThermostatCluster
    (emitted (handle_reports [(SASWELL_TARGET_TEMP_ATTR, PInt 15);
                              (SASWELL_ROOM_TEMP_ATTR, PInt 20)])
             (saswell_in_mode Thermostat.SystemMode.Off))
  = [ (0x0012, PInt 150); (0x001E, PInt 0); (0x0029, PInt 0);
      (0x0000, PInt 200); (0x001E, PInt 0); (0x0029, PInt 0) ].
Proof. reflexivity. Qed.

(** In heat mode, with the room at 200: a target of 25 gives heating, and
    a room temperature of 30 then gives idle. *)
Example saswell_temperatures_when_heating :
  of_cluster ThermostatCluster
    (emitted (handle_reports [(SASWELL_TARGET_TEMP_ATTR, PInt 25);
                              (SASWELL_ROOM_TEMP_ATTR, PInt 30)])
             (run (handle_reports [(SASWELL_ROOM_TEMP_ATTR, PInt 20)])
                  (saswell_in_mode Thermostat.SystemMode.Heat)))
  = [ (0x0012, PInt 250); (0x001E, PInt 4); (0x0029, PInt 1);
      (0x0000, PInt 300); (0x001E, PInt 0); (0x0029, PInt 0) ].
Proof. reflexivity. Qed.

(** The scenario of the state report test: room temperature, on, off and
    target temperature reports on a new valve. *)
Example saswell_state_report :
  of_cluster ThermostatCluster
    (emitted (handle_reports [(SASWELL_ROOM_TEMP_ATTR, PInt 179);
                              (SASWELL_ONOFF_ATTR, PInt 1);
                              (SASWELL_ONOFF_ATTR, PInt 0);
                              (SASWELL_TARGET_TEMP_ATTR, PInt 50)])
             saswell_new)
  = [ (0x0000, PInt 1790); (0x001E, PInt 0); (0x0029, PInt 0);
      (0x001C, PInt 4); (0x001E, PInt 4); (0x0029, PInt 1);
      (0x001C, PInt 0); (0x001E, PInt 0); (0x0029, PInt 0);
      (0x0012, PInt 500); (0x001E, PInt 0); (0x0029, PInt 0) ].
Proof. reflexivity. Qed.

(** The Saswell dispatcher reads the thermostat cache under two keys when
    a temperature arrives, and none otherwise; it never writes what it
    reads. *)
Lemma saswell_update_isolated (attrid : Z) (value : pyval) :
  exists R, isolated R (ManufCluster_update_attribute attrid value).
Proof.
  destruct (decide (attrid = SASWELL_ROOM_TEMP_ATTR)) as [->|H1].
  { exists [(ThermostatCluster, 0x001C); (ThermostatCluster, 0x0012)].
    unfold ManufCluster_update_attribute, hass_climate_state_change. cbn.
    isolate. }
  destruct (decide (attrid = SASWELL_TARGET_TEMP_ATTR)) as [->|H2].
  { exists [(ThermostatCluster, 0x001C); (ThermostatCluster, 0x0000)].
    unfold ManufCluster_update_attribute, hass_climate_state_change. cbn.
    isolate. }
  exists []. unfold ManufCluster_update_attribute.
  rewrite (proj2 (Z.eqb_neq _ _) H1), (proj2 (Z.eqb_neq _ _) H2). cbn [orb].
  isolate;
    unfold on_off_event, schedule_mode_change, away_mode_change,
      child_lock_change, window_detect_change, anti_freeze_change,
      limescale_protection_change, battery_alarm_event,
      TemperatureOffset_set_value;
    isolate.
Qed.

(** C1, as the code has it.  In heat mode with a cached target setpoint of
    250 the comparison is [current >= target + 2]: it yields Heating (1)
    for a current value of 248 and Idle (0) for 252; a room temperature
    reading [r] is compared as [10 * r] and emits Idle exactly when
    [252 <= 10 * r], Heating otherwise.  Once the on/off datapoint has
    reported off, the system mode is Off, the running state Idle, and every
    value that arrives afterwards emits Idle. *)
Theorem C1_saswell_hysteresis (s : DevState Cluster) :
  attr_cache s ThermostatCluster !! 0x001C
    = Some (PInt Thermostat.SystemMode.Heat) ->
  attr_cache s ThermostatCluster !! 0x0012 = Some (PInt 250) ->
  hass_state (PInt 248) (PInt 250) = Ok (PInt 1) /\
  hass_state (PInt 252) (PInt 250) = Ok (PInt 0) /\
  (forall r : Z,
     emitted (hass_climate_state_change SASWELL_ROOM_TEMP_ATTR (PInt r)) s
     = if 252 <=? 10 * r then idle_updates ThermostatCluster
       else heating_updates ThermostatCluster) /\
  emitted (on_off_event (PInt 0)) s
    = [ (ThermostatCluster, 0x001C, PInt Thermostat.SystemMode.Off);
        (ThermostatCluster, 0x001E, PInt Thermostat.RunningMode.Off);
        (ThermostatCluster, 0x0029, PInt Thermostat.RunningState.Idle) ] /\
  (forall attrid value,
     emitted (hass_climate_state_change attrid value)
             (run (on_off_event (PInt 0)) s)
     = idle_updates ThermostatCluster).
Proof.
  intros Hm Ht. split; [reflexivity|]. split; [reflexivity|].
  split; [|split].
  - intros r. apply emitted_apply.
    destruct (hass_heat_room s 250 r Hm Ht) as [-> _].
    replace (r * 10) with (10 * r) by lia. reflexivity.
  - apply emitted_apply. unfold run. by rewrite on_off_event_spec.
  - intros attrid value. apply emitted_apply.
    apply hass_not_heat. unfold run. rewrite on_off_event_spec. cbn.
    simpl. unfold cache_get.
    rewrite !(lookup_insert_ne _ _ 28) by done. by rewrite lookup_insert_eq.
Qed.

Lemma C1_saswell_hysteresis_witness :
  hass_state (PInt 248) (PInt 250) = Ok (PInt 1) /\
  hass_state (PInt 252) (PInt 250) = Ok (PInt 0) /\
  (forall r : Z,
     emitted (hass_climate_state_change SASWELL_ROOM_TEMP_ATTR (PInt r))
             saswell_heat_250
     = if 252 <=? 10 * r then idle_updates ThermostatCluster
       else heating_updates ThermostatCluster) /\
  emitted (on_off_event (PInt 0)) saswell_heat_250
    = [ (ThermostatCluster, 0x001C, PInt Thermostat.SystemMode.Off);
        (ThermostatCluster, 0x001E, PInt Thermostat.RunningMode.Off);
        (ThermostatCluster, 0x0029, PInt Thermostat.RunningState.Idle) ] /\
  (forall attrid value,
     emitted (hass_climate_state_change attrid value)
             (run (on_off_event (PInt 0)) saswell_heat_250)
     = idle_updates ThermostatCluster).
Proof. apply (C1_saswell_hysteresis saswell_heat_250); reflexivity. Defined.

(** C1 as stated fails: with target setpoint 250 in heat mode, a reading
    of 252 emits Idle, not Heating. *)
Lemma C1_reading_252_emits_idle :
  emitted (hass_climate_state_change SASWELL_ROOM_TEMP_ATTR (PInt 252))
          saswell_heat_250
    = idle_updates ThermostatCluster /\
  emitted (hass_climate_state_change SASWELL_ROOM_TEMP_ATTR (PInt 252))
          saswell_heat_250
    <> heating_updates ThermostatCluster.
Proof. split; [reflexivity | discriminate]. Qed.

End SaswellFacts.

(** ** ZONNSMART running state *)

Module ZonnsmartFacts.
Import Zonnsmart Scenario.

Lemma state_temp_room (s : DevState Cluster) (target r : Z) :
  attr_cache s ThermostatCluster !! 0x0012 = Some (PInt target) ->
  run (state_temp_change ZONNSMART_TEMPERATURE_ATTR (PInt r)) s
    = apply_updates
        (if target <=? r * 10 then idle_updates ThermostatCluster
         else heating_updates ThermostatCluster) s /\
  outcome (state_temp_change ZONNSMART_TEMPERATURE_ATTR (PInt r)) s = Ok tt.
Proof.
  intros Ht. unfold state_temp_change. exec.
  rewrite (cache_get_Some _ _ _ Ht). exec.
  rewrite state_change_spec. by destruct (target <=? r * 10).
Qed.

Lemma state_temp_target (s : DevState Cluster) (current t : Z) :
  attr_cache s ThermostatCluster !! 0x0000 = Some (PInt current) ->
  run (state_temp_change ZONNSMART_TARGET_TEMP_ATTR (PInt t)) s
    = apply_updates
        (if t * 10 <=? current then idle_updates ThermostatCluster
         else heating_updates ThermostatCluster) s /\
  outcome (state_temp_change ZONNSMART_TARGET_TEMP_ATTR (PInt t)) s = Ok tt.
Proof.
  intros Ht. unfold state_temp_change. exec.
  rewrite (cache_get_Some _ _ _ Ht). exec.
  rewrite state_change_spec. by destruct (t * 10 <=? current).
Qed.

(** With no target setpoint in the cache, [int(temp_set)] is applied to
    [None]: the calculator raises and notifies nothing. *)
Lemma state_temp_change_missing_setpoint (s : DevState Cluster) (r : Z) :
  attr_cache s ThermostatCluster !! 0x0012 = None ->
  state_temp_change ZONNSMART_TEMPERATURE_ATTR (PInt r) s
    = (s, Raise TypeError).
Proof.
  intros Ht. unfold state_temp_change. exec.
  unfold cache_get. rewrite Ht. reflexivity.
Qed.

Lemma zonnsmart_update_isolated (attrid : Z) (value : pyval) :
  exists R, isolated R (ManufCluster_update_attribute attrid value).
Proof.
  destruct (decide (attrid = ZONNSMART_TEMPERATURE_ATTR)) as [->|H1].
  { exists [(ThermostatCluster, 0x0012)].
    unfold ManufCluster_update_attribute, state_temp_change. cbn. isolate. }
  destruct (decide (attrid = ZONNSMART_TARGET_TEMP_ATTR)) as [->|H2].
  { exists [(ThermostatCluster, 0x0000)].
    unfold ManufCluster_update_attribute, state_temp_change. cbn. isolate. }
  exists []. unfold ManufCluster_update_attribute.
  rewrite (proj2 (Z.eqb_neq _ _) H1), (proj2 (Z.eqb_neq _ _) H2). cbn [orb].
  isolate;
    unfold WindowDetection_set_value, WindowOpenedTemp_set_value,
      mode_change, system_mode_change, set_change,
      TemperatureOffset_set_value;
    isolate.
Qed.

End ZonnsmartFacts.

(** The same in the Saswell calculator, in heat mode: [temp_set + 2] is
    applied to [None]. *)
Lemma hass_climate_state_change_missing_setpoint
    (s : DevState Saswell.Cluster) (r : Z) :
  attr_cache s Saswell.ThermostatCluster !! 0x001C
    = Some (PInt Thermostat.SystemMode.Heat) ->
  attr_cache s Saswell.ThermostatCluster !! 0x0012 = None ->
  Saswell.hass_climate_state_change Saswell.SASWELL_ROOM_TEMP_ATTR (PInt r) s
    = (s, Raise TypeError).
Proof.
  intros Hm Ht. unfold Saswell.hass_climate_state_change. exec.
  rewrite (cache_get_Some _ _ _ Hm). exec.
  unfold cache_get. rewrite Ht. reflexivity.
Qed.

(** ** Off mode and missing values *)

Section OffMode.
Import Scenario.

(** C2, as the code has it.  The Saswell calculator emits Idle for every
    arriving value whenever the cached system mode is not Heat.  The
    ZONNSMART calculator has no mode gate: whatever the system mode, it
    emits Idle exactly when the current value is at least the target, and
    Heating otherwise. *)
Theorem C2_off_mode
    (s : DevState Saswell.Cluster) (z : DevState Zonnsmart.Cluster)
    (attrid : Z) (value : pyval) (target current r t : Z) :
  eq_int (cache_get (attr_cache s Saswell.ThermostatCluster) 0x001C)
         Thermostat.SystemMode.Heat = false ->
  attr_cache z Zonnsmart.ThermostatCluster !! 0x0012 = Some (PInt target) ->
  attr_cache z Zonnsmart.ThermostatCluster !! 0x0000 = Some (PInt current) ->
  emitted (Saswell.hass_climate_state_change attrid value) s
    = idle_updates Saswell.ThermostatCluster /\
  emitted (Zonnsmart.state_temp_change
             Zonnsmart.ZONNSMART_TEMPERATURE_ATTR (PInt r)) z
    = (if target <=? 10 * r then idle_updates Zonnsmart.ThermostatCluster
       else heating_updates Zonnsmart.ThermostatCluster) /\
  emitted (Zonnsmart.state_temp_change
             Zonnsmart.ZONNSMART_TARGET_TEMP_ATTR (PInt t)) z
    = (if 10 * t <=? current then idle_updates Zonnsmart.ThermostatCluster
       else heating_updates Zonnsmart.ThermostatCluster).
Proof.
  intros Hm Ht Hc. repeat split.
  - apply emitted_apply. by apply SaswellFacts.hass_not_heat.
  - apply emitted_apply.
    destruct (ZonnsmartFacts.state_temp_room z target r Ht) as [-> _].
    by replace (r * 10) with (10 * r) by lia.
  - apply emitted_apply.
    destruct (ZonnsmartFacts.state_temp_target z current t Hc) as [-> _].
    by replace (t * 10) with (10 * t) by lia.
Qed.

Lemma C2_off_mode_witness :
  emitted (Saswell.hass_climate_state_change
             Saswell.SASWELL_ROOM_TEMP_ATTR (PInt 20)) saswell_new
    = idle_updates Saswell.ThermostatCluster /\
  emitted (Zonnsmart.state_temp_change
             Zonnsmart.ZONNSMART_TEMPERATURE_ATTR (PInt 20)) zonnsmart_off_both
    = heating_updates Zonnsmart.ThermostatCluster.
Proof.
  pose proof (C2_off_mode saswell_new zonnsmart_off_both
                Saswell.SASWELL_ROOM_TEMP_ATTR (PInt 20) 250 180 20 25
                eq_refl eq_refl eq_refl) as (H1 & H2 & _).
  split; [exact H1 | exact H2].
Defined.

(** C2 as stated fails: a ZONNSMART valve that is switched off, with
    target setpoint 250, emits Heating when a current temperature of 20
    (200 after scaling) arrives. *)
Lemma C2_zonnsmart_off_emits_heating :
  attr_cache zonnsmart_off_250 Zonnsmart.ThermostatCluster !! 0x001C
    = Some (PInt Thermostat.SystemMode.Off) /\
  emitted (Zonnsmart.state_temp_change
             Zonnsmart.ZONNSMART_TEMPERATURE_ATTR (PInt 20)) zonnsmart_off_250
    = heating_updates Zonnsmart.ThermostatCluster /\
  emitted (Zonnsmart.state_temp_change
             Zonnsmart.ZONNSMART_TEMPERATURE_ATTR (PInt 20)) zonnsmart_off_250
    <> idle_updates Zonnsmart.ThermostatCluster.
Proof. split; [reflexivity|]. split; [reflexivity | discriminate]. Qed.

Lemma fails_quietly_intro {C} `{EqDecision C} (call : M C unit)
    (s : DevState C) :
  call s = (s, Raise TypeError) -> fails_quietly call s.
Proof.
  intros E. split; [exact E|]. split; [reflexivity|].
  unfold emitted, run, listener. rewrite E. apply drop_all.
Qed.

Lemma hass_missing_room (s : DevState Saswell.Cluster) (t : Z) :
  attr_cache s Saswell.ThermostatCluster !! 0x001C
    = Some (PInt Thermostat.SystemMode.Heat) ->
  attr_cache s Saswell.ThermostatCluster !! 0x0000 = None ->
  Saswell.hass_climate_state_change Saswell.SASWELL_TARGET_TEMP_ATTR (PInt t) s
    = (s, Raise TypeError).
Proof.
  intros Hm Ht. unfold Saswell.hass_climate_state_change. exec.
  rewrite (cache_get_Some _ _ _ Hm). exec.
  unfold cache_get. rewrite Ht. reflexivity.
Qed.

Lemma state_temp_change_missing_room (s : DevState Zonnsmart.Cluster)
    (t : Z) :
  attr_cache s Zonnsmart.ThermostatCluster !! 0x0000 = None ->
  Zonnsmart.state_temp_change Zonnsmart.ZONNSMART_TARGET_TEMP_ATTR (PInt t) s
    = (s, Raise TypeError).
Proof.
  intros Ht. unfold Zonnsmart.state_temp_change. exec.
  unfold cache_get. rewrite Ht. reflexivity.
Qed.

(** The dispatchers on a temperature whose counterpart is missing: the
    datapoint and the scaled temperature are stored, the calculator
    notifies nothing, and no error comes out. *)
Lemma saswell_report_missing (s : DevState Saswell.Cluster) (r : Z) :
  attr_cache s Saswell.ThermostatCluster !! 0x001C
    = Some (PInt Thermostat.SystemMode.Heat) ->
  (attr_cache s Saswell.ThermostatCluster !! 0x0012 = None ->
   Saswell.ManufCluster_update_attribute Saswell.SASWELL_ROOM_TEMP_ATTR
     (PInt r) s
   = (apply_updates
        [ (Saswell.ManufCluster, Saswell.SASWELL_ROOM_TEMP_ATTR, PInt r);
          (Saswell.ThermostatCluster, 0x0000, PInt (r * 10)) ] s, Ok tt)) /\
  (attr_cache s Saswell.ThermostatCluster !! 0x0000 = None ->
   Saswell.ManufCluster_update_attribute Saswell.SASWELL_TARGET_TEMP_ATTR
     (PInt r) s
   = (apply_updates
        [ (Saswell.ManufCluster, Saswell.SASWELL_TARGET_TEMP_ATTR, PInt r);
          (Saswell.ThermostatCluster, 0x0012, PInt (r * 10)) ] s, Ok tt)).
Proof.
  intros Hm. split; intros Ho;
    unfold Saswell.ManufCluster_update_attribute,
      Saswell.hass_climate_state_change, temperature_change; exec;
    unfold cache_get; lookup_cache; rewrite Hm; exec;
    lookup_cache; rewrite Ho; reflexivity.
Qed.

Lemma zonnsmart_report_missing (s : DevState Zonnsmart.Cluster) (r : Z) :
  (attr_cache s Zonnsmart.ThermostatCluster !! 0x0012 = None ->
   Zonnsmart.ManufCluster_update_attribute Zonnsmart.ZONNSMART_TEMPERATURE_ATTR
     (PInt r) s
   = (apply_updates
        [ (Zonnsmart.ManufCluster, Zonnsmart.ZONNSMART_TEMPERATURE_ATTR,
           PInt r);
          (Zonnsmart.ThermostatCluster, 0x0000, PInt (r * 10)) ] s, Ok tt)) /\
  (attr_cache s Zonnsmart.ThermostatCluster !! 0x0000 = None ->
   Zonnsmart.ManufCluster_update_attribute Zonnsmart.ZONNSMART_TARGET_TEMP_ATTR
     (PInt r) s
   = (apply_updates
        [ (Zonnsmart.ManufCluster, Zonnsmart.ZONNSMART_TARGET_TEMP_ATTR,
           PInt r);
          (Zonnsmart.ThermostatCluster, 0x0012, PInt (r * 10)) ] s, Ok tt)).
Proof.
  split; intros Ho;
    unfold Zonnsmart.ManufCluster_update_attribute,
      Zonnsmart.state_temp_change, temperature_change; exec;
    unfold cache_get; lookup_cache; rewrite Ho; reflexivity.
Qed.

(** C3, as the code has it.  Outside heat mode the Saswell calculator
    emits Idle, without error, for every arriving value, whether or not
    the other temperature was ever observed.  In every other case, that is
    for the Saswell calculator in heat mode and for the ZONNSMART
    calculator, and for the arrival of the room temperature as for that of
    the target setpoint: when the other value is absent from the cache the
    calculator fails on it before it notifies anything, the failure stays
    inside the delivery of the event, and the dispatcher handling the
    report stores the datapoint and the scaled temperature, notifies no
    state change and raises no error; when the other value is present the
    calculator raises no error and emits exactly one state change. *)
Theorem C3_missing_values (attrid : Z) (value : pyval) (other r : Z) :
  (forall s : DevState Saswell.Cluster,
     eq_int (cache_get (attr_cache s Saswell.ThermostatCluster) 0x001C)
            Thermostat.SystemMode.Heat = false ->
     outcome (Saswell.hass_climate_state_change attrid value) s = Ok tt /\
     emitted (Saswell.hass_climate_state_change attrid value) s
       = idle_updates Saswell.ThermostatCluster) /\
  (forall h : DevState Saswell.Cluster,
     attr_cache h Saswell.ThermostatCluster !! 0x001C
       = Some (PInt Thermostat.SystemMode.Heat) ->
     let room :=
       Saswell.hass_climate_state_change Saswell.SASWELL_ROOM_TEMP_ATTR
         (PInt r) in
     let target :=
       Saswell.hass_climate_state_change Saswell.SASWELL_TARGET_TEMP_ATTR
         (PInt r) in
     (attr_cache h Saswell.ThermostatCluster !! 0x0012 = Some (PInt other) ->
      outcome room h = Ok tt /\
      emitted room h
        = (if other + 2 <=? 10 * r
           then idle_updates Saswell.ThermostatCluster
           else heating_updates Saswell.ThermostatCluster)) /\
     (attr_cache h Saswell.ThermostatCluster !! 0x0000 = Some (PInt other) ->
      outcome target h = Ok tt /\
      emitted target h
        = (if 10 * r + 2 <=? other
           then idle_updates Saswell.ThermostatCluster
           else heating_updates Saswell.ThermostatCluster)) /\
     (attr_cache h Saswell.ThermostatCluster !! 0x0012 = None ->
      fails_quietly room h /\
      Saswell.ManufCluster_update_attribute Saswell.SASWELL_ROOM_TEMP_ATTR
        (PInt r) h
      = (apply_updates
           [ (Saswell.ManufCluster, Saswell.SASWELL_ROOM_TEMP_ATTR, PInt r);
             (Saswell.ThermostatCluster, 0x0000, PInt (r * 10)) ] h,
         Ok tt)) /\
     (attr_cache h Saswell.ThermostatCluster !! 0x0000 = None ->
      fails_quietly target h /\
      Saswell.ManufCluster_update_attribute Saswell.SASWELL_TARGET_TEMP_ATTR
        (PInt r) h
      = (apply_updates
           [ (Saswell.ManufCluster, Saswell.SASWELL_TARGET_TEMP_ATTR, PInt r);
             (Saswell.ThermostatCluster, 0x0012, PInt (r * 10)) ] h,
         Ok tt))) /\
  (forall z : DevState Zonnsmart.Cluster,
     let room :=
       Zonnsmart.state_temp_change Zonnsmart.ZONNSMART_TEMPERATURE_ATTR
         (PInt r) in
     let target :=
       Zonnsmart.state_temp_change Zonnsmart.ZONNSMART_TARGET_TEMP_ATTR
         (PInt r) in
     (attr_cache z Zonnsmart.ThermostatCluster !! 0x0012 = Some (PInt other) ->
      outcome room z = Ok tt /\
      emitted room z
        = (if other <=? 10 * r
           then idle_updates Zonnsmart.ThermostatCluster
           else heating_updates Zonnsmart.ThermostatCluster)) /\
     (attr_cache z Zonnsmart.ThermostatCluster !! 0x0000 = Some (PInt other) ->
      outcome target z = Ok tt /\
      emitted target z
        = (if 10 * r <=? other
           then idle_updates Zonnsmart.ThermostatCluster
           else heating_updates Zonnsmart.ThermostatCluster)) /\
     (attr_cache z Zonnsmart.ThermostatCluster !! 0x0012 = None ->
      fails_quietly room z /\
      Zonnsmart.ManufCluster_update_attribute
        Zonnsmart.ZONNSMART_TEMPERATURE_ATTR (PInt r) z
      = (apply_updates
           [ (Zonnsmart.ManufCluster, Zonnsmart.ZONNSMART_TEMPERATURE_ATTR,
              PInt r);
             (Zonnsmart.ThermostatCluster, 0x0000, PInt (r * 10)) ] z,
         Ok tt)) /\
     (attr_cache z Zonnsmart.ThermostatCluster !! 0x0000 = None ->
      fails_quietly target z /\
      Zonnsmart.ManufCluster_update_attribute
        Zonnsmart.ZONNSMART_TARGET_TEMP_ATTR (PInt r) z
      = (apply_updates
           [ (Zonnsmart.ManufCluster, Zonnsmart.ZONNSMART_TARGET_TEMP_ATTR,
              PInt r);
             (Zonnsmart.ThermostatCluster, 0x0012, PInt (r * 10)) ] z,
         Ok tt))).
Proof.
  split; [|split].
  - intros s Hs.
    destruct (SaswellFacts.hass_not_heat s attrid value Hs) as [E ->].
    split; [done|]. by apply emitted_apply.
  - intros h Hm. cbv zeta. split; [|split; [|split]]; intros Ho.
    + destruct (SaswellFacts.hass_heat_room h other r Hm Ho) as [E ->].
      split; [done|]. apply emitted_apply. rewrite E.
      by replace (r * 10) with (10 * r) by lia.
    + destruct (SaswellFacts.hass_heat_target h other r Hm Ho) as [E ->].
      split; [done|]. apply emitted_apply. rewrite E.
      by replace (r * 10) with (10 * r) by lia.
    + split.
      * apply fails_quietly_intro.
        by apply hass_climate_state_change_missing_setpoint.
      * by apply (proj1 (saswell_report_missing h r Hm)).
    + split.
      * apply fails_quietly_intro. by apply hass_missing_room.
      * by apply (proj2 (saswell_report_missing h r Hm)).
  - intros z. cbv zeta. split; [|split; [|split]]; intros Ho.
    + destruct (ZonnsmartFacts.state_temp_room z other r Ho) as [E ->].
      split; [done|]. apply emitted_apply. rewrite E.
      by replace (r * 10) with (10 * r) by lia.
    + destruct (ZonnsmartFacts.state_temp_target z other r Ho) as [E ->].
      split; [done|]. apply emitted_apply. rewrite E.
      by replace (r * 10) with (10 * r) by lia.
    + split.
      * apply fails_quietly_intro.
        by apply ZonnsmartFacts.state_temp_change_missing_setpoint.
      * by apply (proj1 (zonnsmart_report_missing z r)).
    + split.
      * apply fails_quietly_intro. by apply state_temp_change_missing_room.
      * by apply (proj2 (zonnsmart_report_missing z r)).
Qed.

Lemma C3_missing_values_witness :
  (outcome (Saswell.hass_climate_state_change
              Saswell.SASWELL_TARGET_TEMP_ATTR (PInt 25)) saswell_new = Ok tt /\
   emitted (Saswell.hass_climate_state_change
              Saswell.SASWELL_TARGET_TEMP_ATTR (PInt 25)) saswell_new
     = idle_updates Saswell.ThermostatCluster) /\
  (outcome (Saswell.hass_climate_state_change
              Saswell.SASWELL_ROOM_TEMP_ATTR (PInt 20)) saswell_heat_250
     = Ok tt /\
   emitted (Saswell.hass_climate_state_change
              Saswell.SASWELL_ROOM_TEMP_ATTR (PInt 20)) saswell_heat_250
     = heating_updates Saswell.ThermostatCluster) /\
  fails_quietly
    (Saswell.hass_climate_state_change
       Saswell.SASWELL_TARGET_TEMP_ATTR (PInt 20)) saswell_heat_250 /\
  (outcome (Zonnsmart.state_temp_change
              Zonnsmart.ZONNSMART_TARGET_TEMP_ATTR (PInt 20))
           zonnsmart_off_both = Ok tt /\
   emitted (Zonnsmart.state_temp_change
              Zonnsmart.ZONNSMART_TARGET_TEMP_ATTR (PInt 20))
           zonnsmart_off_both
     = heating_updates Zonnsmart.ThermostatCluster) /\
  fails_quietly
    (Zonnsmart.state_temp_change
       Zonnsmart.ZONNSMART_TEMPERATURE_ATTR (PInt 20)) zonnsmart_new.
Proof.
  pose proof (C3_missing_values Saswell.SASWELL_TARGET_TEMP_ATTR (PInt 25)
                250 20) as (Hoff & Hheat & _).
  pose proof (C3_missing_values Saswell.SASWELL_TARGET_TEMP_ATTR (PInt 25)
                180 20) as (_ & _ & Hz).
  split; [exact (Hoff saswell_new eq_refl)|].
  destruct (Hheat saswell_heat_250 eq_refl) as (Hroom & _ & _ & Habsent).
  split; [exact (Hroom eq_refl)|].
  split; [exact (proj1 (Habsent eq_refl))|].
  split.
  - destruct (Hz zonnsmart_off_both) as (_ & Htarget & _).
    exact (Htarget eq_refl).
  - destruct (Hz zonnsmart_new) as (_ & _ & Habs & _).
    exact (proj1 (Habs eq_refl)).
Defined.

(** C3 as stated fails: a Saswell valve that has observed neither
    temperature (nor a system mode) emits a running-state update when the
    first room temperature arrives. *)
Lemma C3_saswell_emits_before_both_values :
  attr_cache saswell_new Saswell.ThermostatCluster !! 0x0012 = None /\
  emitted (Saswell.hass_climate_state_change
             Saswell.SASWELL_ROOM_TEMP_ATTR (PInt 20)) saswell_new
    = idle_updates Saswell.ThermostatCluster /\
  emitted (Saswell.hass_climate_state_change
             Saswell.SASWELL_ROOM_TEMP_ATTR (PInt 20)) saswell_new <> [].
Proof. split; [reflexivity|]. split; [reflexivity | discriminate]. Qed.

End OffMode.

(** ** Rounding *)

Lemma round_half_even_Qeq (p q : Q) :
  Qeq p q -> round_half_even p = round_half_even q.
Proof.
  intros E. unfold round_half_even.
  rewrite (Qfloor_comp _ _ E).
  assert (H : Qeq ((p - inject_Z (Qfloor q)) * 2)%Q
                  ((q - inject_Z (Qfloor q)) * 2)%Q)
    by (by rewrite E).
  by rewrite (Qcompare_comp _ _ H 1%Q 1%Q (Qeq_refl 1%Q)).
Qed.

Lemma round_div_PInt (z : Z) :
  round_div (PInt z) 100 = Ok (PInt (round_half_even (z # 100))).
Proof.
  unfold round_div. cbn. do 2 f_equal.
  rewrite (round_half_even_Qeq _ _ (Qred_correct _)).
  apply round_half_even_Qeq. unfold Qeq. cbn. lia.
Qed.

Example round_half_even_20_5 : round_half_even (2050 # 100) = 20.
Proof. reflexivity. Qed.

Example round_half_even_21_5 : round_half_even (2150 # 100) = 22.
Proof. reflexivity. Qed.

Example round_half_even_default_50 : round_div (PInt 50) 100 = Ok (PInt 0).
Proof. reflexivity. Qed.

(** ** Moes reverse mapping *)

Module MoesFacts.
Import Moes Scenario.

Lemma cache_get_or_int (c : cache) (a d : Z) :
  int_valued c -> cache_get_or c a (PInt d) = PInt (cached_int c a d).
Proof.
  intros Hc. unfold cache_get_or, cached_int.
  destruct (c !! a) as [x|] eqn:E; [|done].
  apply Hc in E. by destruct x.
Qed.

(** The payload loop computes [schedule_payload], from any position. *)
Lemma schedule_data_spec (c : cache) (attribute : string) (v : Z)
    (table : list (string * Z)) (num : nat) :
  int_valued c ->
  Forall (fun entry => is_Some (assoc attributes_by_name entry.1)) table ->
  schedule_data c attribute (PInt v) num table
  = Ok (imap (fun k entry =>
                let x := if String.eqb entry.1 attribute then v
                         else cached_int c
                                (default 0 (assoc attributes_by_name entry.1))
                                entry.2 in
                PInt (encode (num + k) x)) table).
Proof.
  intros Hc Hn.
  set (G := fun (n : nat) (entry : string * Z) =>
              PInt (encode n
                (if String.eqb entry.1 attribute then v
                 else cached_int c
                        (default 0 (assoc attributes_by_name entry.1))
                        entry.2))).
  change (schedule_data c attribute (PInt v) num table
          = Ok (imap (fun k => G (num + k)%nat) table)).
  revert num.
  induction Hn as [|[attr dflt] rest [attrid Hid] _ IH]; intros num; [done|].
  rewrite imap_cons, Nat.add_0_r.
  rewrite (imap_ext _ (fun k => G (S num + k)%nat) rest)
    by (intros k e _; cbn; by rewrite Nat.add_succ_r).
  cbn [schedule_data]. rewrite (IH (S num)). clear IH.
  cbn [fst snd] in Hid. unfold G, encode, by_name. cbn [fst snd].
  rewrite !Hid. cbn [default].
  destruct (num mod 3 =? 0)%nat, (String.eqb attr attribute);
    cbn [mbind result_bind mret result_ret];
    rewrite ?cache_get_or_int by done; rewrite ?round_div_PInt; reflexivity.
Qed.

(** Split on which key of a schedule table [attribute] is. *)
Ltac split_key H attribute :=
  cbn [assoc] in H;
  repeat match type of H with
    | context [String.eqb ?l attribute] =>
        let E := fresh "E" in
        destruct (String.eqb_spec l attribute) as [E|E];
        [ subst attribute; repeat split; reflexivity | clear E ]
    end;
  try (vm_compute in H; discriminate H).

(** A schedule field is handled by none of the earlier rules of
    [map_attribute]. *)
Lemma workday_key (attribute : string) :
  is_key WORKDAY_SCHEDULE_ATTRS attribute = true ->
  assoc DIRECT_MAPPING_ATTRS attribute = None /\
  assoc DIRECT_MAPPING_ATTRS_New attribute = None /\
  String.eqb attribute "programing_oper_mode" = false /\
  String.eqb attribute "occupancy" = false /\
  String.eqb attribute "system_mode" = false.
Proof.
  intros H. unfold is_key, WORKDAY_SCHEDULE_ATTRS in H.
  split_key H attribute.
Qed.

Lemma weekend_key (attribute : string) :
  is_key WEEKEND_SCHEDULE_ATTRS attribute = true ->
  assoc DIRECT_MAPPING_ATTRS attribute = None /\
  assoc DIRECT_MAPPING_ATTRS_New attribute = None /\
  String.eqb attribute "programing_oper_mode" = false /\
  String.eqb attribute "occupancy" = false /\
  String.eqb attribute "system_mode" = false /\
  is_key WORKDAY_SCHEDULE_ATTRS attribute = false.
Proof.
  intros H. unfold is_key, WEEKEND_SCHEDULE_ATTRS in H.
  split_key H attribute.
Qed.

Lemma schedule_names_known :
  Forall (fun entry : string * Z =>
            is_Some (assoc attributes_by_name entry.1))
         (WORKDAY_SCHEDULE_ATTRS ++ WEEKEND_SCHEDULE_ATTRS).
Proof. repeat constructor; eexists; reflexivity. Qed.

Lemma map_attribute_workday (direct : mapping_attrs) (c : cache)
    (attribute : string) (v : Z) :
  int_valued c ->
  assoc direct attribute = None ->
  is_key WORKDAY_SCHEDULE_ATTRS attribute = true ->
  map_attribute direct c attribute (PInt v)
  = Ok (Some [(MOES_SCHEDULE_WORKDAY_ATTR,
               PList (schedule_payload c attribute v WORKDAY_SCHEDULE_ATTRS))]).
Proof.
  intros Hc Hd Hk. destruct (workday_key _ Hk) as (_ & _ & H1 & H2 & H3).
  unfold map_attribute. rewrite Hd, H1, H2, H3, Hk.
  cbn [orb mbind result_bind mret result_ret].
  rewrite schedule_data_spec; [done | done |].
  exact (proj1 (proj1 (Forall_app _ _ _) schedule_names_known)).
Qed.

Lemma map_attribute_weekend (direct : mapping_attrs) (c : cache)
    (attribute : string) (v : Z) :
  int_valued c ->
  assoc direct attribute = None ->
  is_key WEEKEND_SCHEDULE_ATTRS attribute = true ->
  map_attribute direct c attribute (PInt v)
  = Ok (Some [(MOES_SCHEDULE_WEEKEND_ATTR,
               PList (schedule_payload c attribute v WEEKEND_SCHEDULE_ATTRS))]).
Proof.
  intros Hc Hd Hk.
  destruct (weekend_key _ Hk) as (_ & _ & H1 & H2 & H3 & H4).
  unfold map_attribute. rewrite Hd, H1, H2, H3, H4, Hk.
  cbn [orb mbind result_bind mret result_ret].
  rewrite schedule_data_spec; [done | done |].
  exact (proj2 (proj1 (Forall_app _ _ _) schedule_names_known)).
Qed.

Lemma schedule_payload_lookup (c : cache) (attribute : string) (v : Z)
    (table : list (string * Z)) (j : nat) (name : string) (dflt : Z) :
  table !! j = Some (name, dflt) ->
  schedule_payload c attribute v table !! j
  = Some (PInt (encode j
       (if String.eqb name attribute then v
        else cached_int c (default 0 (assoc attributes_by_name name)) dflt))).
Proof.
  intros H. unfold schedule_payload. rewrite list_lookup_imap, H. reflexivity.
Qed.

(** C4, as the code has it.  A write of [v] to one workday or weekend
    schedule field maps to exactly one datapoint, whose payload has 18
    entries, one per field in table order.  The entry of the written field
    carries [v] and every other entry the cached value of its field, or the
    default of the table when the field was never observed; the six
    temperature entries, written or not, carry that value divided by 100
    and rounded, the hour and minute entries carry it unchanged.  This
    holds for both thermostat classes. *)
Theorem C4_schedule_write (c : cache) (attribute : string) (v : Z)
    (table : list (string * Z)) (dp : Z) :
  int_valued c ->
  (table, dp) = (WORKDAY_SCHEDULE_ATTRS, MOES_SCHEDULE_WORKDAY_ATTR) \/
  (table, dp) = (WEEKEND_SCHEDULE_ATTRS, MOES_SCHEDULE_WEEKEND_ATTR) ->
  is_key table attribute = true ->
  map_attribute DIRECT_MAPPING_ATTRS c attribute (PInt v)
    = Ok (Some [(dp, PList (schedule_payload c attribute v table))]) /\
  map_attribute DIRECT_MAPPING_ATTRS_New c attribute (PInt v)
    = Ok (Some [(dp, PList (schedule_payload c attribute v table))]) /\
  length (schedule_payload c attribute v table) = 18%nat /\
  (forall (j : nat) (name : string) (dflt attrid : Z),
     table !! j = Some (name, dflt) ->
     by_name attributes_by_name name = Ok attrid ->
     schedule_payload c attribute v table !! j
     = Some (PInt (encode j (if String.eqb name attribute then v
                             else cached_int c attrid dflt)))).
Proof.
  intros Hc Ht Hk.
  assert (Hlook : forall (j : nat) (name : string) (dflt attrid : Z),
     table !! j = Some (name, dflt) ->
     by_name attributes_by_name name = Ok attrid ->
     schedule_payload c attribute v table !! j
     = Some (PInt (encode j (if String.eqb name attribute then v
                             else cached_int c attrid dflt)))).
  { intros j name dflt attrid Hj Hn.
    rewrite (schedule_payload_lookup _ _ _ _ _ _ _ Hj).
    unfold by_name in Hn. destruct (assoc attributes_by_name name); [|done].
    by inversion Hn. }
  destruct Ht as [Ht|Ht]; inversion Ht; subst table dp.
  - destruct (workday_key _ Hk) as (D1 & D2 & _).
    rewrite !map_attribute_workday by done.
    repeat split; done.
  - destruct (weekend_key _ Hk) as (D1 & D2 & _).
    rewrite !map_attribute_weekend by done.
    repeat split; done.
Qed.

Lemma C4_schedule_write_witness :
  map_attribute DIRECT_MAPPING_ATTRS moes_slot1_2000
    "workday_schedule_1_hour" (PInt 7)
  = Ok (Some [(MOES_SCHEDULE_WORKDAY_ATTR,
               PList (schedule_payload moes_slot1_2000
                        "workday_schedule_1_hour" 7 WORKDAY_SCHEDULE_ATTRS))]).
Proof.
  refine (proj1 (C4_schedule_write moes_slot1_2000 "workday_schedule_1_hour" 7
                   WORKDAY_SCHEDULE_ATTRS MOES_SCHEDULE_WORKDAY_ATTR
                   _ (or_introl eq_refl) eq_refl)).
  apply map_Forall_singleton. reflexivity.
Defined.

(** C4 as stated fails for the temperature fields that are not written:
    with a cached first workday temperature of 2000, a write of the first
    workday hour sends 20 at that field's position (15), not the cached
    2000, and 15 where the default is 1500. *)
Lemma C4_unwritten_temperature_is_scaled :
  moes_slot1_2000 !! 0x4112 = Some (PInt 2000) /\
  WORKDAY_SCHEDULE_ATTRS !! 15%nat
    = Some ("workday_schedule_1_temperature"%string, 2000) /\
  map_attribute DIRECT_MAPPING_ATTRS moes_slot1_2000
    "workday_schedule_1_hour" (PInt 7)
  = Ok (Some [(MOES_SCHEDULE_WORKDAY_ATTR,
               PList (map PInt [15; 0; 22; 20; 30; 17; 15; 30; 12;
                                15; 30; 11; 15; 0; 8; 20; 0; 7]))]) /\
  PInt 20 <> PInt 2000.
Proof. repeat split; try reflexivity. discriminate. Qed.

(** C9.  A write of [system_mode] maps to the mode datapoint carrying the
    cached [operation_preset], or 2 (Manual) when there is none, whatever
    the written value; two writes of different system modes from the same
    cache give the same datapoint write.  This holds for both thermostat
    classes. *)
Theorem C9_system_mode_ignores_value (c : cache) (v v' : pyval) :
  map_attribute DIRECT_MAPPING_ATTRS c "system_mode" v
    = Ok (Some [(MOES_MODE_ATTR, default (PInt 2) (c !! 0x4002))]) /\
  map_attribute DIRECT_MAPPING_ATTRS_New c "system_mode" v
    = Ok (Some [(MOES_MODE_ATTR, default (PInt 2) (c !! 0x4002))]) /\
  map_attribute DIRECT_MAPPING_ATTRS c "system_mode" v
    = map_attribute DIRECT_MAPPING_ATTRS c "system_mode" v' /\
  map_attribute DIRECT_MAPPING_ATTRS_New c "system_mode" v
    = map_attribute DIRECT_MAPPING_ATTRS_New c "system_mode" v'.
Proof. repeat split. Qed.



(** The Moes dispatcher reads no cache at all. *)
Lemma moes_update_isolated (direct : mapped_attrs) (attrid : Z) (value : pyval) :
  isolated [] (ManufCluster_update_attribute direct attrid value).
Proof.
  unfold ManufCluster_update_attribute.
  isolate;
    unfold schedule_change, schedule_field, window_detect_change,
      mode_change, autolock_change;
    isolate.
Qed.

End MoesFacts.

(** ** Unsupported writes *)

Module UnsupportedWrite.

(** The base class [SaswellCustomOnOff], whose [map_attribute] gives an
    empty dict: every record is answered with a failure, nothing is cached
    and nothing is sent. *)
Lemma gather_base (records : list (Z * pyval)) :
  Forall (fun r => is_Some (find (fun na : string * Z => na.2 =? r.1)
                              OnOff.attributes_by_name)) records ->
  Saswell.gather Saswell.CustomOnOff_map_attribute records [] = Ok [].
Proof.
  induction 1 as [|[attrid value] rest [[name i] Hn] _ IH]; [done|].
  cbn [Saswell.gather]. unfold attr_name. cbn [fst] in Hn.
  rewrite Hn. exact IH.
Qed.

Lemma CustomOnOff_write_unsupported (s : DevState Saswell.Cluster)
    (records : list (Z * pyval)) :
  records <> [] ->
  Forall (fun r => is_Some (find (fun na : string * Z => na.2 =? r.1)
                              OnOff.attributes_by_name)) records ->
  Saswell.CustomOnOff_write_attributes Saswell.CustomOnOff_map_attribute
    records s
  = (s, Ok [map (fun r => StatusRecord FAILURE (Some r.1)) records]).
Proof.
  intros Hne Hk. unfold Saswell.CustomOnOff_write_attributes.
  destruct records as [|r rest]; [done|].
  unfold mbind, M_bind, lift. by rewrite (gather_base _ Hk).
Qed.

(** [MoesWindowDetection]: records that name none of the three window
    detection fields leave [has_change] unset. *)
Lemma fill_unrelated (records : list (Z * pyval)) (data : list pyval) :
  Forall (fun r => r.1 ∈ [0x4000; 0x4001; 0x4002; 0x4003]) records ->
  Moes.fill records data false = Ok (data, false).
Proof.
  induction 1 as [|[attrid value] rest Hin _ IH]; [done|].
  cbn [Moes.fill]. cbn [fst] in Hin.
  repeat (apply elem_of_cons in Hin as [->|Hin]; [exact IH|]).
  by apply elem_of_nil in Hin.
Qed.

Lemma WindowDetection_write_unsupported (s : DevState Moes.Cluster)
    (records : list (Z * pyval)) (temp : pyval) :
  records <> [] ->
  Forall (fun r => r.1 ∈ [0x4000; 0x4001; 0x4002; 0x4003]) records ->
  round_div (cache_get_or (attr_cache s Moes.WindowDetection) 0x6000 (PInt 50))
    100 = Ok temp ->
  Moes.WindowDetection_write_attributes records s
  = (s, Ok [map (fun r => StatusRecord FAILURE (Some r.1)) records]).
Proof.
  intros Hne Hk Ht. unfold Moes.WindowDetection_write_attributes.
  destruct records as [|r rest]; [done|]. cbv beta iota.
  remember (r :: rest) as rs eqn:E. clear E.
  exec. rewrite Ht. exec. by rewrite (fill_unrelated _ _ Hk).
Qed.

(** C5 on the code.  On a Saswell child-lock cluster a write of [on_time],
    for which [map_attribute] falls off its end, does not return a failure
    record: [dict.update] is applied to [None] and the write raises. *)
Theorem C5_unmapped_write_raises (s : DevState Saswell.Cluster)
    (value : pyval) :
  Saswell.ChildLock_map_attribute "on_time" value = None /\
  Saswell.CustomOnOff_write_attributes Saswell.ChildLock_map_attribute
    [(0x4001, value)] s
  = (s, Raise TypeError).
Proof. split; reflexivity. Qed.

End UnsupportedWrite.

(** ** The shared global of the ZONNSMART clusters *)

Module GlobalFacts.
Import Zonnsmart Scenario.

Ltac wexec :=
  repeat (unfold two_valves, construct, ManufCluster_init,
            global_write_attributes, on_device, device,
            tuya_manufacturer_write_attributes, update_attribute, lift,
            lift_w, mbind, mret, W_bind, W_ret;
          cbn -[Z.mul]).

Ltac lookups Hab :=
  repeat (rewrite lookup_insert_eq
          || rewrite lookup_insert_ne by (done || (intros ->; by apply Hab))
          || rewrite insert_insert_eq).

(** C10.  The manufacturer cluster of the valve constructed last is the
    one held by the global, and the helper on/off clusters and the
    opened-window-temperature cluster send through it: after valves [a] and
    [b] were constructed in that order, a write on a helper cluster of [a]
    reaches the manufacturer cluster of [b] and not that of [a], and so
    does a write on a helper cluster of [b]. *)
Theorem C10_global_routes_writes (w : World) (a b : Z) (v : pyval) (z : Z) :
  a <> b ->
  ZonnsmartManuClusterSelf (two_valves a b w) = Some b /\
  (let w' := fst (HelperOnOff_write_attributes Boost_get_attr_val_to_write
                    a [(0x0000, v)] (two_valves a b w)) in
   tuya_writes (device w' b)
     = [[(ZONNSMART_BOOST_TIME_ATTR, PInt (if truthy v then 299 else 0))]] /\
   tuya_writes (device w' a) = []) /\
  (let w' := fst (HelperOnOff_write_attributes ChildLock_get_attr_val_to_write
                    a [(0x0000, v)] (two_valves a b w)) in
   tuya_writes (device w' b) = [[(ZONNSMART_CHILD_LOCK_ATTR, v)]] /\
   tuya_writes (device w' a) = []) /\
  (let w' := fst (HelperOnOff_write_attributes ChildLock_get_attr_val_to_write
                    b [(0x0000, v)] (two_valves a b w)) in
   tuya_writes (device w' b) = [[(ZONNSMART_CHILD_LOCK_ATTR, v)]] /\
   tuya_writes (device w' a) = []) /\
  (let w' := fst (WindowOpenedTemp_write_attributes
                    a [(ByName "present_value", PInt z)] (two_valves a b w)) in
   tuya_writes (device w' b)
     = [[(ZONNSMART_OPENED_WINDOW_TEMP, PInt (z * 10))]] /\
   tuya_writes (device w' a) = [] /\
   attr_cache (device w' a) WindowOpenedTemp !! 0x0055 = Some (PInt z)).
Proof.
  intros Hab. split; [reflexivity|].
  repeat split;
    unfold HelperOnOff_write_attributes, WindowOpenedTemp_write_attributes,
      WindowOpenedTemp_write_loop;
    wexec; lookups Hab; wexec; lookups Hab; try reflexivity.
Qed.

Lemma C10_global_routes_writes_witness :
  let w := two_valves 1 2 (mkWorld None ∅) in
  let w' := fst (HelperOnOff_write_attributes Boost_get_attr_val_to_write
                   1 [(0x0000, PBool true)] w) in
  ZonnsmartManuClusterSelf w = Some 2 /\
  tuya_writes (device w' 2) = [[(ZONNSMART_BOOST_TIME_ATTR, PInt 299)]] /\
  tuya_writes (device w' 1) = [].
Proof.
  pose proof (C10_global_routes_writes (mkWorld None ∅) 1 2 (PBool true) 21
                ltac:(lia)) as (H1 & (H2 & H3) & _).
  cbv zeta. split; [exact H1|]. split; [exact H2 | exact H3].
Defined.

End GlobalFacts.

(** ** Idempotence and determinism of the dispatchers *)

Section Dispatch.
Import Scenario.

Ltac determine :=
  repeat first
    [ determine_step
    | progress unfold_listeners
    | progress unfold Saswell.hass_climate_state_change, Saswell.on_off_event,
        Saswell.schedule_mode_change, Saswell.away_mode_change,
        Saswell.child_lock_change, Saswell.window_detect_change,
        Saswell.anti_freeze_change, Saswell.limescale_protection_change,
        Saswell.battery_alarm_event, Saswell.TemperatureOffset_set_value
    | progress unfold Zonnsmart.state_temp_change, Zonnsmart.mode_change,
        Zonnsmart.system_mode_change, Zonnsmart.set_change,
        Zonnsmart.WindowDetection_set_value,
        Zonnsmart.WindowOpenedTemp_set_value,
        Zonnsmart.TemperatureOffset_set_value
    | progress unfold Moes.schedule_change, Moes.schedule_field,
        Moes.window_detect_change, Moes.mode_change, Moes.autolock_change ].

Lemma saswell_update_determined (attrid : Z) (value : pyval) :
  cache_determined (Saswell.ManufCluster_update_attribute attrid value).
Proof. unfold Saswell.ManufCluster_update_attribute. determine. Qed.

Lemma zonnsmart_update_determined (attrid : Z) (value : pyval) :
  cache_determined (Zonnsmart.ManufCluster_update_attribute attrid value).
Proof. unfold Zonnsmart.ManufCluster_update_attribute. determine. Qed.

Lemma moes_update_determined (direct : mapped_attrs) (attrid : Z)
    (value : pyval) :
  cache_determined (Moes.ManufCluster_update_attribute direct attrid value).
Proof. unfold Moes.ManufCluster_update_attribute. determine. Qed.

Lemma saswell_reports_determined (reports : list (Z * pyval)) :
  cache_determined (Saswell.handle_reports reports).
Proof.
  induction reports as [|[attrid value] rest IH]; cbn [Saswell.handle_reports].
  - apply determined_ret.
  - apply determined_bind; [|by intros _].
    apply determined_contained, saswell_update_determined.
Qed.

Lemma zonnsmart_reports_determined (reports : list (Z * pyval)) :
  cache_determined (Zonnsmart.handle_reports reports).
Proof.
  induction reports as [|[attrid value] rest IH];
    cbn [Zonnsmart.handle_reports].
  - apply determined_ret.
  - apply determined_bind; [|by intros _].
    apply determined_contained, zonnsmart_update_determined.
Qed.

Lemma moes_reports_determined (direct : mapped_attrs)
    (reports : list (Z * pyval)) :
  cache_determined (Moes.handle_reports direct reports).
Proof.
  induction reports as [|[attrid value] rest IH]; cbn [Moes.handle_reports].
  - apply determined_ret.
  - apply determined_bind; [|by intros _].
    apply determined_contained, moes_update_determined.
Qed.

(** C7.  Delivering the same datapoint report twice in a row leaves the
    attribute cache of every cluster of the device as delivering it once
    does, for the Saswell, Moes (both manufacturer classes) and ZONNSMART
    dispatchers: each cache entry written on the way is the last value
    written, and that value is fixed by the report and by cache entries the
    delivery does not write. *)
Theorem C7_report_idempotent (attrid : Z) (value : pyval) :
  (forall (s : DevState Saswell.Cluster) (c : Saswell.Cluster),
     attr_cache (run (Saswell.handle_reports
                        [(attrid, value); (attrid, value)]) s) c
     = attr_cache (run (Saswell.handle_reports [(attrid, value)]) s) c) /\
  (forall (direct : mapped_attrs) (s : DevState Moes.Cluster)
          (c : Moes.Cluster),
     attr_cache (run (Moes.handle_reports direct
                        [(attrid, value); (attrid, value)]) s) c
     = attr_cache (run (Moes.handle_reports direct [(attrid, value)]) s) c) /\
  (forall (s : DevState Zonnsmart.Cluster) (c : Zonnsmart.Cluster),
     attr_cache (run (Zonnsmart.handle_reports
                        [(attrid, value); (attrid, value)]) s) c
     = attr_cache (run (Zonnsmart.handle_reports [(attrid, value)]) s) c).
Proof.
  split; [|split].
  - intros s c. destruct (SaswellFacts.saswell_update_isolated attrid value)
      as [R HR].
    exact (contained_twice R _ s c HR).
  - intros direct s c.
    exact (contained_twice [] _ s c
             (MoesFacts.moes_update_isolated direct attrid value)).
  - intros s c.
    destruct (ZonnsmartFacts.zonnsmart_update_isolated attrid value)
      as [R HR].
    exact (contained_twice R _ s c HR).
Qed.

(** C8.  The updates notified while a sequence of reports is handled are
    fixed by the attribute caches the device starts with and by the
    reports: two runs from states with the same caches notify the same
    updates (clusters, attribute ids, values) in the same order, whatever
    the two devices notified or sent before.  This holds for the ZONNSMART
    and the Saswell dispatchers. *)
Theorem C8_emitted_updates_deterministic (reports : list (Z * pyval))
    (s1 s2 : DevState Saswell.Cluster) (z1 z2 : DevState Zonnsmart.Cluster) :
  same_caches s1 s2 -> same_caches z1 z2 ->
  emitted (Saswell.handle_reports reports) s1
    = emitted (Saswell.handle_reports reports) s2 /\
  emitted (Zonnsmart.handle_reports reports) z1
    = emitted (Zonnsmart.handle_reports reports) z2.
Proof.
  intros Hs Hz. split.
  - by apply determined_emitted; [apply saswell_reports_determined|].
  - by apply determined_emitted; [apply zonnsmart_reports_determined|].
Qed.

Lemma C8_emitted_updates_deterministic_witness :
  emitted (Saswell.handle_reports
             [(Saswell.SASWELL_ONOFF_ATTR, PInt 1);
              (Saswell.SASWELL_ROOM_TEMP_ATTR, PInt 20)]) saswell_new
    = emitted (Saswell.handle_reports
             [(Saswell.SASWELL_ONOFF_ATTR, PInt 1);
              (Saswell.SASWELL_ROOM_TEMP_ATTR, PInt 20)]) saswell_used /\
  emitted (Zonnsmart.handle_reports
             [(Saswell.SASWELL_ONOFF_ATTR, PInt 1);
              (Saswell.SASWELL_ROOM_TEMP_ATTR, PInt 20)]) zonnsmart_new
    = emitted (Zonnsmart.handle_reports
             [(Saswell.SASWELL_ONOFF_ATTR, PInt 1);
              (Saswell.SASWELL_ROOM_TEMP_ATTR, PInt 20)]) zonnsmart_used.
Proof.
  apply (C8_emitted_updates_deterministic
           [(Saswell.SASWELL_ONOFF_ATTR, PInt 1);
            (Saswell.SASWELL_ROOM_TEMP_ATTR, PInt 20)]
           saswell_new saswell_used zonnsmart_new zonnsmart_used);
    intros c; reflexivity.
Defined.

End Dispatch.

(** * Further properties of the translation code *)

(** ** Rounding of scaled temperatures *)

Lemma round_half_even_frac (n : Z) (d : positive) :
  round_half_even (n # d)
  = match 2 * (n mod Z.pos d) ?= Z.pos d with
    | Lt => n / Z.pos d
    | Gt => n / Z.pos d + 1
    | Eq => if Z.even (n / Z.pos d) then n / Z.pos d else n / Z.pos d + 1
    end.
Proof.
  unfold round_half_even.
  change (Qfloor (n # d)) with (n / Z.pos d).
  replace (((n # d) - inject_Z (n / Z.pos d)) * 2 ?= 1)%Q
    with (2 * (n mod Z.pos d) ?= Z.pos d); [done|].
  unfold Qcompare, Qminus, Qplus, Qmult, Qopp, inject_Z. cbn [Qnum Qden].
  rewrite Z.mod_eq by done. f_equal; lia.
Qed.

(** Scaling up and back is exact. *)
Lemma round_half_even_exact (v : Z) (k : positive) :
  round_half_even ((v * Z.pos k) # k) = v.
Proof.
  rewrite round_half_even_frac.
  rewrite Z.mod_mul, Z.div_mul by done. cbn. done.
Qed.


Lemma round_div_int (z : Z) (k : positive) :
  round_div (PInt z) (Z.pos k) = Ok (PInt (round_half_even (z # k))).
Proof.
  unfold round_div. cbn. do 2 f_equal.
  rewrite (round_half_even_Qeq _ _ (Qred_correct _)).
  apply round_half_even_Qeq. unfold Qeq. cbn. lia.
Qed.

(** ** Forward and reverse temperature scaling *)

Module ScalingFacts.

(** Split on which key of a name-indexed table [name] is, in a hypothesis
    [H : assoc table name = Some _]. *)
Ltac split_name H name tac :=
  cbn [assoc] in H;
  repeat match type of H with
    | context [String.eqb ?l name] =>
        let E := fresh "E" in
        destruct (String.eqb_spec l name) as [E|E];
        [ subst name; injection H as <- <-; tac | clear E ]
    end;
  try discriminate H.

Ltac round_trip v :=
  eexists _, _; split; [reflexivity|]; split; [reflexivity|];
  unfold convert, Moes.rounded;
  rewrite ?round_div_int, ?round_half_even_exact; reflexivity.

(** X1.  The two direct tables of the Moes classes are inverse to each
    other on integers: every attribute of [DIRECT_MAPPING_ATTRS] is the
    name that [DIRECT_MAPPED_ATTRS] gives to the same datapoint, and
    scaling a reported integer and mapping the result back gives the
    reported integer again.  This holds for the tables of the old and of
    the new classes. *)
Theorem moes_direct_tables_inverse (name : string) (dp : Z)
    (g : option (pyval -> result pyval)) (v : Z) :
  (assoc Moes.DIRECT_MAPPING_ATTRS name = Some (dp, g) ->
   exists f x,
     assoc_Z Moes.DIRECT_MAPPED_ATTRS dp = Some (name, f) /\
     convert f (PInt v) = Ok x /\ convert g x = Ok (PInt v)) /\
  (assoc Moes.DIRECT_MAPPING_ATTRS_New name = Some (dp, g) ->
   exists f x,
     assoc_Z Moes.DIRECT_MAPPED_ATTRS_New dp = Some (name, f) /\
     convert f (PInt v) = Ok x /\ convert g x = Ok (PInt v)).
Proof.
  split; intros H.
  - unfold Moes.DIRECT_MAPPING_ATTRS in H.
    split_name H name ltac:(round_trip v).
  - unfold Moes.DIRECT_MAPPING_ATTRS_New in H.
    split_name H name ltac:(round_trip v).
Qed.

Lemma moes_direct_tables_inverse_witness :
  exists f x,
    assoc_Z Moes.DIRECT_MAPPED_ATTRS Moes.MOES_ECO_TEMP_ATTR
      = Some ("eco_heating_setpoint"%string, f) /\
    convert f (PInt 17) = Ok x /\ convert (Moes.rounded 100) x = Ok (PInt 17).
Proof.
  exact (proj1 (moes_direct_tables_inverse "eco_heating_setpoint"
                  Moes.MOES_ECO_TEMP_ATTR (Moes.rounded 100) 17) eq_refl).
Defined.



End ScalingFacts.

(** ** What a computation writes *)

Section Footprint.
Context {C : Type} `{EqDecision C}.
Implicit Types P : C -> Z -> Prop.

Lemma writes_ret {A} P (a : A) : writes_only P (mret a : M C A).
Proof. intros s. by exists [], (Ok a). Qed.

Lemma writes_lift {A} P (r : result A) : writes_only P (lift r : M C A).
Proof. intros s. by exists [], r. Qed.

Lemma writes_get P (c : C) (a : Z) : writes_only P (get c a).
Proof. intros s. by exists [], (Ok (cache_get (attr_cache s c) a)). Qed.

Lemma writes_get_or P (c : C) (a : Z) (d : pyval) :
  writes_only P (get_or c a d).
Proof. intros s. by exists [], (Ok (cache_get_or (attr_cache s c) a d)). Qed.

Lemma writes_update P (c : C) (a : Z) (v : pyval) :
  P c a -> writes_only P (update_attribute c a v).
Proof.
  intros HP s. exists [(c, a, v)], (Ok tt). split; [done|].
  by repeat constructor.
Qed.

Lemma writes_bind {A B} P (m : M C A) (f : A -> M C B) :
  writes_only P m -> (forall a, writes_only P (f a)) ->
  writes_only P (m ≫= f).
Proof.
  intros Hm Hf s. destruct (Hm s) as (us & r & Hrun & Hus).
  unfold mbind, M_bind. rewrite Hrun. destruct r as [a|e].
  - destruct (Hf a (apply_updates us s)) as (vs & r' & Hrun' & Hvs).
    exists (us ++ vs), r'. rewrite Hrun', apply_updates_app.
    split; [done|]. by apply Forall_app.
  - by exists us, (Raise e).
Qed.

Lemma writes_bind_lift {A B} P (r : result A) (f : A -> M C B) :
  (forall a, r = Ok a -> writes_only P (f a)) -> writes_only P (lift r ≫= f).
Proof.
  intros Hf s. destruct r as [a|e].
  - destruct (Hf a eq_refl s) as (us & r & Hrun & Hus). by exists us, r.
  - by exists [], (Raise e).
Qed.

Lemma writes_listener P (m : M C unit) :
  writes_only P m -> writes_only P (listener m).
Proof.
  intros Hm s. destruct (Hm s) as (us & r & Hrun & Hus).
  exists us, (Ok tt). unfold listener. by rewrite Hrun.
Qed.

Lemma writes_contained P (m : M C unit) :
  writes_only P m -> writes_only P (contained m).
Proof.
  intros Hm s. destruct (Hm s) as (us & r & Hrun & Hus).
  exists us, (Ok tt). unfold contained. by rewrite Hrun.
Qed.

Lemma writes_weaken {A} P (Q : C -> Z -> Prop) (m : M C A) :
  (forall c a, P c a -> Q c a) -> writes_only P m -> writes_only Q m.
Proof.
  intros HPQ Hm s. destruct (Hm s) as (us & r & Hrun & Hus).
  exists us, r. split; [done|]. eapply Forall_impl; [exact Hus|].
  intros u. apply HPQ.
Qed.

(** A key that is not written keeps its value, nothing is sent, and the
    notifications are those of the writes. *)
Lemma writes_frame {A} P (m : M C A) (s : DevState C) (c : C) (a : Z) :
  writes_only P m -> ~ P c a ->
  attr_cache (run m s) c !! a = attr_cache s c !! a.
Proof.
  intros Hm Hout. destruct (Hm s) as (us & r & Hrun & Hus).
  unfold run. rewrite Hrun. cbn [fst]. rewrite lookup_apply_updates.
  rewrite last_write_untouched; [done|].
  eapply Forall_impl; [exact Hus|]. intros u Hu E. apply Hout.
  by inversion E; subst.
Qed.

Lemma writes_sends_nothing {A} P (m : M C A) (s : DevState C) :
  writes_only P m -> tuya_writes (run m s) = tuya_writes s.
Proof.
  intros Hm. destruct (Hm s) as (us & r & Hrun & Hus).
  unfold run. rewrite Hrun. apply tuya_writes_apply.
Qed.

End Footprint.

Ltac footprint_step side :=
  lazymatch goal with
  | |- writes_only _ (mret _) => apply writes_ret
  | |- writes_only _ (lift _) => apply writes_lift
  | |- writes_only _ (update_attribute _ _ _) => apply writes_update; side
  | |- writes_only _ (get _ _) => apply writes_get
  | |- writes_only _ (get_or _ _ _) => apply writes_get_or
  | |- writes_only _ (listener _) => apply writes_listener
  | |- writes_only _ (contained _) => apply writes_contained
  | |- writes_only _ (mbind _ (lift _)) =>
      apply writes_bind_lift;
      let a := fresh "a" in
      let H := fresh "H" in
      intros a H; cbn in H;
      first [ discriminate H | injection H as <- | clear H ]
  | |- writes_only _ (mbind _ _) => apply writes_bind; [|intros ?]
  | |- writes_only _ (if ?b then _ else _) => destruct b
  | |- writes_only _ (match ?x with _ => _ end) => destruct x
  end.

Ltac footprint side :=
  repeat first [ footprint_step side | progress unfold_listeners ].

(** ** Inbound reports *)

Module ReportFacts.

Ltac unfold_handlers :=
  unfold Saswell.hass_climate_state_change, Saswell.on_off_event,
    Saswell.schedule_mode_change, Saswell.away_mode_change,
    Saswell.child_lock_change, Saswell.window_detect_change,
    Saswell.anti_freeze_change, Saswell.limescale_protection_change,
    Saswell.battery_alarm_event, Saswell.TemperatureOffset_set_value,
    Zonnsmart.state_temp_change, Zonnsmart.mode_change,
    Zonnsmart.system_mode_change, Zonnsmart.set_change,
    Zonnsmart.WindowDetection_set_value,
    Zonnsmart.WindowOpenedTemp_set_value,
    Zonnsmart.TemperatureOffset_set_value,
    Moes.schedule_change, Moes.schedule_field, Moes.window_detect_change,
    Moes.mode_change, Moes.autolock_change, Siterwell.mode_change.

Ltac anywhere :=
  repeat first [ footprint_step ltac:(exact I) | progress unfold_listeners
               | progress unfold_handlers ].

Lemma saswell_update_writes (attrid : Z) (value : pyval) :
  writes_only any_key (Saswell.ManufCluster_update_attribute attrid value).
Proof. unfold Saswell.ManufCluster_update_attribute. anywhere. Qed.

Lemma moes_update_writes (direct : mapped_attrs) (attrid : Z) (value : pyval) :
  writes_only any_key (Moes.ManufCluster_update_attribute direct attrid value).
Proof. unfold Moes.ManufCluster_update_attribute. anywhere. Qed.

Lemma zonnsmart_update_writes (attrid : Z) (value : pyval) :
  writes_only any_key (Zonnsmart.ManufCluster_update_attribute attrid value).
Proof. unfold Zonnsmart.ManufCluster_update_attribute. anywhere. Qed.

Lemma siterwell_update_writes (attrid : Z) (value : pyval) :
  writes_only any_key (Siterwell.ManufCluster_update_attribute attrid value).
Proof. unfold Siterwell.ManufCluster_update_attribute. anywhere. Qed.

(** X3.  Handling inbound reports never sends a datapoint write: whatever
    the reports and the state, the writes handed to the manufacturer
    cluster are the same before and after, for the Saswell, Moes,
    ZONNSMART and Siterwell dispatchers. *)
Theorem reports_send_nothing (reports : list (Z * pyval))
    (direct : mapped_attrs) :
  (forall s, tuya_writes (run (Saswell.handle_reports reports) s)
             = tuya_writes s) /\
  (forall s, tuya_writes (run (Moes.handle_reports direct reports) s)
             = tuya_writes s) /\
  (forall s, tuya_writes (run (Zonnsmart.handle_reports reports) s)
             = tuya_writes s) /\
  (forall s, tuya_writes (run (Siterwell.handle_reports reports) s)
             = tuya_writes s).
Proof.
  repeat split; intros s; apply (writes_sends_nothing any_key);
    induction reports as [|[attrid value] rest IH]; cbn;
    try apply writes_ret;
    (apply writes_bind; [apply writes_contained|by intros _]).
  - apply saswell_update_writes.
  - apply moes_update_writes.
  - apply zonnsmart_update_writes.
  - apply siterwell_update_writes.
Qed.

(** Turn [attrid ∉ [k1; ...; kn]] into the outcome of every comparison
    of [attrid] with a [ki]. *)
Ltac unhandled H attrid :=
  repeat (apply not_elem_of_cons in H;
          let E := fresh "E" in
          let R := fresh "R" in
          destruct H as [E R];
          rewrite ?(proj2 (Z.eqb_neq _ _) E),
            ?(proj2 (Z.eqb_neq _ _) (not_eq_sym E));
          clear E; rename R into H).




(** X5.  After a report of the room temperature or of the target setpoint
    the thermostat cache is consistent: it holds the reported temperature
    scaled by ten and the other temperature as it was cached before, and
    the running mode and running state show heating exactly when that
    room temperature is below that setpoint (plus two for a Saswell valve,
    which must be in heat mode). *)
Theorem running_state_matches_cache (t other : Z) :
  (forall s : DevState Saswell.Cluster,
     attr_cache s Saswell.ThermostatCluster !! 0x001C
       = Some (PInt Thermostat.SystemMode.Heat) ->
     (attr_cache s Saswell.ThermostatCluster !! 0x0012 = Some (PInt other) ->
      demand_shown
        (attr_cache
           (run (Saswell.ManufCluster_update_attribute
                   Saswell.SASWELL_ROOM_TEMP_ATTR (PInt t)) s)
           Saswell.ThermostatCluster) (t * 10) other 2) /\
     (attr_cache s Saswell.ThermostatCluster !! 0x0000 = Some (PInt other) ->
      demand_shown
        (attr_cache
           (run (Saswell.ManufCluster_update_attribute
                   Saswell.SASWELL_TARGET_TEMP_ATTR (PInt t)) s)
           Saswell.ThermostatCluster) other (t * 10) 2)) /\
  (forall s : DevState Zonnsmart.Cluster,
     (attr_cache s Zonnsmart.ThermostatCluster !! 0x0012 = Some (PInt other) ->
      demand_shown
        (attr_cache
           (run (Zonnsmart.ManufCluster_update_attribute
                   Zonnsmart.ZONNSMART_TEMPERATURE_ATTR (PInt t)) s)
           Zonnsmart.ThermostatCluster) (t * 10) other 0) /\
     (attr_cache s Zonnsmart.ThermostatCluster !! 0x0000 = Some (PInt other) ->
      demand_shown
        (attr_cache
           (run (Zonnsmart.ManufCluster_update_attribute
                   Zonnsmart.ZONNSMART_TARGET_TEMP_ATTR (PInt t)) s)
           Zonnsmart.ThermostatCluster) other (t * 10) 0)).
Proof.
  split.
  - intros s Hm. split; intros Ho;
      unfold demand_shown, Saswell.ManufCluster_update_attribute,
        Saswell.hass_climate_state_change, temperature_change; exec;
      unfold cache_get; lookup_cache; rewrite Hm; exec;
      lookup_cache; rewrite Ho; exec;
      rewrite state_change_spec; destruct (_ <=? _);
      repeat split; lookup_cache; done.
  - intros s. split; intros Ho;
      unfold demand_shown, Zonnsmart.ManufCluster_update_attribute,
        Zonnsmart.state_temp_change, temperature_change; exec;
      unfold cache_get; lookup_cache; rewrite Ho; exec;
      rewrite Z.add_0_r;
      rewrite state_change_spec; destruct (_ <=? _);
      repeat split; lookup_cache; done.
Qed.

Lemma running_state_matches_cache_witness :
  demand_shown
    (attr_cache
       (run (Saswell.ManufCluster_update_attribute
               Saswell.SASWELL_ROOM_TEMP_ATTR (PInt 21))
          Scenario.saswell_heat_250)
       Saswell.ThermostatCluster) (21 * 10) 250 2.
Proof.
  apply (proj1 (running_state_matches_cache 21 250)
           Scenario.saswell_heat_250); reflexivity.
Defined.

Lemma raises_after_caching {C} `{EqDecision C} (m : M C unit)
    (s : DevState C) (c0 : C) (a : Z) (v : pyval) :
  m s = (apply_updates [(c0, a, v)] s, Raise TypeError) ->
  outcome m s = Raise TypeError /\
  (forall c, c <> c0 -> attr_cache (run m s) c = attr_cache s c) /\
  Forall (fun u : C * Z * pyval => u.1.1 = c0) (emitted m s) /\
  tuya_writes (run m s) = tuya_writes s.
Proof.
  intros E. split; [unfold outcome; by rewrite E|].
  split; [|split].
  - intros c Hc. unfold run. rewrite E. cbn.
    by rewrite decide_False.
  - rewrite (emitted_apply m s [(c0, a, v)]) by (unfold run; by rewrite E).
    by repeat constructor.
  - unfold run. by rewrite E.
Qed.

Ltac valueless :=
  repeat apply List.Forall_cons; try apply List.Forall_nil;
  intros s; try split; eapply raises_after_caching;
  unfold Saswell.ManufCluster_update_attribute,
    Zonnsmart.ManufCluster_update_attribute,
    Siterwell.ManufCluster_update_attribute,
    Moes.ManufCluster_update_attribute;
  exec; reflexivity.

(** X19.  A temperature report that carries no value fails in the
    dispatcher itself, not in a listener: for every datapoint whose value
    is scaled on the way in, handling a report of [None] raises
    [TypeError], no cluster other than the manufacturer cluster is updated
    or notified, so that no calculator runs, and nothing is sent. *)
Theorem valueless_temperature_report_raises :
  Forall
    (fun dp =>
       forall s,
         let m := Saswell.ManufCluster_update_attribute dp PNone in
         outcome m s = Raise TypeError /\
         (forall c, c <> Saswell.ManufCluster ->
                    attr_cache (run m s) c = attr_cache s c) /\
         Forall (fun u => u.1.1 = Saswell.ManufCluster) (emitted m s) /\
         tuya_writes (run m s) = tuya_writes s)
    [ Saswell.SASWELL_ROOM_TEMP_ATTR; Saswell.SASWELL_TARGET_TEMP_ATTR;
      Saswell.SASWELL_TEMP_CORRECTION_ATTR ] /\
  Forall
    (fun dp =>
       forall s,
         let m := Zonnsmart.ManufCluster_update_attribute dp PNone in
         outcome m s = Raise TypeError /\
         (forall c, c <> Zonnsmart.ManufCluster ->
                    attr_cache (run m s) c = attr_cache s c) /\
         Forall (fun u => u.1.1 = Zonnsmart.ManufCluster) (emitted m s) /\
         tuya_writes (run m s) = tuya_writes s)
    [ Zonnsmart.ZONNSMART_TEMPERATURE_ATTR;
      Zonnsmart.ZONNSMART_TEMPERATURE_CALIBRATION_ATTR;
      Zonnsmart.ZONNSMART_TARGET_TEMP_ATTR;
      Zonnsmart.ZONNSMART_HOLIDAY_TEMP_ATTR ] /\
  Forall
    (fun dp =>
       forall s,
         let m := Siterwell.ManufCluster_update_attribute dp PNone in
         outcome m s = Raise TypeError /\
         (forall c, c <> Siterwell.ManufCluster ->
                    attr_cache (run m s) c = attr_cache s c) /\
         Forall (fun u => u.1.1 = Siterwell.ManufCluster) (emitted m s) /\
         tuya_writes (run m s) = tuya_writes s)
    [ Siterwell.SITERWELL_TEMPERATURE_ATTR;
      Siterwell.SITERWELL_TARGET_TEMP_ATTR ] /\
  Forall
    (fun dp =>
       forall s (direct : mapped_attrs),
         direct = Moes.DIRECT_MAPPED_ATTRS \/
         direct = Moes.DIRECT_MAPPED_ATTRS_New ->
         let m := Moes.ManufCluster_update_attribute direct dp PNone in
         outcome m s = Raise TypeError /\
         (forall c, c <> Moes.ManufCluster ->
                    attr_cache (run m s) c = attr_cache s c) /\
         Forall (fun u => u.1.1 = Moes.ManufCluster) (emitted m s) /\
         tuya_writes (run m s) = tuya_writes s)
    [ Moes.MOES_TEMPERATURE_ATTR; Moes.MOES_TARGET_TEMP_ATTR;
      Moes.MOES_AWAY_TEMP_ATTR; Moes.MOES_COMFORT_TEMP_ATTR;
      Moes.MOES_ECO_TEMP_ATTR; Moes.MOES_TEMP_CALIBRATION_ATTR;
      Moes.MOES_MIN_TEMPERATURE_ATTR; Moes.MOES_MAX_TEMPERATURE_ATTR ].
Proof.
  split; [valueless|]. split; [valueless|]. split; [valueless|].
  repeat apply List.Forall_cons; try apply List.Forall_nil.
  all: intros s direct [-> | ->]; eapply raises_after_caching;
    unfold Moes.ManufCluster_update_attribute; exec; reflexivity.
Qed.

Lemma valueless_temperature_report_raises_witness :
  outcome (Moes.ManufCluster_update_attribute Moes.DIRECT_MAPPED_ATTRS
             Moes.MOES_TEMPERATURE_ATTR PNone) (fresh (fun _ => ∅))
  = Raise TypeError.
Proof.
  destruct valueless_temperature_report_raises as (_ & _ & _ & H).
  exact (proj1 (List.Forall_inv H (fresh (fun _ => ∅))
                  Moes.DIRECT_MAPPED_ATTRS (or_introl eq_refl))).
Defined.

End ReportFacts.

(** ** Modes: from a report to the cache and back to a datapoint *)

Module ModeFacts.

Ltac report_then_map :=
  intros s;
  unfold Saswell.ManufCluster_update_attribute, Saswell.on_off_event,
    Siterwell.ManufCluster_update_attribute, Siterwell.mode_change,
    Moes.ManufCluster_update_attribute, Moes.mode_change,
    Zonnsmart.ManufCluster_update_attribute, Zonnsmart.mode_change,
    temperature_change, state_change;
  exec; unfold cache_get, cache_get_or; lookup_cache; reflexivity.

(** X6.  A reported mode can be written back: when a mode report has been
    handled, mapping the attribute value it left in the thermostat cache
    gives the reported datapoint value again.  This holds for the Saswell
    on/off datapoint (0, 1), the Siterwell mode (0, 1, 2), the Moes mode
    (0, 1, 2, 4) and the ZONNSMART mode (0, 1, 3) and frost protection.
    The holiday preset that a ZONNSMART mode report of 2 leaves in the
    cache maps to no datapoint. *)
Theorem mode_report_written_back (v : Z) :
  (v = 0 \/ v = 1 ->
   forall s,
     let c := attr_cache
                (run (Saswell.ManufCluster_update_attribute
                        Saswell.SASWELL_ONOFF_ATTR (PInt v)) s)
                Saswell.ThermostatCluster in
     Saswell.Thermostat_map_attribute "system_mode" (cache_get c 0x001C)
     = Ok (Some [(Saswell.SASWELL_ONOFF_ATTR, PInt v)])) /\
  (v = 0 \/ v = 1 \/ v = 2 ->
   forall s,
     let c := attr_cache
                (run (Siterwell.ManufCluster_update_attribute
                        Siterwell.SITERWELL_MODE_ATTR (PInt v)) s)
                Siterwell.ThermostatCluster in
     Siterwell.map_attribute c "system_mode" (cache_get c 0x001C)
     = Ok (Some [(Siterwell.SITERWELL_MODE_ATTR, PInt v)])) /\
  (v = 0 \/ v = 1 \/ v = 2 \/ v = 4 ->
   forall s,
     let c := attr_cache
                (run (Moes.ManufCluster_update_attribute
                        Moes.DIRECT_MAPPED_ATTRS
                        Moes.MOES_MODE_ATTR (PInt v)) s)
                Moes.ThermostatCluster in
     Moes.map_attribute Moes.DIRECT_MAPPING_ATTRS c
       "occupancy" (cache_get c 0x0002)
     = Ok (Some [(Moes.MOES_MODE_ATTR, PInt v)]) /\
     Moes.map_attribute Moes.DIRECT_MAPPING_ATTRS c
       "programing_oper_mode" (cache_get c 0x0025)
     = Ok (Some [(Moes.MOES_MODE_ATTR, PInt v)])) /\
  (v = 0 \/ v = 1 \/ v = 3 ->
   forall s,
     let c := attr_cache
                (run (Zonnsmart.ManufCluster_update_attribute
                        Zonnsmart.ZONNSMART_MODE_ATTR (PInt v)) s)
                Zonnsmart.ThermostatCluster in
     Zonnsmart.Thermostat_map_attribute c
       "operation_preset" (cache_get c 0x4002)
     = Ok (Some [(Zonnsmart.ZONNSMART_MODE_ATTR, PInt v)])) /\
  (forall s,
     let c := attr_cache
                (run (Zonnsmart.ManufCluster_update_attribute
                        Zonnsmart.ZONNSMART_FROST_PROTECT_ATTR (PInt 1)) s)
                Zonnsmart.ThermostatCluster in
     Zonnsmart.Thermostat_map_attribute c
       "operation_preset" (cache_get c 0x4002)
     = Ok (Some [(Zonnsmart.ZONNSMART_FROST_PROTECT_ATTR, PInt 1)])) /\
  (forall s,
     let c := attr_cache
                (run (Zonnsmart.ManufCluster_update_attribute
                        Zonnsmart.ZONNSMART_MODE_ATTR (PInt 2)) s)
                Zonnsmart.ThermostatCluster in
     cache_get c 0x4002 = PInt Zonnsmart.Preset.Holiday /\
     Zonnsmart.Thermostat_map_attribute c
       "operation_preset" (cache_get c 0x4002) = Ok None).
Proof.
  split; [|split; [|split; [|split; [|split]]]].
  - intros [->| ->]; report_then_map.
  - intros [->|[->| ->]]; report_then_map.
  - intros [->|[->|[->| ->]]] s; split; revert s; report_then_map.
  - intros [->|[->| ->]]; report_then_map.
  - report_then_map.
  - intros s; split; revert s; report_then_map.
Qed.

Lemma mode_report_written_back_witness :
  let c := attr_cache
             (run (Siterwell.ManufCluster_update_attribute
                     Siterwell.SITERWELL_MODE_ATTR (PInt 2))
                (fresh (fun _ => ∅)))
             Siterwell.ThermostatCluster in
  Siterwell.map_attribute c "system_mode" (cache_get c 0x001C)
  = Ok (Some [(Siterwell.SITERWELL_MODE_ATTR, PInt 2)]).
Proof.
  apply (proj1 (proj2 (mode_report_written_back 2))). lia.
Defined.

(** Split on whether the datapoint [attrid] is [k]. *)
Ltac case_dp attrid k :=
  let E := fresh "E" in
  destruct (decide (attrid = k)) as [E|E];
  [ subst
  | rewrite ?(proj2 (Z.eqb_neq _ _) E),
      ?(proj2 (Z.eqb_neq _ _) (not_eq_sym E)) ].

Ltac not_the_key := intros [? ?]; congruence.

Ltac elsewhere :=
  eqb_consts; cbn -[Z.eqb];
  repeat first [ footprint_step not_the_key | progress unfold_listeners
               | progress ReportFacts.unfold_handlers ].

(** Split on which of the datapoints [ks] the datapoint [attrid] is, if
    any; [tac] finishes each case. *)
Ltac case_dps attrid ks tac :=
  lazymatch ks with
  | nil => tac
  | cons ?k ?rest => case_dp attrid k; [tac | case_dps attrid rest tac]
  end.

Ltac table_keys tbl :=
  let ks := eval cbv [tbl map fst] in (map fst tbl) in ks.

Lemma saswell_keeps_system_mode (attrid : Z) (value : pyval) :
  attrid <> Saswell.SASWELL_ONOFF_ATTR ->
  writes_only (other_than Saswell.ThermostatCluster 0x001C)
    (Saswell.ManufCluster_update_attribute attrid value).
Proof.
  intros H.
  unfold Saswell.ManufCluster_update_attribute, assoc_Z,
    Saswell.DIRECT_MAPPED_ATTRS.
  cbn [find fst].
  rewrite (proj2 (Z.eqb_neq _ _) H).
  let ks := table_keys Saswell.DIRECT_MAPPED_ATTRS in
  case_dps attrid ks elsewhere.
Qed.

Lemma zonnsmart_keeps_system_mode (attrid : Z) (value : pyval) :
  attrid <> Zonnsmart.ZONNSMART_HEATING_STOPPING_ATTR ->
  writes_only (other_than Zonnsmart.ThermostatCluster 0x001C)
    (Zonnsmart.ManufCluster_update_attribute attrid value).
Proof.
  intros H.
  unfold Zonnsmart.ManufCluster_update_attribute, assoc_Z,
    Zonnsmart.DIRECT_MAPPED_ATTRS.
  cbn [find fst].
  rewrite (proj2 (Z.eqb_neq _ _) H).
  let ks := table_keys Zonnsmart.DIRECT_MAPPED_ATTRS in
  case_dps attrid ks elsewhere.
Qed.

Lemma siterwell_keeps_system_mode (attrid : Z) (value : pyval) :
  attrid <> Siterwell.SITERWELL_MODE_ATTR ->
  writes_only (other_than Siterwell.ThermostatCluster 0x001C)
    (Siterwell.ManufCluster_update_attribute attrid value).
Proof.
  intros H.
  unfold Siterwell.ManufCluster_update_attribute, assoc_Z,
    Siterwell.TEMPERATURE_ATTRS.
  cbn [find fst].
  rewrite (proj2 (Z.eqb_neq _ _) H).
  let ks := table_keys Siterwell.TEMPERATURE_ATTRS in
  case_dps attrid ks elsewhere.
Qed.

Lemma moes_keeps_system_mode (attrid : Z) (value : pyval) :
  writes_only (other_than Moes.ThermostatCluster 0x001C)
    (Moes.ManufCluster_update_attribute Moes.DIRECT_MAPPED_ATTRS
       attrid value) /\
  writes_only (other_than Moes.ThermostatCluster 0x001C)
    (Moes.ManufCluster_update_attribute Moes.DIRECT_MAPPED_ATTRS_New
       attrid value).
Proof.
  split.
  - unfold Moes.ManufCluster_update_attribute, assoc_Z,
      Moes.DIRECT_MAPPED_ATTRS.
    cbn [find fst].
    let ks := table_keys Moes.DIRECT_MAPPED_ATTRS in
    case_dps attrid ks elsewhere.
  - unfold Moes.ManufCluster_update_attribute, assoc_Z,
      Moes.DIRECT_MAPPED_ATTRS_New.
    cbn [find fst].
    let ks := table_keys Moes.DIRECT_MAPPED_ATTRS_New in
    case_dps attrid ks elsewhere.
Qed.

(** X7.  The cached system mode changes only when its own datapoint
    reports: a report of any datapoint other than the Saswell on/off
    datapoint, the ZONNSMART heating-stopping datapoint or the Siterwell
    mode datapoint leaves the system mode of the thermostat cluster as it
    was, whatever the reported value.  No report at all changes the system
    mode of a Moes thermostat cluster. *)
Theorem system_mode_changes_on_its_datapoint_only (attrid : Z)
    (value : pyval) :
  (attrid <> Saswell.SASWELL_ONOFF_ATTR ->
   forall s,
     attr_cache (run (Saswell.ManufCluster_update_attribute attrid value) s)
       Saswell.ThermostatCluster !! 0x001C
     = attr_cache s Saswell.ThermostatCluster !! 0x001C) /\
  (attrid <> Zonnsmart.ZONNSMART_HEATING_STOPPING_ATTR ->
   forall s,
     attr_cache (run (Zonnsmart.ManufCluster_update_attribute attrid value) s)
       Zonnsmart.ThermostatCluster !! 0x001C
     = attr_cache s Zonnsmart.ThermostatCluster !! 0x001C) /\
  (attrid <> Siterwell.SITERWELL_MODE_ATTR ->
   forall s,
     attr_cache (run (Siterwell.ManufCluster_update_attribute attrid value) s)
       Siterwell.ThermostatCluster !! 0x001C
     = attr_cache s Siterwell.ThermostatCluster !! 0x001C) /\
  (forall s,
     attr_cache
       (run (Moes.ManufCluster_update_attribute Moes.DIRECT_MAPPED_ATTRS
               attrid value) s)
       Moes.ThermostatCluster !! 0x001C
     = attr_cache s Moes.ThermostatCluster !! 0x001C /\
     attr_cache
       (run (Moes.ManufCluster_update_attribute Moes.DIRECT_MAPPED_ATTRS_New
               attrid value) s)
       Moes.ThermostatCluster !! 0x001C
     = attr_cache s Moes.ThermostatCluster !! 0x001C).
Proof.
  split; [|split; [|split]].
  - intros H s. eapply writes_frame.
    + by apply saswell_keeps_system_mode.
    + intros Hk. by apply Hk.
  - intros H s. eapply writes_frame.
    + by apply zonnsmart_keeps_system_mode.
    + intros Hk. by apply Hk.
  - intros H s. eapply writes_frame.
    + by apply siterwell_keeps_system_mode.
    + intros Hk. by apply Hk.
  - intros s. split; eapply writes_frame.
    + apply moes_keeps_system_mode.
    + intros Hk. by apply Hk.
    + apply moes_keeps_system_mode.
    + intros Hk. by apply Hk.
Qed.

Lemma system_mode_changes_on_its_datapoint_only_witness :
  attr_cache
    (run (Saswell.ManufCluster_update_attribute
            Saswell.SASWELL_ROOM_TEMP_ATTR (PInt 21))
       Scenario.saswell_heat_250)
    Saswell.ThermostatCluster !! 0x001C
  = attr_cache Scenario.saswell_heat_250 Saswell.ThermostatCluster !! 0x001C.
Proof.
  apply (proj1 (system_mode_changes_on_its_datapoint_only
                  Saswell.SASWELL_ROOM_TEMP_ATTR (PInt 21))).
  vm_compute. lia.
Defined.

End ModeFacts.

(** ** Outbound writes *)

Module WriteFacts.

Section Sends.
Context {C : Type} `{EqDecision C}.
Implicit Types m : M C (list (list WriteAttributesStatusRecord)).

Lemma fails_unchanged m (s : DevState C) r :
  m s = (s, r) -> sends_or_fails m s.
Proof.
  intros E. unfold sends_or_fails, sent, run, outcome. rewrite E.
  repeat split. left. apply drop_all.
Qed.

Lemma sends_one m (s : DevState C) (d : dict) :
  m s = ((tuya_manufacturer_write_attributes d s).1,
         Ok [[StatusRecord SUCCESS None]]) ->
  sends_or_fails m s.
Proof.
  intros E. unfold sends_or_fails, sent, run, outcome. rewrite E.
  repeat split. right. exists d. split; [|done]. apply drop_app_length.
Qed.

End Sends.

(** X8.  A write to a Saswell on/off helper cluster or to the Moes window
    detection cluster never changes a cache and never notifies a
    listener, whatever the records and whatever the mapping of the
    subclass; it sends at most one set of datapoints, and when it sends
    one the answer is a success record. *)
Theorem on_off_writes_only_send (records : list (Z * pyval))
    (map_attribute : string -> pyval -> option dict) :
  (forall s, sends_or_fails
               (Saswell.CustomOnOff_write_attributes map_attribute records)
               s) /\
  (forall s, sends_or_fails (Moes.WindowDetection_write_attributes records)
               s).
Proof.
  split; intros s.
  - unfold Saswell.CustomOnOff_write_attributes.
    destruct records as [|r rest]; [by eapply fails_unchanged|].
    cbv beta iota.
    destruct (Saswell.gather map_attribute (r :: rest) []) as [[|d ds]|e].
    + by eapply fails_unchanged.
    + by eapply sends_one.
    + by eapply fails_unchanged.
  - unfold Moes.WindowDetection_write_attributes.
    destruct records as [|r rest]; [by eapply fails_unchanged|].
    cbv beta iota. remember (r :: rest) as rs eqn:E. clear E.
    destruct (round_div
                (cache_get_or (attr_cache s Moes.WindowDetection) 0x6000
                   (PInt 50)) 100) as [temp|e] eqn:Et.
    + destruct (Moes.fill rs
                  [cache_get_or (attr_cache s Moes.WindowDetection) 0x6001
                     (PInt 5);
                   temp;
                   cache_get_or (attr_cache s Moes.WindowDetection) 0
                     (PBool false)] false) as [[data [|]]|e] eqn:Ef.
      * eapply sends_one. exec. rewrite Et. exec. by rewrite Ef.
      * eapply fails_unchanged. exec. rewrite Et. exec. by rewrite Ef.
      * eapply fails_unchanged. exec. rewrite Et. exec. by rewrite Ef.
    + eapply fails_unchanged. exec. by rewrite Et.
Qed.

(** X9.  Each of the six Saswell on/off helper clusters mirrors its
    datapoint in both directions: a report of the datapoint with any value
    leaves that value in the [on_off] attribute of the cluster, and a write
    of [on_off] with the cached value sends the same datapoint with the
    same value, once, and answers with a success record. *)
Theorem saswell_helpers_mirror_datapoint (v : pyval)
    (s : DevState Saswell.Cluster) :
  Forall
    (fun h : Z * Saswell.Cluster * (string -> pyval -> option dict) =>
       let s' := run (Saswell.ManufCluster_update_attribute h.1.1 v) s in
       attr_cache s' h.1.2 !! 0x0000 = Some v /\
       Saswell.CustomOnOff_write_attributes h.2
         [(0x0000, cache_get (attr_cache s' h.1.2) 0x0000)] s'
       = ((tuya_manufacturer_write_attributes [(h.1.1, v)] s').1,
          Ok [[StatusRecord SUCCESS None]]))
    Saswell.helpers.
Proof.
  repeat constructor; cbn [fst snd];
    try (unfold Saswell.ManufCluster_update_attribute,
           Saswell.child_lock_change, Saswell.window_detect_change,
           Saswell.anti_freeze_change, Saswell.limescale_protection_change,
           Saswell.schedule_mode_change, Saswell.away_mode_change,
           ui_child_lock_change, set_on_off;
         exec; unfold cache_get; lookup_cache; reflexivity).
Qed.

(** X10.  After a Moes window detection report [[minutes; temperature;
    on_off]] of integers, a write of one of the three attributes of the
    window detection cluster sends the whole datapoint again: the written
    field takes the new value and the two other fields are the reported
    ones.  A written timeout or on/off value goes as given; a written
    temperature [c] goes as the quotient [c / 100], which is not rounded.
    This holds with the datapoint table of the old and of the new Moes
    class. *)
Theorem moes_window_write_resends_report (minutes temp c : Z)
    (on_off x : pyval) (s : DevState Moes.Cluster) :
  Forall
    (fun direct : mapped_attrs =>
       let s' := run (Moes.ManufCluster_update_attribute direct
                        Moes.MOES_WINDOW_DETECT_ATTR
                        (PList [PInt minutes; PInt temp; on_off])) s in
       let sending data :=
         ((tuya_manufacturer_write_attributes
             [(Moes.MOES_WINDOW_DETECT_ATTR, PList data)] s').1,
          Ok [[StatusRecord SUCCESS None]]) in
       Moes.WindowDetection_write_attributes [(0x0000, x)] s'
       = sending [PInt minutes; PInt temp; x] /\
       Moes.WindowDetection_write_attributes [(0x6001, x)] s'
       = sending [x; PInt temp; on_off] /\
       Moes.WindowDetection_write_attributes [(0x6000, PInt c)] s'
       = sending [PInt minutes;
                  PFloat (Qred (inject_Z c / inject_Z 100)); on_off])
    [Moes.DIRECT_MAPPED_ATTRS; Moes.DIRECT_MAPPED_ATTRS_New].
Proof.
  pose proof (round_div_int (temp * 100) 100) as Hr.
  rewrite round_half_even_exact in Hr.
  repeat constructor;
    unfold Moes.ManufCluster_update_attribute, Moes.window_detect_change,
      Moes.WindowDetection_write_attributes.
  all: exec; unfold cache_get_or; lookup_cache; cbn [from_option id].
  all: rewrite Hr; exec; reflexivity.
Qed.

Lemma gather_last (dp : Z) (records : list (Z * pyval)) (v : pyval)
    (acc : dict) :
  Forall (fun r : Z * pyval => r.1 = 0x0000) records ->
  last records = Some (0x0000, v) ->
  acc = [] \/ (exists x, acc = [(dp, x)]) ->
  Saswell.gather (Saswell.on_off_to dp) records acc = Ok [(dp, v)].
Proof.
  intros Hall. revert acc.
  induction Hall as [|[attrid value] rest Hid _ IH]; intros acc Hlast Hacc;
    [done|].
  cbn [fst] in Hid. subst attrid. cbn [Saswell.gather].
  assert (dict_update acc [(dp, value)] = [(dp, value)]) as Hupd.
  { destruct Hacc as [->|[x ->]]; [done|].
    cbn. by rewrite Z.eqb_refl. }
  change (Saswell.gather (Saswell.on_off_to dp) rest
            (dict_update acc [(dp, value)]) = Ok [(dp, v)]).
  rewrite Hupd. destruct rest as [|r rest'].
  - cbn in Hlast. by injection Hlast as ->.
  - apply IH; [exact Hlast|]. right. by exists value.
Qed.

Lemma on_off_value_last (records : list (Z * pyval)) (v : pyval)
    (acc : option pyval) :
  Forall (fun r : Z * pyval => r.1 = 0x0000) records ->
  last records = Some (0x0000, v) ->
  Zonnsmart.on_off_value records acc = Ok (Some v).
Proof.
  intros Hall. revert acc.
  induction Hall as [|[attrid value] rest Hid _ IH]; intros acc Hlast;
    [done|].
  cbn [fst] in Hid. subst attrid.
  change (Zonnsmart.on_off_value rest (Some value) = Ok (Some v)).
  destruct rest as [|r rest'].
  - cbn in Hlast. by injection Hlast as ->.
  - by apply IH.
Qed.

Lemma fill_last (records : list (Z * pyval)) (v : pyval)
    (data : list pyval) (changed : bool) :
  Forall (fun r : Z * pyval => r.1 = 0x0000) records ->
  last records = Some (0x0000, v) ->
  Moes.fill records data changed = Ok (<[2%nat := v]> data, true).
Proof.
  intros Hall. revert data changed.
  induction Hall as [|[attrid value] rest Hid _ IH];
    intros data changed Hlast; [done|].
  cbn [fst] in Hid. subst attrid.
  change (Moes.fill rest (<[2%nat := value]> data) true
          = Ok (<[2%nat := v]> data, true)).
  destruct rest as [|r rest'].
  - cbn in Hlast. by injection Hlast as ->.
  - rewrite (IH _ _ Hlast). by rewrite list_insert_insert_eq.
Qed.

(** X21.  When a write request names [on_off] more than once, the last
    record decides: the loop of the Saswell helper clusters gathers one
    datapoint with the value of the last record, the loop of the ZONNSMART
    helper clusters keeps the value of the last record, and the loop of the
    Moes window detection cluster leaves the value of the last record in
    the on/off field of the payload. *)
Theorem last_on_off_record_decides (records : list (Z * pyval)) (v : pyval)
    (dp : Z) (data : list pyval) :
  Forall (fun r : Z * pyval => r.1 = 0x0000) records ->
  last records = Some (0x0000, v) ->
  Saswell.gather (Saswell.on_off_to dp) records [] = Ok [(dp, v)] /\
  Zonnsmart.on_off_value records None = Ok (Some v) /\
  Moes.fill records data false = Ok (<[2%nat := v]> data, true).
Proof.
  intros Hall Hlast. split; [|split].
  - apply gather_last; [done|done|by left].
  - by apply on_off_value_last.
  - by apply fill_last.
Qed.

Lemma last_on_off_record_decides_witness :
  Saswell.gather (Saswell.on_off_to Saswell.SASWELL_CHILD_LOCK_ATTR)
    [(0x0000, PBool true); (0x0000, PBool false)] []
  = Ok [(Saswell.SASWELL_CHILD_LOCK_ATTR, PBool false)].
Proof.
  apply (last_on_off_record_decides
           [(0x0000, PBool true); (0x0000, PBool false)] (PBool false)
           Saswell.SASWELL_CHILD_LOCK_ATTR []);
    [repeat constructor | reflexivity].
Defined.

End WriteFacts.

(** ** The Moes schedule, from a report back to a write *)

Module ScheduleFacts.
Import Moes Scenario.

(** The payload loop on a cache that holds an integer for every field of
    the table, when the written value is the cached one. *)
Lemma schedule_data_cached (c : cache) (attribute : string) (value : pyval)
    (table : list (string * Z)) (xs : list Z) (num : nat) :
  Forall2 (fun (entry : string * Z) (x : Z) =>
             exists attrid,
               assoc attributes_by_name entry.1 = Some attrid /\
               c !! attrid = Some (PInt x) /\
               (entry.1 = attribute -> value = PInt x)) table xs ->
  schedule_data c attribute value num table
  = Ok (imap (fun k x => PInt (encode (num + k) x)) xs).
Proof.
  intros H. revert num.
  induction H as [|[attr dflt] x table xs (attrid & Hid & Hx & Hv) _ IH];
    intros num; [done|].
  rewrite imap_cons, Nat.add_0_r.
  rewrite (imap_ext _ (fun k x => PInt (encode (S num + k) x)) xs)
    by (intros k e _; cbn; by rewrite Nat.add_succ_r).
  cbn [schedule_data]. rewrite (IH (S num)). clear IH.
  cbn [fst snd] in Hid, Hv. unfold encode, by_name. rewrite Hid.
  cbn [mbind result_bind mret result_ret]. unfold cache_get_or. rewrite Hx.
  cbn [default from_option id].
  destruct (String.eqb_spec attr attribute) as [E|E];
    [rewrite (Hv E)|];
    destruct (num mod 3 =? 0)%nat;
    cbn [mbind result_bind mret result_ret];
    rewrite ?round_div_PInt; reflexivity.
Qed.

Lemma is_key_known (table : list (string * Z)) (attribute : string) :
  Forall (fun entry : string * Z =>
            is_Some (assoc attributes_by_name entry.1)) table ->
  is_key table attribute = true ->
  is_Some (assoc attributes_by_name attribute).
Proof.
  unfold is_key. intros Hn Hk. apply bool_decide_eq_true in Hk.
  induction Hn as [|[attr dflt] rest Hattr _ IH]; cbn [assoc] in Hk.
  - by destruct Hk.
  - destruct (String.eqb_spec attr attribute) as [<-|_]; [done|by apply IH].
Qed.

Lemma bind_ok {A B} (m : M Cluster A) (f : A -> M Cluster B)
    (s s' : DevState Cluster) (a : A) :
  m s = (s', Ok a) -> (m ≫= f) s = f a s'.
Proof. intros E. unfold mbind, M_bind. by rewrite E. Qed.

Lemma schedule_field_ok (name : string) (value : pyval) (i : nat)
    (f : pyval -> result pyval) (attrid : Z) (item v : pyval)
    (s : DevState Cluster) :
  assoc attributes_by_name name = Some attrid ->
  index value i = Ok item ->
  f item = Ok v ->
  schedule_field name value i f s
  = (notify s (ThermostatCluster, attrid, v), Ok tt).
Proof.
  intros Hn Hi Hf. unfold schedule_field, by_name. rewrite Hn.
  unfold mbind, M_bind, lift. by rewrite Hi, Hf.
Qed.

(** A schedule report of 18 integers stores every field of its table:
    the handler walks the table from its last entry to its first. *)
Lemma schedule_change_spec (payload : list Z) (table : list (string * Z))
    (dp : Z) (s : DevState Cluster) :
  length payload = 18%nat ->
  (table, dp) = (WORKDAY_SCHEDULE_ATTRS, MOES_SCHEDULE_WORKDAY_ATTR) \/
  (table, dp) = (WEEKEND_SCHEDULE_ATTRS, MOES_SCHEDULE_WEEKEND_ATTR) ->
  schedule_change dp (PList (PInt <$> payload)) s
  = (apply_updates (rev (field_updates table payload)) s, Ok tt).
Proof.
  intros Hlen Htd.
  do 19 (destruct payload as [|? payload]; try discriminate Hlen). clear Hlen.
  destruct Htd as [[= -> ->]|[= -> ->]];
    unfold schedule_change; eqb_consts; cbv iota;
    repeat (erewrite bind_ok; [|eapply schedule_field_ok; reflexivity]);
    (erewrite schedule_field_ok; reflexivity).
Qed.

Lemma schedule_report_spec (direct : mapped_attrs) (payload : list Z)
    (table : list (string * Z)) (dp : Z) (s : DevState Cluster) :
  length payload = 18%nat ->
  (table, dp) = (WORKDAY_SCHEDULE_ATTRS, MOES_SCHEDULE_WORKDAY_ATTR) \/
  (table, dp) = (WEEKEND_SCHEDULE_ATTRS, MOES_SCHEDULE_WEEKEND_ATTR) ->
  assoc_Z direct dp = None ->
  run (ManufCluster_update_attribute direct dp (PList (PInt <$> payload))) s
  = apply_updates
      ((ManufCluster, dp, PList (PInt <$> payload))
         :: rev (field_updates table payload)) s.
Proof.
  intros Hlen Htd Hd. unfold run, ManufCluster_update_attribute.
  rewrite Hd.
  destruct Htd as [[= -> ->]|[= -> ->]].
  all: erewrite bind_ok by reflexivity.
  all: erewrite bind_ok;
    [|eqb_consts; cbn [orb]; unfold listener;
      erewrite schedule_change_spec by (done || by auto); reflexivity].
  all: eqb_consts; reflexivity.
Qed.

(** Scaling a stored entry back gives the reported one, hours masked. *)
Lemma encode_stored (k : nat) (x : Z) :
  encode k (stored k x) = if (k mod 3 =? 2)%nat then Z.land x 0x3F else x.
Proof.
  unfold encode, stored.
  destruct (k mod 3 =? 0)%nat eqn:E0.
  - rewrite round_half_even_exact.
    apply Nat.eqb_eq in E0. by rewrite E0.
  - reflexivity.
Qed.

Lemma payload_back (payload : list Z) :
  imap (fun k x => PInt (encode (0 + k) x)) (imap stored payload)
  = masked payload.
Proof.
  apply list_eq. intros i. unfold masked. rewrite !list_lookup_imap.
  destruct (payload !! i) as [x|]; [|done]. cbn. by rewrite encode_stored.
Qed.

Ltac field_cached Hc Hid :=
  eexists; split; [reflexivity|]; split;
  [ rewrite Hc, lookup_apply_updates; reflexivity
  | intros <-; vm_compute in Hid; injection Hid as <-;
    unfold cache_get; rewrite Hc, lookup_apply_updates; reflexivity ].

Ltac fields_cached Hlen Hc Hid payload :=
  do 19 (destruct payload as [|? payload]; try discriminate Hlen);
  repeat (apply List.Forall2_cons; [field_cached Hc Hid|]);
  apply List.Forall2_nil.

Lemma schedule_written_back (direct : mapped_attrs) (mapping : mapping_attrs)
    (payload : list Z) (attribute : string) (table : list (string * Z))
    (dp attrid : Z) (s : DevState Cluster) :
  length payload = 18%nat ->
  (table, dp) = (WORKDAY_SCHEDULE_ATTRS, MOES_SCHEDULE_WORKDAY_ATTR) \/
  (table, dp) = (WEEKEND_SCHEDULE_ATTRS, MOES_SCHEDULE_WEEKEND_ATTR) ->
  assoc_Z direct dp = None ->
  assoc mapping attribute = None ->
  is_key table attribute = true ->
  assoc attributes_by_name attribute = Some attrid ->
  let c := attr_cache
             (run (ManufCluster_update_attribute direct dp
                     (PList (PInt <$> payload))) s)
             ThermostatCluster in
  map_attribute mapping c attribute (cache_get c attrid)
  = Ok (Some [(dp, PList (masked payload))]).
Proof.
  intros Hlen Htd Hd Hm Hk Hid c.
  assert (Hc : c = attr_cache
                     (apply_updates
                        ((ManufCluster, dp, PList (PInt <$> payload))
                           :: rev (field_updates table payload)) s)
                     ThermostatCluster)
    by (subst c; by rewrite (schedule_report_spec direct payload table dp s)).
  clearbody c.
  destruct Htd as [[= -> ->]|[= -> ->]].
  - destruct (MoesFacts.workday_key _ Hk) as (_ & _ & H1 & H2 & H3).
    unfold map_attribute. rewrite Hm, H1, H2, H3, Hk.
    cbn [orb mbind result_bind mret result_ret].
    rewrite (schedule_data_cached c attribute _ _ (imap stored payload)).
    + cbn [mbind result_bind mret result_ret]. by rewrite payload_back.
    + fields_cached Hlen Hc Hid payload.
  - destruct (MoesFacts.weekend_key _ Hk) as (_ & _ & H1 & H2 & H3 & H4).
    unfold map_attribute. rewrite Hm, H1, H2, H3, H4, Hk.
    cbn [orb mbind result_bind mret result_ret].
    rewrite (schedule_data_cached c attribute _ _ (imap stored payload)).
    + cbn [mbind result_bind mret result_ret]. by rewrite payload_back.
    + fields_cached Hlen Hc Hid payload.
Qed.

(** X11.  A reported Moes schedule can be written back.  After a workday
    or weekend schedule report of 18 integers, a write of any field of that
    schedule with the value the report left in the cache maps to the
    schedule datapoint with the reported payload, entry by entry, except
    that the hours come back with their low six bits only.  This holds for
    the old and for the new thermostat class, whatever the state before
    the report. *)
Theorem schedule_report_written_back (payload : list Z) (attribute : string)
    (table : list (string * Z)) (dp : Z) (s : DevState Cluster) :
  length payload = 18%nat ->
  (table, dp) = (WORKDAY_SCHEDULE_ATTRS, MOES_SCHEDULE_WORKDAY_ATTR) \/
  (table, dp) = (WEEKEND_SCHEDULE_ATTRS, MOES_SCHEDULE_WEEKEND_ATTR) ->
  is_key table attribute = true ->
  exists attrid,
    assoc attributes_by_name attribute = Some attrid /\
    (let c := attr_cache
                (run (ManufCluster_update_attribute DIRECT_MAPPED_ATTRS dp
                        (PList (PInt <$> payload))) s)
                ThermostatCluster in
     map_attribute DIRECT_MAPPING_ATTRS c attribute (cache_get c attrid)
     = Ok (Some [(dp, PList (masked payload))])) /\
    (let c := attr_cache
                (run (ManufCluster_update_attribute DIRECT_MAPPED_ATTRS_New dp
                        (PList (PInt <$> payload))) s)
                ThermostatCluster in
     map_attribute DIRECT_MAPPING_ATTRS_New c attribute (cache_get c attrid)
     = Ok (Some [(dp, PList (masked payload))])).
Proof.
  intros Hlen Htd Hk.
  assert (is_Some (assoc attributes_by_name attribute)) as [attrid Hid].
  { pose proof MoesFacts.schedule_names_known as Hn.
    apply Forall_app in Hn as [Hw He].
    destruct Htd as [[= -> ->]|[= -> ->]];
      [exact (is_key_known _ _ Hw Hk) | exact (is_key_known _ _ He Hk)]. }
  assert (assoc DIRECT_MAPPING_ATTRS attribute = None /\
          assoc DIRECT_MAPPING_ATTRS_New attribute = None) as [Hm Hm'].
  { destruct Htd as [[= -> ->]|[= -> ->]].
    - by destruct (MoesFacts.workday_key _ Hk) as (? & ? & _).
    - by destruct (MoesFacts.weekend_key _ Hk) as (? & ? & _). }
  assert (assoc_Z DIRECT_MAPPED_ATTRS dp = None /\
          assoc_Z DIRECT_MAPPED_ATTRS_New dp = None) as [Hd Hd'].
  { destruct Htd as [[= -> ->]|[= -> ->]]; split; reflexivity. }
  exists attrid. split; [exact Hid|].
  split.
  - exact (schedule_written_back _ _ _ _ _ _ _ s Hlen Htd Hd Hm Hk Hid).
  - exact (schedule_written_back _ _ _ _ _ _ _ s Hlen Htd Hd' Hm' Hk Hid).
Qed.

Lemma schedule_report_written_back_witness :
  exists attrid,
    assoc attributes_by_name "weekend_schedule_2_hour" = Some attrid /\
    (let c := attr_cache
                (run (ManufCluster_update_attribute DIRECT_MAPPED_ATTRS
                        MOES_SCHEDULE_WEEKEND_ATTR
                        (PList (PInt <$> [15; 0; 22; 20; 30; 17; 15; 30; 12;
                                          15; 30; 11; 15; 0; 72; 20; 0; 6])))
                   (fresh (fun _ => ∅)))
                ThermostatCluster in
     map_attribute DIRECT_MAPPING_ATTRS c "weekend_schedule_2_hour"
       (cache_get c attrid)
     = Ok (Some [(MOES_SCHEDULE_WEEKEND_ATTR,
                  PList (masked [15; 0; 22; 20; 30; 17; 15; 30; 12;
                                 15; 30; 11; 15; 0; 72; 20; 0; 6]))])) /\
    (let c := attr_cache
                (run (ManufCluster_update_attribute DIRECT_MAPPED_ATTRS_New
                        MOES_SCHEDULE_WEEKEND_ATTR
                        (PList (PInt <$> [15; 0; 22; 20; 30; 17; 15; 30; 12;
                                          15; 30; 11; 15; 0; 72; 20; 0; 6])))
                   (fresh (fun _ => ∅)))
                ThermostatCluster in
     map_attribute DIRECT_MAPPING_ATTRS_New c "weekend_schedule_2_hour"
       (cache_get c attrid)
     = Ok (Some [(MOES_SCHEDULE_WEEKEND_ATTR,
                  PList (masked [15; 0; 22; 20; 30; 17; 15; 30; 12;
                                 15; 30; 11; 15; 0; 72; 20; 0; 6]))])).
Proof.
  apply (schedule_report_written_back
           [15; 0; 22; 20; 30; 17; 15; 30; 12; 15; 30; 11; 15; 0; 72; 20; 0; 6]
           "weekend_schedule_2_hour" WEEKEND_SCHEDULE_ATTRS
           MOES_SCHEDULE_WEEKEND_ATTR (fresh (fun _ => ∅)));
    [reflexivity | right; reflexivity | reflexivity].
Defined.

Lemma bind_raise {A B} (m : M Cluster A) (f : A -> M Cluster B)
    (s s' : DevState Cluster) (e : exn) :
  m s = (s', Raise e) -> (m ≫= f) s = (s', Raise e).
Proof. intros E. unfold mbind, M_bind. by rewrite E. Qed.

Lemma schedule_field_short (name : string) (l : list pyval) (i : nat)
    (f : pyval -> result pyval) (s : DevState Cluster) :
  is_Some (assoc attributes_by_name name) ->
  (length l <= i)%nat ->
  schedule_field name (PList l) i f s = (s, Raise IndexError).
Proof.
  intros [attrid Hn] Hi. unfold schedule_field, by_name. rewrite Hn.
  unfold mbind, M_bind, lift, index.
  by rewrite (proj2 (lookup_ge_None l i) Hi).
Qed.

(** X18.  A schedule report that is too short changes no schedule field.
    The handler reads the last of the 18 entries first, so a payload of
    fewer than 18 entries, whatever they are, fails before the first
    field is stored: the report is kept in the cache of the manufacturer
    cluster and nothing else is updated or notified. *)
Theorem short_schedule_changes_nothing (l : list pyval) (dp : Z)
    (s : DevState Cluster) :
  (length l < 18)%nat ->
  dp = MOES_SCHEDULE_WORKDAY_ATTR \/ dp = MOES_SCHEDULE_WEEKEND_ATTR ->
  run (ManufCluster_update_attribute DIRECT_MAPPED_ATTRS dp (PList l)) s
    = apply_updates [(ManufCluster, dp, PList l)] s /\
  run (ManufCluster_update_attribute DIRECT_MAPPED_ATTRS_New dp (PList l)) s
    = apply_updates [(ManufCluster, dp, PList l)] s.
Proof.
  intros Hlen Hdp.
  assert (forall s', schedule_change dp (PList l) s' = (s', Raise IndexError))
    as Hsc.
  { intros s'. destruct Hdp as [-> | ->];
      unfold schedule_change; eqb_consts; cbv iota;
      apply bind_raise, schedule_field_short.
    all: try by eexists.
    all: lia. }
  destruct Hdp as [-> | ->]; split; unfold run, ManufCluster_update_attribute.
  all: erewrite bind_ok by reflexivity.
  all: erewrite bind_ok;
    [|change (assoc_Z _ _)
        with (@None (string * option (pyval -> result pyval)));
      eqb_consts; cbn [orb]; unfold listener; rewrite Hsc; reflexivity].
  all: eqb_consts; reflexivity.
Qed.

Lemma short_schedule_changes_nothing_witness :
  run (ManufCluster_update_attribute DIRECT_MAPPED_ATTRS
         MOES_SCHEDULE_WORKDAY_ATTR (PList [PInt 15; PInt 0; PInt 22]))
      (fresh (fun _ => ∅))
  = apply_updates
      [(ManufCluster, MOES_SCHEDULE_WORKDAY_ATTR,
        PList [PInt 15; PInt 0; PInt 22])]
      (fresh (fun _ => ∅)).
Proof.
  apply (short_schedule_changes_nothing [PInt 15; PInt 0; PInt 22]
           MOES_SCHEDULE_WORKDAY_ATTR (fresh (fun _ => ∅)));
    [simpl; lia | left; reflexivity].
Defined.

End ScheduleFacts.

(** ** Temperatures: from a report to the cache and back to a datapoint *)

Module TemperatureFacts.

(** Decide the comparisons between cluster names that appear in the goal. *)
Ltac pick_cluster :=
  repeat match goal with
    | |- context [decide (?a = ?b)] =>
        let d := eval vm_compute in (decide (a = b)) in
        change (decide (a = b)) with d
    end;
  cbv beta iota; unfold id.

Ltac report_then_map :=
  intros s;
  unfold Saswell.ManufCluster_update_attribute,
    Saswell.hass_climate_state_change, Saswell.hass_state,
    Saswell.TemperatureOffset_set_value, Saswell.Thermostat_map_attribute,
    Siterwell.ManufCluster_update_attribute, Siterwell.map_attribute,
    Zonnsmart.ManufCluster_update_attribute, Zonnsmart.state_temp_change,
    Zonnsmart.temp_state, Zonnsmart.TemperatureOffset_set_value,
    Zonnsmart.Thermostat_map_attribute,
    temperature_change, state_change, set_present_value;
  exec; pick_cluster;
  repeat (case_match; exec; pick_cluster);
  unfold cache_get; lookup_cache; cbn [from_option id];
  unfold convert; rewrite ?round_div_int, ?round_half_even_exact;
  reflexivity.

(** X12.  A reported setpoint can be written back unchanged: when a report
    of the target temperature [t] has been handled, mapping the heating
    setpoint it left in the thermostat cache gives the target datapoint
    with [t] again, for the Saswell, Siterwell and ZONNSMART classes and
    whatever the state before the report.  The same holds for the Saswell
    temperature calibration. *)
Theorem setpoint_report_written_back (t : Z) :
  (forall s,
     let c := attr_cache
                (run (Saswell.ManufCluster_update_attribute
                        Saswell.SASWELL_TARGET_TEMP_ATTR (PInt t)) s)
                Saswell.ThermostatCluster in
     Saswell.Thermostat_map_attribute "occupied_heating_setpoint"
       (cache_get c 0x0012)
     = Ok (Some [(Saswell.SASWELL_TARGET_TEMP_ATTR, PInt t)])) /\
  (forall s,
     let c := attr_cache
                (run (Saswell.ManufCluster_update_attribute
                        Saswell.SASWELL_TEMP_CORRECTION_ATTR (PInt t)) s)
                Saswell.ThermostatCluster in
     Saswell.Thermostat_map_attribute "local_temperature_calibration"
       (cache_get c 0x0010)
     = Ok (Some [(Saswell.SASWELL_TEMP_CORRECTION_ATTR, PInt t)])) /\
  (forall s,
     let c := attr_cache
                (run (Siterwell.ManufCluster_update_attribute
                        Siterwell.SITERWELL_TARGET_TEMP_ATTR (PInt t)) s)
                Siterwell.ThermostatCluster in
     Siterwell.map_attribute c "occupied_heating_setpoint"
       (cache_get c 0x0012)
     = Ok (Some [(Siterwell.SITERWELL_TARGET_TEMP_ATTR, PInt t)])) /\
  (forall s,
     let c := attr_cache
                (run (Zonnsmart.ManufCluster_update_attribute
                        Zonnsmart.ZONNSMART_TARGET_TEMP_ATTR (PInt t)) s)
                Zonnsmart.ThermostatCluster in
     Zonnsmart.Thermostat_map_attribute c "occupied_heating_setpoint"
       (cache_get c 0x0012)
     = Ok (Some [(Zonnsmart.ZONNSMART_TARGET_TEMP_ATTR, PInt t)])).
Proof.
  split; [|split; [|split]]; report_then_map.
Qed.

End TemperatureFacts.

(** ** The converters of the datapoint table of [TuyaThermostatV2] *)

Module ConverterFacts.
Import ThermostatV2.

Ltac by_mode H :=
  unfold system_mode_converter, system_mode_dp_converter, item, assoc_Z in *;
  cbn [find fst snd] in *;
  repeat match type of H with
    | context [?a =? ?b] =>
        destruct (Z.eqb_spec a b); [subst; injection H as <-; reflexivity|]
    end;
  discriminate H.

(** X13.  The two system-mode converters of datapoint 2 are inverse to
    each other: a mode that one of them converts is converted back to
    itself by the other, and a value that is none of the three modes
    raises [KeyError] in either direction. *)
Theorem system_mode_converters_inverse (x y : Z) :
  (system_mode_converter x = Ok y -> system_mode_dp_converter y = Ok x) /\
  (system_mode_dp_converter y = Ok x -> system_mode_converter x = Ok y) /\
  (x ∉ [TuyaThermostatSystemMode.Auto; TuyaThermostatSystemMode.Heat;
        TuyaThermostatSystemMode.Off] ->
   system_mode_converter x = Raise KeyError) /\
  (y ∉ [Thermostat.SystemMode.Auto; Thermostat.SystemMode.Heat;
        Thermostat.SystemMode.Off] ->
   system_mode_dp_converter y = Raise KeyError).
Proof.
  split; [|split; [|split]]; intros H.
  - by_mode H.
  - by_mode H.
  - unfold system_mode_converter, item, assoc_Z. cbn [find fst].
    ReportFacts.unhandled H x. reflexivity.
  - unfold system_mode_dp_converter, item, assoc_Z. cbn [find fst].
    ReportFacts.unhandled H y. reflexivity.
Qed.

Lemma system_mode_converters_inverse_witness :
  system_mode_dp_converter Thermostat.SystemMode.Heat
  = Ok TuyaThermostatSystemMode.Heat.
Proof.
  apply (proj1 (system_mode_converters_inverse
                  TuyaThermostatSystemMode.Heat Thermostat.SystemMode.Heat)).
  reflexivity.
Defined.

(** X14.  The numeric converters of [TuyaThermostatV2].  Converting a
    setpoint datapoint and converting back is the identity; a written
    setpoint is cut down to the next lower multiple of ten, unlike the
    rounding of the older classes.  A calibration in the signed 32-bit
    range is sent as its two's complement: the unsigned 32-bit number
    congruent to it. *)
Theorem setpoint_and_calibration_converters (x : Z) :
  setpoint_dp_converter (setpoint_converter x) = x /\
  (setpoint_converter (setpoint_dp_converter x) <= x
   < setpoint_converter (setpoint_dp_converter x) + 10) /\
  (- 2 ^ 31 <= x < 2 ^ 31 ->
   0 <= calibration_dp_converter (calibration_converter x) < 2 ^ 32 /\
   calibration_dp_converter (calibration_converter x) = x mod 2 ^ 32).
Proof.
  unfold setpoint_dp_converter, setpoint_converter, calibration_dp_converter,
    calibration_converter.
  split; [|split].
  - by rewrite Z.div_mul.
  - pose proof (Z.div_mod x 10 ltac:(done)).
    pose proof (Z.mod_pos_bound x 10 eq_refl). lia.
  - intros Hx. destruct (Z.ltb_spec x 0).
    + split; [lia|]. symmetry.
      rewrite <- (Z.mod_add x 1 (2 ^ 32)) by lia.
      apply Z.mod_small. lia.
    + split; [lia|]. symmetry. apply Z.mod_small. lia.
Qed.

Lemma setpoint_and_calibration_converters_witness :
  0 <= calibration_dp_converter (calibration_converter (-15)) < 2 ^ 32 /\
  calibration_dp_converter (calibration_converter (-15)) = (-15) mod 2 ^ 32.
Proof.
  apply (proj2 (proj2 (setpoint_and_calibration_converters (-15)))). lia.
Defined.

End ConverterFacts.

(** ** What a mapped write can contain *)

Module MappingFacts.

Ltac one_datapoint H :=
  unfold Saswell.Thermostat_map_attribute, Saswell.DIRECT_MAPPING_ATTRS,
    Siterwell.map_attribute,
    Zonnsmart.Thermostat_map_attribute, Zonnsmart.DIRECT_MAPPING_ATTRS,
    Moes.map_attribute, Moes.DIRECT_MAPPING_ATTRS,
    Moes.DIRECT_MAPPING_ATTRS_New in H;
  cbn [assoc] in H;
  unfold mbind, mret, result_bind, result_ret in H;
  repeat (case_match; try discriminate H);
  simplify_eq; try reflexivity.

(** X15.  A write that the thermostat classes map is one datapoint: when
    [map_attribute] gives a dict for an attribute and a value, whatever
    they are and whatever the cache holds, the dict has exactly one entry.
    The ZONNSMART class maps to the heating-stopping datapoint with the
    value 1 only: heating is never switched back on through it. *)
Theorem mapped_write_is_one_datapoint (c : cache) (attribute : string)
    (value : pyval) (d : dict) :
  (Saswell.Thermostat_map_attribute attribute value = Ok (Some d) ->
   length d = 1%nat) /\
  (Siterwell.map_attribute c attribute value = Ok (Some d) ->
   length d = 1%nat) /\
  (Zonnsmart.Thermostat_map_attribute c attribute value = Ok (Some d) ->
   length d = 1%nat /\
   forall v, (Zonnsmart.ZONNSMART_HEATING_STOPPING_ATTR, v) ∈ d ->
             v = PInt 1) /\
  (Moes.map_attribute Moes.DIRECT_MAPPING_ATTRS c attribute value
     = Ok (Some d) ->
   length d = 1%nat) /\
  (Moes.map_attribute Moes.DIRECT_MAPPING_ATTRS_New c attribute value
     = Ok (Some d) ->
   length d = 1%nat).
Proof.
  split; [|split; [|split; [|split]]]; intros H.
  - one_datapoint H.
  - one_datapoint H.
  - one_datapoint H.
    all: split; [reflexivity|].
    all: intros v Hv; apply elem_of_cons in Hv as [Hv|Hv];
      [|by apply elem_of_nil in Hv].
    all: vm_compute in Hv; by simplify_eq.
  - one_datapoint H.
  - one_datapoint H.
Qed.

Lemma mapped_write_is_one_datapoint_witness :
  length [(Siterwell.SITERWELL_MODE_ATTR, PInt 0)] = 1%nat.
Proof.
  apply (proj1 (proj2 (mapped_write_is_one_datapoint ∅ "system_mode"
                         (PInt Thermostat.SystemMode.Off)
                         [(Siterwell.SITERWELL_MODE_ATTR, PInt 0)]))).
  reflexivity.
Defined.

End MappingFacts.

(** ** Writes on the ZONNSMART helper clusters *)

Module HelperFacts.
Import Zonnsmart.

Lemma global_write_spec (d : dict) (w : World) :
  let w' := fst (global_write_attributes d w) in
  ZonnsmartManuClusterSelf w' = ZonnsmartManuClusterSelf w /\
  (forall ieee,
     attr_cache (device w' ieee) = attr_cache (device w ieee) /\
     attribute_updates (device w' ieee) = attribute_updates (device w ieee)) /\
  (forall ieee,
     ZonnsmartManuClusterSelf w <> Some ieee ->
     device w' ieee = device w ieee).
Proof.
  unfold global_write_attributes.
  destruct (ZonnsmartManuClusterSelf w) as [target|] eqn:E; [|done].
  unfold on_device, tuya_manufacturer_write_attributes, device.
  cbn [fst ZonnsmartManuClusterSelf devices].
  split; [done|]. split; intros ieee.
  - destruct (decide (ieee = target)) as [->|Hne].
    + by rewrite lookup_insert_eq.
    + by rewrite lookup_insert_ne.
  - intros Hne. rewrite lookup_insert_ne; [done|]. by intros ->.
Qed.

(** X16.  A write on a ZONNSMART helper on/off cluster only sends: whatever
    the subclass, the records and the world, it leaves the shared global
    as it is, changes no cache and notifies no listener on any valve, and
    leaves every valve but the one held by the global exactly as it
    was. *)
Theorem zonnsmart_helper_write_only_sends
    (get_attr_val_to_write : pyval -> option dict) (self : Z)
    (records : list (Z * pyval)) (w : World) :
  let w' := fst (HelperOnOff_write_attributes get_attr_val_to_write
                   self records w) in
  ZonnsmartManuClusterSelf w' = ZonnsmartManuClusterSelf w /\
  (forall ieee,
     attr_cache (device w' ieee) = attr_cache (device w ieee) /\
     attribute_updates (device w' ieee) = attribute_updates (device w ieee)) /\
  (forall ieee,
     ZonnsmartManuClusterSelf w <> Some ieee ->
     device w' ieee = device w ieee).
Proof.
  unfold HelperOnOff_write_attributes.
  destruct records as [|r rest]; [done|]. cbv beta iota.
  unfold mbind, W_bind, lift_w.
  destruct (on_off_value (r :: rest) None) as [[value|]|e]; [|done|done].
  destruct (get_attr_val_to_write value) as [d|]; [|done].
  pose proof (global_write_spec d w) as H.
  destruct (global_write_attributes d w) as [w' [[]|e]]; exact H.
Qed.

Lemma zonnsmart_helper_write_only_sends_witness :
  let w := Scenario.two_valves 1 2 (mkWorld None ∅) in
  let w' := fst (HelperOnOff_write_attributes ChildLock_get_attr_val_to_write
                   1 [(0x0000, PBool true)] w) in
  device w' 1 = device w 1.
Proof.
  apply (proj2 (proj2 (zonnsmart_helper_write_only_sends
                         ChildLock_get_attr_val_to_write 1
                         [(0x0000, PBool true)]
                         (Scenario.two_valves 1 2 (mkWorld None ∅))))).
  vm_compute. congruence.
Defined.

Lemma skip_unknown (self : Z) (attributes : list (attr_key * pyval))
    (w : World) :
  Forall (fun kv : attr_key * pyval =>
            exists attrid,
              kv.1 = ById attrid /\
              has_id AnalogOutput.attributes_by_name attrid = false)
         attributes ->
  WindowOpenedTemp_write_loop self attributes w = (w, Ok tt).
Proof.
  induction 1 as [|[key value] rest (attrid & Hk & Hid) _ IH]; [done|].
  cbn [fst] in Hk. subst key.
  cbn [WindowOpenedTemp_write_loop]. unfold mbind, W_bind, lift_w.
  by rewrite Hid.
Qed.

Lemma on_device_update (self : Z) (c : Cluster) (a : Z) (v : pyval)
    (w : World) :
  exists w1,
    on_device self (update_attribute c a v) w = (w1, Ok tt) /\
    ZonnsmartManuClusterSelf w1 = ZonnsmartManuClusterSelf w /\
    forall ieee,
      device w1 ieee
      = if decide (ieee = self)
        then fst (update_attribute c a v (device w self))
        else device w ieee.
Proof.
  eexists. split; [reflexivity|]. split; [reflexivity|].
  intros ieee. unfold device. cbn [devices].
  destruct (decide (ieee = self)) as [->|Hne].
  - by rewrite lookup_insert_eq.
  - by rewrite lookup_insert_ne.
Qed.

Lemma global_write_to (d : dict) (target : Z) (w : World) :
  ZonnsmartManuClusterSelf w = Some target ->
  exists w2,
    global_write_attributes d w = (w2, Ok tt) /\
    forall ieee,
      device w2 ieee
      = if decide (ieee = target)
        then fst (tuya_manufacturer_write_attributes d (device w target))
        else device w ieee.
Proof.
  intros E. unfold global_write_attributes. rewrite E.
  eexists. split; [reflexivity|].
  intros ieee. unfold device. cbn [devices].
  destruct (decide (ieee = target)) as [->|Hne].
  - by rewrite lookup_insert_eq.
  - by rewrite lookup_insert_ne.
Qed.

(** One attribute that the cluster has, written on the valve [self]. *)
Lemma write_known (self target z attrid : Z) (key : attr_key) (w : World) :
  match key with
  | ByName name => by_name AnalogOutput.attributes_by_name name
  | ById i => Ok i
  end = Ok attrid ->
  has_id AnalogOutput.attributes_by_name attrid = true ->
  let request := WindowOpenedTemp_write_attributes self [(key, PInt z)] in
  attr_cache (device (fst (request w)) self) WindowOpenedTemp !! attrid
    = Some (PInt z) /\
  (ZonnsmartManuClusterSelf w = Some target ->
   snd (request w) = Ok [[StatusRecord SUCCESS None]] /\
   tuya_writes (device (fst (request w)) target)
   = tuya_writes (device w target)
       ++ [[(ZONNSMART_OPENED_WINDOW_TEMP, PInt (z * 10))]]) /\
  (ZonnsmartManuClusterSelf w = None ->
   snd (request w) = Raise AttributeError).
Proof.
  intros Hkey Hid. cbv zeta.
  unfold WindowOpenedTemp_write_attributes.
  cbn [WindowOpenedTemp_write_loop]. rewrite Hkey.
  unfold mbind, W_bind, lift_w, mret, W_ret. rewrite Hid.
  destruct (on_device_update self WindowOpenedTemp attrid (PInt z) w)
    as (w1 & -> & Hg & Hdev).
  cbn [mul].
  assert (Hcache : attr_cache (device w1 self) WindowOpenedTemp !! attrid
                   = Some (PInt z)).
  { rewrite Hdev, decide_True by done. cbn.
    rewrite decide_True by done. by rewrite lookup_insert_eq. }
  destruct (ZonnsmartManuClusterSelf w) as [t|] eqn:E.
  - destruct (global_write_to
                [(ZONNSMART_OPENED_WINDOW_TEMP, PInt (z * 10))] t w1 Hg)
      as (w2 & -> & Hdev2).
    cbn [fst snd]. split; [|split; [|done]].
    + rewrite Hdev2. destruct (decide (self = t)) as [<-|_]; exact Hcache.
    + intros [= <-]. split; [done|].
      rewrite Hdev2, decide_True by done. cbn [fst tuya_writes
        tuya_manufacturer_write_attributes].
      rewrite Hdev. destruct (decide (t = self)) as [->|_]; reflexivity.
  - unfold global_write_attributes. rewrite Hg. cbn [fst snd].
    split; [exact Hcache|]. split; [done|done].
Qed.

(** X17.  A write on the ZONNSMART opened-window-temperature cluster.  An
    attribute id below [0xF000] that is not an attribute of the analog
    output cluster is skipped: a request of such ids only is answered with
    success and changes nothing.  A write of an integer [z] to any
    attribute of the analog output cluster, not only to [present_value],
    first stores [z] in the cache of the cluster and then sends the
    opened-window datapoint with [10 * z] through the valve held by the
    global; when the global holds no cluster the write raises, and the
    cache has been changed all the same. *)
Theorem window_opened_temp_write (self target z : Z) (w : World)
    (attributes : list (attr_key * pyval)) :
  (Forall (fun kv : attr_key * pyval =>
             exists attrid,
               kv.1 = ById attrid /\
               0 <= attrid < 0xF000 /\
               has_id AnalogOutput.attributes_by_name attrid = false)
          attributes ->
   WindowOpenedTemp_write_attributes self attributes w
   = (w, Ok [[StatusRecord SUCCESS None]])) /\
  Forall
    (fun na : string * Z =>
       let request := WindowOpenedTemp_write_attributes self
                        [(ByName na.1, PInt z)] in
       attr_cache (device (fst (request w)) self) WindowOpenedTemp !! na.2
         = Some (PInt z) /\
       (ZonnsmartManuClusterSelf w = Some target ->
        snd (request w) = Ok [[StatusRecord SUCCESS None]] /\
        tuya_writes (device (fst (request w)) target)
        = tuya_writes (device w target)
            ++ [[(ZONNSMART_OPENED_WINDOW_TEMP, PInt (z * 10))]]) /\
       (ZonnsmartManuClusterSelf w = None ->
        snd (request w) = Raise AttributeError))
    AnalogOutput.attributes_by_name.
Proof.
  split.
  - intros H. unfold WindowOpenedTemp_write_attributes, mbind, W_bind.
    rewrite (skip_unknown self attributes w); [done|].
    eapply Forall_impl; [exact H|].
    intros kv (attrid & Hk & _ & Hid). by exists attrid.
  - repeat apply List.Forall_cons; try apply List.Forall_nil.
    all: by apply write_known.
Qed.

Lemma window_opened_temp_write_witness :
  let w := Scenario.two_valves 1 2 (mkWorld None ∅) in
  WindowOpenedTemp_write_attributes 1 [(ById 0x9999, PInt 21)] w
  = (w, Ok [[StatusRecord SUCCESS None]]).
Proof.
  apply (proj1 (window_opened_temp_write 1 2 21
                  (Scenario.two_valves 1 2 (mkWorld None ∅))
                  [(ById 0x9999, PInt 21)])).
  apply List.Forall_cons; [|apply List.Forall_nil].
  exists 0x9999. split; [reflexivity|]. split; [lia|reflexivity].
Defined.

Ltac report :=
  unfold ManufCluster_update_attribute, set_change, set_on_off,
    ui_child_lock_change;
  exec; unfold cache_get; lookup_cache.

(** X20.  The ZONNSMART helper on/off clusters between reports and writes.
    The child lock mirrors its datapoint both ways: a report leaves the
    reported value in [on_off], and a write of that value goes to the
    same datapoint.  The on-line mode is reported on the enum datapoint
    but written on the bool datapoint, and a report on the bool datapoint
    does not reach the cluster.  The boost is written as 299 seconds or 0,
    and when the valve reports what was written the cluster shows on
    exactly when the written value was true. *)
Theorem zonnsmart_helpers_report_and_write (v : pyval) (b : bool)
    (s : DevState Cluster) :
  (let c := attr_cache
              (run (ManufCluster_update_attribute
                      ZONNSMART_CHILD_LOCK_ATTR v) s) ChildLock in
   c !! 0x0000 = Some v /\
   ChildLock_get_attr_val_to_write (cache_get c 0x0000)
   = Some [(ZONNSMART_CHILD_LOCK_ATTR, v)]) /\
  (let c := attr_cache
              (run (ManufCluster_update_attribute
                      ZONNSMART_ONLINE_MODE_ENUM_ATTR v) s) OnlineMode in
   c !! 0x0000 = Some v /\
   OnlineMode_get_attr_val_to_write (cache_get c 0x0000)
   = Some [(ZONNSMART_ONLINE_MODE_BOOL_ATTR, v)]) /\
  attr_cache
    (run (ManufCluster_update_attribute ZONNSMART_ONLINE_MODE_BOOL_ATTR v) s)
    OnlineMode
  = attr_cache s OnlineMode /\
  (forall d,
     Boost_get_attr_val_to_write (PBool b) = Some d ->
     exists k,
       d = [(ZONNSMART_BOOST_TIME_ATTR, PInt k)] /\
       attr_cache
         (run (ManufCluster_update_attribute ZONNSMART_BOOST_TIME_ATTR
                 (PInt k)) s) Boost !! 0x0000
       = Some (PInt (if b then 1 else 0))).
Proof.
  split; [|split; [|split]].
  - cbv zeta. split; report; reflexivity.
  - cbv zeta. split; report; reflexivity.
  - report. reflexivity.
  - intros d [= <-]. eexists. split; [reflexivity|].
    destruct b; report; reflexivity.
Qed.

Lemma zonnsmart_helpers_report_and_write_witness :
  exists k,
    [(ZONNSMART_BOOST_TIME_ATTR, PInt 299)]
    = [(ZONNSMART_BOOST_TIME_ATTR, PInt k)] /\
    attr_cache
      (run (ManufCluster_update_attribute ZONNSMART_BOOST_TIME_ATTR (PInt k))
         Scenario.zonnsmart_new) Boost !! 0x0000
    = Some (PInt 1).
Proof.
  apply (proj2 (proj2 (proj2 (zonnsmart_helpers_report_and_write
                                PNone true Scenario.zonnsmart_new)))).
  reflexivity.
Defined.

End HelperFacts.

(** ** Writes on the temperature offset clusters *)

Module OffsetFacts.
Import Offset.

Ltac offset_write :=
  unfold SaswellTemperatureOffset_write_attributes,
    ZONNSMARTTemperatureOffset_write_attributes, write_loop,
    tuya_manufacturer_write_attributes;
  exec; reflexivity.

(** X22.  A write on a temperature offset cluster.  A write of an integer
    [z] to any attribute the cluster has, not only to [present_value],
    stores [z] under that attribute and sends the calibration datapoint of
    the valve once, with [z] for a Saswell valve and with [10 * z] for a
    ZONNSMART one, and is answered with success.  A calibration that a
    Saswell valve reports is sent back unchanged when the cached offset is
    written, and a ZONNSMART valve that reports what was sent leaves in
    the cache a number equal to the one written. *)
Theorem temperature_offset_write (z : Z) :
  Forall
    (fun na : string * Z =>
       (forall s,
          SaswellTemperatureOffset_write_attributes
            [(Zonnsmart.ByName na.1, PInt z)] s
          = ((tuya_manufacturer_write_attributes
                [(Saswell.SASWELL_TEMP_CORRECTION_ATTR, PInt z)]
                (apply_updates [(Saswell.TemperatureOffset, na.2, PInt z)] s)).1,
             Ok [[StatusRecord SUCCESS None]])) /\
       (forall s,
          ZONNSMARTTemperatureOffset_write_attributes
            [(Zonnsmart.ByName na.1, PInt z)] s
          = ((tuya_manufacturer_write_attributes
                [(Zonnsmart.ZONNSMART_TEMPERATURE_CALIBRATION_ATTR,
                  PInt (z * 10))]
                (apply_updates [(Zonnsmart.TemperatureOffset, na.2, PInt z)]
                   s)).1,
             Ok [[StatusRecord SUCCESS None]])))
    AnalogOutput.attributes_by_name /\
  (forall s,
     let s' := run (Saswell.ManufCluster_update_attribute
                      Saswell.SASWELL_TEMP_CORRECTION_ATTR (PInt z)) s in
     sent (SaswellTemperatureOffset_write_attributes
             [(Zonnsmart.ByName "present_value",
               cache_get (attr_cache s' Saswell.TemperatureOffset) 0x0055)])
          s'
     = [[(Saswell.SASWELL_TEMP_CORRECTION_ATTR, PInt z)]]) /\
  (forall s,
     let s' := run (ZONNSMARTTemperatureOffset_write_attributes
                      [(Zonnsmart.ByName "present_value", PInt z)]) s in
     exists q,
       attr_cache
         (run (Zonnsmart.ManufCluster_update_attribute
                 Zonnsmart.ZONNSMART_TEMPERATURE_CALIBRATION_ATTR
                 (PInt (z * 10))) s')
         Zonnsmart.TemperatureOffset !! 0x0055
       = Some (PFloat q) /\
       (q == inject_Z z)%Q).
Proof.
  split; [|split].
  - repeat apply List.Forall_cons; try apply List.Forall_nil.
    all: split; intros s; offset_write.
  - intros s. apply sent_app.
    unfold Saswell.ManufCluster_update_attribute,
      Saswell.TemperatureOffset_set_value, set_present_value,
      temperature_change,
      SaswellTemperatureOffset_write_attributes, write_loop,
      tuya_manufacturer_write_attributes.
    exec. unfold cache_get. lookup_cache. reflexivity.
  - intros s. eexists. split.
    + unfold Zonnsmart.ManufCluster_update_attribute,
        Zonnsmart.TemperatureOffset_set_value, set_present_value,
        temperature_change,
        ZONNSMARTTemperatureOffset_write_attributes, write_loop,
        tuya_manufacturer_write_attributes.
      exec. lookup_cache. reflexivity.
    + rewrite Qred_correct. unfold Qeq. cbn. lia.
Qed.

End OffsetFacts.
